(** * Opinion.Trade market monitor: a shallow embedding of new-market-code.py

    Part I is the model: the Python values the bot manipulates, the two
    dataclasses, the filter predicate, the alert dispatcher, the
    persistence pair save_data / load_data, the record parser, the
    polling job, the /start and /test handlers and, on a chat of their
    own, the handlers for the settings and the buttons.  Part II states
    and proves what the model does, component by component; Part III
    does the same for the fetch, the load, repeated cycles of the job and
    the handlers for the settings.

    Modelling conventions.
    - A number is the value of an [int] or of a [float]: a rational when
      it is finite, since Python compares finite numbers exactly, or an
      infinity or NaN; [float] rounds an [int] beyond 2^53 and raises
      [OverflowError] on one that is too large for a double.
    - [str] is a list of characters; [str.lower] is modelled on the ASCII
      range.
    - [set] is [gset], [dict] is [gmap]; both are used as maps and sets
      only, so iteration order is left to the library.
    - A [datetime] is either naive (no tzinfo) or aware; subtracting one
      from the other raises [TypeError], as in Python.
    - Every coroutine is a function from the state of the world before the
      call to an outcome and the state of the world after it. *)

From Stdlib Require Import ZArith QArith Qcanon String Ascii List Lia.
From Stdlib Require DecimalString DecimalZ DecimalPos.
From stdpp Require Import base decidable option list numbers strings gmap.

Import ListNotations.
Set Warnings "-register-all".
Local Open Scope string_scope.
Local Open Scope Z_scope.
Local Open Scope list_scope.

(** * Part I: the model *)

(** ** Python values *)

Module Py.

(** The exception classes that occur in the modelled code.
    [ChannelError] stands for whatever the Telegram client raises from
    [send_message], [ClientError] for whatever the HTTP client raises from
    a request; both are subclasses of [Exception]. *)
Inductive exn : Type :=
| KeyError | ValueError | TypeError | AttributeError | OverflowError
| ChannelError | ClientError.

(** ** Strings *)

Definition lower_char (c : ascii) : ascii :=
  let n := nat_of_ascii c in
  if ((65 <=? n)%nat && (n <=? 90)%nat)%bool then ascii_of_nat (n + 32) else c.

(** [s.lower()] *)
Fixpoint lower (s : string) : string :=
  match s with
  | EmptyString => EmptyString
  | String c t => String (lower_char c) (lower t)
  end.

(** [needle in hay] on strings *)
Fixpoint contains (hay needle : string) : bool :=
  (String.prefix needle hay
   || match hay with
      | EmptyString => false
      | String _ t => contains t needle
      end)%bool.

(** [s.replace(old, new)] for a one-character [old]. *)
Fixpoint replace_char (old : ascii) (new : string) (s : string) : string :=
  match s with
  | EmptyString => EmptyString
  | String c t =>
      if Ascii.eqb c old then new +:+ replace_char old new t
      else String c (replace_char old new t)
  end.

(** What "is a substring of" means. *)
Definition substring_of (needle hay : string) : Prop :=
  exists pre post, hay = pre +:+ needle +:+ post.

(** ** Numbers *)

(** The value of a Python [int] or [float].  A finite number is kept as
    the rational it denotes, which is how Python compares numbers, ints
    with floats included; a float can also be an infinity or NaN. *)
Inductive number : Type :=
| Finite (q : Qc)
| Infinity (negative : bool)
| NaN.

(** The number of an integer. *)
Definition amount (z : Z) : number := Finite (Qc_of_Z z).


(** [a < b] on numbers: false as soon as one side is NaN. *)
Definition lt (a b : number) : bool :=
  match a, b with
  | NaN, _ | _, NaN => false
  | Finite x, Finite y => bool_decide (x < y)%Qc
  | Finite _, Infinity negative => negb negative
  | Infinity negative, Finite _ => negative
  | Infinity negative, Infinity negative' => (negative && negb negative')%bool
  end.


(** Every integer up to this one in absolute value is a double. *)
Definition EXACT_INT : Z := 2 ^ 53.

(** The least integer that is too large for [float]: it rounds to
    2^1024, one step beyond the largest double. *)
Definition OVERFLOW_INT : Z := 2 ^ 1024 - 2 ^ 970.

(** The value is an integer beyond the range in which every integer is
    a double. *)
Definition beyond_exact (a : number) : bool :=
  match a with
  | Finite q => (Pos.eqb (Qden q) 1 && (EXACT_INT <? Z.abs (Qnum q)))%bool
  | _ => false
  end.

(** The value is an integer that [float] cannot convert. *)
Definition too_large (a : number) : bool :=
  match a with
  | Finite q => (Pos.eqb (Qden q) 1 && (OVERFLOW_INT <=? Z.abs (Qnum q)))%bool
  | _ => false
  end.

(** ** datetime and timedelta *)

(** A naive datetime carries wall-clock fields only; an aware one
    denotes an instant.  Both are counted in microseconds. *)
Inductive datetime : Type :=
| Naive (wall : Z)
| Aware (utc : Z).

(** A [timedelta], in microseconds. *)
Definition timedelta : Type := Z.

Definition MICROSECONDS_PER_DAY : Z := 86400 * 1000000.

Definition hours (h : Z) : timedelta := h * 3600 * 1000000.
Definition minutes (m : Z) : timedelta := m * 60 * 1000000.
Definition days_td (d : Z) : timedelta := d * MICROSECONDS_PER_DAY.

(** [a - b] on datetimes: mixing naive and aware raises [TypeError]. *)
Definition dt_sub (a b : datetime) : exn + timedelta :=
  match a, b with
  | Naive x, Naive y => inr (x - y)
  | Aware x, Aware y => inr (x - y)
  | _, _ => inl TypeError
  end.

(** [dt + td] *)
Definition dt_add (a : datetime) (d : timedelta) : datetime :=
  match a with
  | Naive x => Naive (x + d)
  | Aware x => Aware (x + d)
  end.

(** [td.days]: a timedelta is normalised so that 0 <= seconds < 86400,
    hence [days] is the floor of the duration in days. *)
Definition td_days (d : timedelta) : Z := d / MICROSECONDS_PER_DAY.

(** The least number of whole days that covers [d]. *)
Definition td_ceil_days (d : timedelta) : Z := - ((- d) / MICROSECONDS_PER_DAY).

End Py.

Export Py.

(** ** Configuration *)

(** The keys of CATEGORIES with their display names, in source order. *)
Definition CATEGORIES : list (string * string) :=
  [ ("politics", "Politics"); ("crypto", "Cryptocurrency"); ("sports", "Sports");
    ("entertainment", "Entertainment"); ("technology", "Technology");
    ("finance", "Finance"); ("science", "Science"); ("other", "Other") ].

(** [CATEGORIES.get(key, default)] *)
Definition CATEGORIES_get (key default : string) : string :=
  match List.find (fun kv => String.eqb (fst kv) key) CATEGORIES with
  | Some kv => snd kv
  | None => default
  end.

(** ** Data structures *)

Record Market : Type := {
  id : string;
  question : string;
  description : string;
  category : string;
  volume : number;
  liquidity : number;
  expiry : datetime;
  url : string;
  created_at : datetime;
  tags : list string
}.

(** The annotation of [last_notified] says [Dict[str, datetime]]; what
    [load_data] stores there is whatever the JSON file holds, which for a
    file written by [save_data] is a string.  The values are therefore a
    sum. *)
Inductive stamp : Type :=
| StampDatetime (t : datetime)
| StampStr (s : string).

Record UserPreferences : Type := {
  user_id : Z;
  enabled_categories : gset string;
  keywords : list string;
  min_liquidity : number;
  min_volume : number;
  notify_on_launch : bool;
  last_notified : gmap string stamp
}.

(** Truth value of a set and of a list: non-empty. *)
Definition set_truthy (s : gset string) : bool := negb (bool_decide (s = ∅)).
Definition list_truthy {A} (l : list A) : bool :=
  match l with [] => false | _ :: _ => true end.

(** ** Market filtering *)

(** [f"{market.question} {market.description}".lower()] *)
Definition market_text (market : Market) : string :=
  lower (question market +:+ " " +:+ description market).

Definition market_matches_preferences (market : Market) (prefs : UserPreferences) : bool :=
  (* Check category *)
  if (set_truthy (enabled_categories prefs)
      && negb (bool_decide (category market ∈ enabled_categories prefs)))%bool
  then false
  (* Check liquidity *)
  else if Py.lt (liquidity market) (min_liquidity prefs) then false
  (* Check volume *)
  else if Py.lt (volume market) (min_volume prefs) then false
  (* Check keywords *)
  else if list_truthy (keywords prefs) then
    if negb (existsb (fun keyword => contains (market_text market) (lower keyword))
                     (keywords prefs))
    then false
    else true
  else true.

(** *** The four predicates of the filter, as propositions *)

Definition category_predicate (market : Market) (prefs : UserPreferences) : Prop :=
  enabled_categories prefs = ∅ \/ category market ∈ enabled_categories prefs.



(** The two threshold tests as the source makes them: the amount is not
    below the minimum, which it never is when one of the two is NaN. *)
Definition liquidity_not_below (market : Market) (prefs : UserPreferences) : Prop :=
  Py.lt (liquidity market) (min_liquidity prefs) = false.

Definition volume_not_below (market : Market) (prefs : UserPreferences) : Prop :=
  Py.lt (volume market) (min_volume prefs) = false.

(** A keyword list accepts a text when it is empty or one of its keywords
    occurs in the text, case being ignored. *)
Definition keyword_predicate_on (text : string) (prefs : UserPreferences) : Prop :=
  keywords prefs = [] \/
  exists keyword, In keyword (keywords prefs) /\ substring_of (lower keyword) (lower text).


(** The keyword predicate over the text the source builds: title, one
    space, description. *)
Definition keyword_predicate_spaced (market : Market) (prefs : UserPreferences) : Prop :=
  keyword_predicate_on (question market +:+ " " +:+ description market) prefs.

(** ** JSON documents *)

(** What [json.load] returns and [json.dump] accepts.  An object keeps
    its members in order, with distinct keys. *)
Inductive json : Type :=
| JNull
| JBool (b : bool)
| JNum (x : number)
| JStr (s : string)
| JArr (items : list json)
| JObj (members : list (string * json)).

(** [d.get(key)] / [d[key]] on the members of an object *)
Fixpoint jget (key : string) (members : list (string * json)) : option json :=
  match members with
  | [] => None
  | (k, v) :: rest => if String.eqb k key then Some v else jget key rest
  end.

Definition as_str (j : json) : option string :=
  match j with JStr s => Some s | _ => None end.

(** A JSON array of strings, as a Python list of [str]. *)
Definition as_str_list (j : json) : option (list string) :=
  match j with
  | JArr items => mapM as_str items
  | _ => None
  end.

(** ** Library functions that are taken as given *)

Record Lib : Type := {
  (** [float(s)] on a string; [None] is [ValueError] *)
  float_of_str : string -> option number;
  (** the double nearest to an integer that is not too large for one *)
  nearest_double : Z -> Qc;
  (** [datetime.fromisoformat(s)]; [None] is [ValueError] *)
  fromisoformat : string -> option datetime;
  (** [str(v)] on a JSON value that is not a string *)
  str_of_json : json -> string;
  (** [str(dt)] *)
  str_of_datetime : datetime -> string
}.

(** ** The world around the bot *)

(** What a request to the markets API yields: a response with a status
    and a JSON body, or a timeout, a transport error or a body that is not
    JSON. *)
Inductive ApiReply : Type :=
| HttpReply (status : Z) (body : json)
| HttpFailure.

(** What the environment answers: the instant of the n-th reading of the
    clock (microseconds, UTC), the offset of the local zone, whether the
    n-th call of [send_message] succeeds, and the reply to the n-th
    request to the markets API. *)
Record Env : Type := {
  instant : nat -> Z;
  local_offset : Z;
  channel_ok : nat -> bool;
  api : nat -> ApiReply
}.

(** The text of an alert, kept as the values the f-string interpolates. *)
Record Message : Type := {
  msg_question : string;
  msg_volume : number;
  msg_liquidity : number;
  msg_category : string;
  msg_expires : datetime;
  msg_days_left : Z;
  msg_tags : string;
  msg_url : string
}.

(** One call of [application.bot.send_message]. *)
Record Send : Type := {
  chat_id : Z;
  text : Message;
  delivered : bool
}.

Inductive LogRecord : Type :=
| LogInfo (what : string)
| LogWarning (what : string) (e : exn)
| LogError (what : string) (e : exn)
| LogApiError (status : Z).

Inductive Reply : Type :=
| WelcomeMsg
| TestAlertSent.

(** The fields of [self] that the modelled methods use. *)
Record OpinionTradeMonitorBot : Type := {
  seen_markets : gset string;
  user_prefs : gmap Z UserPreferences
}.

Record World : Type := {
  bot : OpinionTradeMonitorBot;
  (** every call of [send_message] so far, oldest first *)
  outbox : list Send;
  (** every [reply_text] so far, oldest first *)
  replies : list (Z * Reply);
  logged : list LogRecord;
  (** how often the clock has been read *)
  clock_reads : nat;
  (** the contents of DATA_FILE, if the file exists *)
  data_file : option json;
  (** how often the markets API has been called *)
  fetches : nat
}.

(** *** Worlds that the statements name *)

(** A bot without subscribers and with an empty ledger. *)
Definition empty_bot : OpinionTradeMonitorBot :=
  {| seen_markets := ∅; user_prefs := ∅ |}.

(** A world in which nothing has happened yet, around a given bot. *)
Definition fresh_world (self : OpinionTradeMonitorBot) : World :=
  {| bot := self; outbox := []; replies := []; logged := [];
     clock_reads := 0; data_file := None; fetches := 0 |}.

(** The world around another bot. *)
Definition with_bot (self : OpinionTradeMonitorBot) (w : World) : World :=
  {| bot := self; outbox := outbox w; replies := replies w; logged := logged w;
     clock_reads := clock_reads w; data_file := data_file w; fetches := fetches w |}.

(** The world with [n] more readings of the clock. *)
Definition tick (n : nat) (w : World) : World :=
  {| bot := bot w; outbox := outbox w; replies := replies w; logged := logged w;
     clock_reads := n + clock_reads w; data_file := data_file w; fetches := fetches w |}.

(** The world with more lines in the log. *)
Definition add_logs (rs : list LogRecord) (w : World) : World :=
  {| bot := bot w; outbox := outbox w; replies := replies w; logged := logged w ++ rs;
     clock_reads := clock_reads w; data_file := data_file w; fetches := fetches w |}.

(** A new process over the same disk: [__init__] starts from an empty
    ledger and no subscribers. *)
Definition restart (w : World) : World :=
  {| bot := empty_bot; outbox := []; replies := []; logged := [];
     clock_reads := 0; data_file := data_file w; fetches := 0 |}.

(** ** Coroutines as state transformers with exceptions *)

(** [Unmodelled] marks a run that leaves the typed fragment: a field of a
    JSON document holds a value that the dataclasses' annotations rule
    out and that Python would nevertheless store, or a key of the
    preference file is not a plain decimal numeral.  No statement below
    concludes anything from such a run. *)
Inductive outcome (A : Type) : Type :=
| Returned (a : A)
| Raised (e : exn)
| Unmodelled.

Arguments Returned {A} a.
Arguments Raised {A} e.
Arguments Unmodelled {A}.

Definition M (A : Type) : Type := World -> outcome A * World.

Definition ret {A} (a : A) : M A := fun w => (Returned a, w).

Definition bind {A B} (c : M A) (k : A -> M B) : M B :=
  fun w =>
    match c w with
    | (Returned a, w') => k a w'
    | (Raised e, w') => (Raised e, w')
    | (Unmodelled, w') => (Unmodelled, w')
    end.

Definition raise {A} (e : exn) : M A := fun w => (Raised e, w).

Definition unmodelled {A} : M A := fun w => (Unmodelled, w).

(** [try: body  except classes as e: handler(e)]: what [body] did to the
    world before it raised stays done; an exception outside [classes]
    passes through. *)
Definition try_except {A} (body : M A) (classes : exn -> bool) (handler : exn -> M A) : M A :=
  fun w =>
    match body w with
    | (Raised e, w') => if classes e then handler e w' else (Raised e, w')
    | r => r
    end.

(** Every modelled exception is an [Exception]. *)
Definition Exception (e : exn) : bool := true.

Definition KeyError_or_ValueError (e : exn) : bool :=
  match e with
  | KeyError | ValueError => true
  | _ => false
  end.

Declare Scope py_scope.
Delimit Scope py_scope with py.
Notation "'let*' x ':=' c 'in' k" := (bind c (fun x => k))
  (at level 10, x name, c at level 200, k at level 200) : py_scope.
Local Open Scope py_scope.

Definition get_bot : M OpinionTradeMonitorBot := fun w => (Returned (bot w), w).

Definition set_bot (b : OpinionTradeMonitorBot) : M unit :=
  fun w => (Returned tt,
            {| bot := b; outbox := outbox w; replies := replies w; logged := logged w;
               clock_reads := clock_reads w; data_file := data_file w; fetches := fetches w |}).

Definition logging (r : LogRecord) : M unit :=
  fun w => (Returned tt,
            {| bot := bot w; outbox := outbox w; replies := replies w;
               logged := logged w ++ [r];
               clock_reads := clock_reads w; data_file := data_file w; fetches := fetches w |}).

(** Reading the clock: the answer is the environment's, and the number of
    readings goes up by one. *)
Definition read_clock (E : Env) : M Z :=
  fun w => (Returned (instant E (clock_reads w)),
            {| bot := bot w; outbox := outbox w; replies := replies w; logged := logged w;
               clock_reads := S (clock_reads w); data_file := data_file w; fetches := fetches w |}).

(** [datetime.now()]: local wall-clock time, naive *)
Definition datetime_now (E : Env) : M datetime :=
  let* t := read_clock E in ret (Naive (t + local_offset E)).

(** [datetime.now(pytz.UTC)]: aware *)
Definition datetime_now_utc (E : Env) : M datetime :=
  let* t := read_clock E in ret (Aware t).

(** [await self.application.bot.send_message(chat_id=..., text=...)]:
    the call is recorded whether it succeeds or not; a failure raises. *)
Definition send_message (E : Env) (chat : Z) (message : Message) : M unit :=
  fun w =>
    let ok := channel_ok E (length (outbox w)) in
    let w' := {| bot := bot w;
                 outbox := outbox w ++ [{| chat_id := chat; text := message; delivered := ok |}];
                 replies := replies w; logged := logged w;
                 clock_reads := clock_reads w; data_file := data_file w; fetches := fetches w |} in
    (if ok then Returned tt else Raised ChannelError, w').

(** [await update.message.reply_text(...)], for an update that has a
    message and a reply that is delivered: the reply is recorded and the
    call returns.  The statements about [cmd_start] and [cmd_test_alert]
    that use it speak of the state of the bot only; the handlers of the
    chat interface below answer through [message_reply_text], which
    fails when the message is missing or the call does. *)
Definition reply_text (chat : Z) (r : Reply) : M unit :=
  fun w => (Returned tt,
            {| bot := bot w; outbox := outbox w; replies := replies w ++ [(chat, r)];
               logged := logged w; clock_reads := clock_reads w; data_file := data_file w; fetches := fetches w |}).

Definition write_data_file (data : json) : M unit :=
  fun w => (Returned tt,
            {| bot := bot w; outbox := outbox w; replies := replies w; logged := logged w;
               clock_reads := clock_reads w; data_file := Some data; fetches := fetches w |}).

(** Lifting the result of a pure operation that may raise. *)
Definition lift {A} (r : exn + A) : M A :=
  match r with
  | inl e => raise e
  | inr a => ret a
  end.

(** [for x in xs: body(x)] *)
Fixpoint for_each {A} (xs : list A) (body : A -> M unit) : M unit :=
  match xs with
  | [] => ret tt
  | x :: rest => let* _ := body x in for_each rest body
  end.

(** *** What a coroutine does to the world *)

(** The outcome of a coroutine that does not look at the world. *)
Definition pure_run {A} (c : M A) : outcome A := fst (c (fresh_world empty_bot)).

(** A coroutine that neither reads nor changes the world. *)
Definition pure {A} (c : M A) : Prop := forall w, c w = (pure_run c, w).

(** A relation between the world before and after that every run of a
    coroutine respects, however it ends. *)
Definition stable {A} (R : World -> World -> Prop) (c : M A) : Prop :=
  forall w, R w (snd (c w)).

(** From a world that satisfies [P], the coroutine returns, with a value
    and in a world that satisfy [Q]. *)
Definition returns {A} (P : World -> Prop) (c : M A) (Q : A -> World -> Prop) : Prop :=
  forall w, P w -> exists a w', c w = (Returned a, w') /\ Q a w'.

(** ** Notification system *)

(** [', '.join(items)] *)
Fixpoint join_comma (items : list string) : string :=
  match items with
  | [] => ""
  | [s] => s
  | s :: rest => s +:+ ", " +:+ join_comma rest
  end.

(** [timedelta(hours=1)] *)
Definition COOLDOWN : timedelta := hours 1.

(** The message of [send_market_alert], given the days left. *)
Definition alert_message (market : Market) (days_left : Z) : Message :=
  {| msg_question := question market;
     msg_volume := volume market;
     msg_liquidity := liquidity market;
     msg_category := CATEGORIES_get (category market) (category market);
     msg_expires := expiry market;
     msg_days_left := days_left;
     msg_tags := if list_truthy (tags market) then join_comma (firstn 5 (tags market))
                 else "None";
     msg_url := url market |}.

(** [prefs.last_notified[market_id] = t] where [prefs] is the object
    stored under [uid]: the bot's dictionary sees the update. *)
Definition set_last_notified (uid : Z) (market_id : string) (t : datetime)
    (b : OpinionTradeMonitorBot) : OpinionTradeMonitorBot :=
  {| seen_markets := seen_markets b;
     user_prefs :=
       alter (fun prefs =>
                {| user_id := user_id prefs;
                   enabled_categories := enabled_categories prefs;
                   keywords := keywords prefs;
                   min_liquidity := min_liquidity prefs;
                   min_volume := min_volume prefs;
                   notify_on_launch := notify_on_launch prefs;
                   last_notified := <[market_id := StampDatetime t]> (last_notified prefs) |})
             uid (user_prefs b) |}.

(** [last_notified and datetime.now() - last_notified < timedelta(hours=1)]
    for the value found by [prefs.last_notified.get(market.id)]. *)
Definition recently_notified (E : Env) (found : option stamp) : M bool :=
  match found with
  | None => ret false
  | Some (StampStr "") => ret false
  | Some (StampStr _) =>
      let* _ := datetime_now E in raise TypeError
  | Some (StampDatetime t) =>
      let* now := datetime_now E in
      let* since := lift (dt_sub now t) in
      ret (since <? COOLDOWN)
  end.

Definition send_market_alert (E : Env) (uid : Z) (market : Market) : M unit :=
  let* self := get_bot in
  match user_prefs self !! uid with
  | None => ret tt
  | Some prefs =>
      if negb (notify_on_launch prefs) then ret tt else
      (* Check if we recently notified about this market *)
      let* recent := recently_notified E (last_notified prefs !! id market) in
      if recent then ret tt else
      (* Format expiry time *)
      let* now_utc := datetime_now_utc E in
      let* time_to_expiry := lift (dt_sub (expiry market) now_utc) in
      let days_left := td_days time_to_expiry in
      (* Create message *)
      let message := alert_message market days_left in
      try_except
        (let* _ := send_message E uid message in
         (* Update last notified time *)
         let* now := datetime_now E in
         let* self' := get_bot in
         set_bot (set_last_notified uid (id market) now self'))
        Exception
        (fun e => logging (LogError "Failed to send alert" e))
  end.

(** The three ways a call of [send_market_alert] ends: nothing is sent
    and only the clock has been read; the message is delivered and the
    time of the notification recorded; the delivery fails, which is
    logged.  [n] counts the readings of the clock before the one that
    dates the message. *)
Inductive alert_run (E : Env) (uid : Z) (market : Market) (w : World) :
  outcome unit * World -> Prop :=
| run_silent (r : outcome unit) (n : nat) :
    alert_run E uid market w (r, tick n w)
| run_delivered (prefs : UserPreferences) (x : Z) (n : nat) :
    user_prefs (bot w) !! uid = Some prefs ->
    notify_on_launch prefs = true ->
    expiry market = Aware x ->
    channel_ok E (length (outbox w)) = true ->
    alert_run E uid market w
      (Returned tt,
       {| bot := set_last_notified uid (id market)
                   (Naive (instant E (S (n + clock_reads w)) + local_offset E)) (bot w);
          outbox := outbox w ++
                    [ {| chat_id := uid;
                         text := alert_message market
                                   (td_days (x - instant E (n + clock_reads w)));
                         delivered := true |} ];
          replies := replies w; logged := logged w;
          clock_reads := S (S (n + clock_reads w));
          data_file := data_file w; fetches := fetches w |})
| run_failed (prefs : UserPreferences) (x : Z) (n : nat) :
    user_prefs (bot w) !! uid = Some prefs ->
    notify_on_launch prefs = true ->
    expiry market = Aware x ->
    channel_ok E (length (outbox w)) = false ->
    alert_run E uid market w
      (Returned tt,
       {| bot := bot w;
          outbox := outbox w ++
                    [ {| chat_id := uid;
                         text := alert_message market
                                   (td_days (x - instant E (n + clock_reads w)));
                         delivered := false |} ];
          replies := replies w;
          logged := logged w ++ [LogError "Failed to send alert" ChannelError];
          clock_reads := S (n + clock_reads w);
          data_file := data_file w; fetches := fetches w |}).

(** Every last-notified entry is a naive datetime, which is what
    [send_market_alert] records. *)
Definition stamps_are_datetimes (self : OpinionTradeMonitorBot) : Prop :=
  forall uid prefs market_id v,
    user_prefs self !! uid = Some prefs ->
    last_notified prefs !! market_id = Some v ->
    exists t, v = StampDatetime (Naive t).

(** The expiry of the market carries a time zone. *)
Definition aware_expiry (market : Market) : Prop :=
  exists x, expiry market = Aware x.

(** ** Data persistence *)

(** [str(user_id)] and [int(user_id_str)] *)
Definition str_of_int (n : Z) : string :=
  DecimalString.NilZero.string_of_int (Z.to_int n).

Definition int_of_str (s : string) : option Z :=
  Z.of_int <$> DecimalString.NilZero.int_of_string s.

(** What [json.dump(..., default=str)] writes for a value of
    [last_notified]: a datetime is not serialisable and goes through
    [str]. *)
Definition stamp_to_json (L : Lib) (v : stamp) : json :=
  match v with
  | StampDatetime t => JStr (str_of_datetime L t)
  | StampStr s => JStr s
  end.

Definition prefs_to_json (L : Lib) (prefs : UserPreferences) : json :=
  JObj [ ("enabled_categories", JArr (JStr <$> elements (enabled_categories prefs)));
         ("keywords", JArr (JStr <$> keywords prefs));
         ("min_liquidity", JNum (min_liquidity prefs));
         ("min_volume", JNum (min_volume prefs));
         ("notify_on_launch", JBool (notify_on_launch prefs));
         ("last_notified",
          JObj (prod_map Datatypes.id (stamp_to_json L) <$> map_to_list (last_notified prefs))) ].

(** The document [save_data] builds, as [json.load] reads it back. *)
Definition data_to_json (L : Lib) (self : OpinionTradeMonitorBot) : json :=
  JObj [ ("seen_markets", JArr (JStr <$> elements (seen_markets self)));
         ("user_prefs",
          JObj (prod_map str_of_int (prefs_to_json L) <$> map_to_list (user_prefs self))) ].

Definition save_data (L : Lib) : M unit :=
  let* self := get_bot in
  write_data_file (data_to_json L self).

(** [set(v)] for the value of a list field: an array of strings becomes
    the set of its elements; a scalar is not iterable. *)
Definition py_set (v : json) : M (gset string) :=
  match v with
  | JNull | JBool _ | JNum _ => raise TypeError
  | _ => match as_str_list v with
         | Some l => ret (list_to_set l)
         | None => unmodelled
         end
  end.

(** [d[key]] on a decoded JSON value *)
Definition subscript (d : json) (key : string) : M json :=
  match d with
  | JObj members => match jget key members with
                    | Some v => ret v
                    | None => raise KeyError
                    end
  | _ => raise TypeError
  end.

(** A field that the annotations want of a given type and that the source
    stores unchecked. *)
Definition typed {A B} (decode : B -> option A) (v : B) : M A :=
  match decode v with
  | Some a => ret a
  | None => unmodelled
  end.

Definition as_num (j : json) : option number :=
  match j with JNum x => Some x | _ => None end.

Definition as_bool (j : json) : option bool :=
  match j with JBool b => Some b | _ => None end.

(** The dictionary that [json.load] returns for [last_notified]. *)
Definition as_stamps (j : json) : option (gmap string stamp) :=
  match j with
  | JObj members =>
      list_to_map <$> mapM (fun kv => pair (fst kv) <$> (StampStr <$> as_str (snd kv))) members
  | _ => None
  end.

(** One turn of the loop over [data.get('user_prefs', {}).items()]. *)
Definition load_user (user_id_str : string) (prefs : json) : M unit :=
  let* uid := typed int_of_str user_id_str in
  let* cats_raw := subscript prefs "enabled_categories" in
  let* cats := py_set cats_raw in
  let* kws_raw := subscript prefs "keywords" in
  let* kws := typed as_str_list kws_raw in
  let* minl_raw := subscript prefs "min_liquidity" in
  let* minl := typed as_num minl_raw in
  let* minv_raw := subscript prefs "min_volume" in
  let* minv := typed as_num minv_raw in
  let* notify_raw := subscript prefs "notify_on_launch" in
  let* notify := typed as_bool notify_raw in
  let* last_raw := subscript prefs "last_notified" in
  let* last := typed as_stamps last_raw in
  let* self := get_bot in
  set_bot {| seen_markets := seen_markets self;
             user_prefs :=
               <[uid := {| user_id := uid;
                           enabled_categories := cats;
                           keywords := kws;
                           min_liquidity := minl;
                           min_volume := minv;
                           notify_on_launch := notify;
                           last_notified := last |}]> (user_prefs self) |}.

(** [d.get(key, default)] on a decoded JSON value *)
Definition get_default (d : json) (key : string) (default : json) : M json :=
  match d with
  | JObj members => ret (from_option Datatypes.id default (jget key members))
  | _ => raise AttributeError
  end.

(** The body of the [try] of [load_data]. *)
Definition load_document (data : json) : M unit :=
  let* seen_raw := get_default data "seen_markets" (JArr []) in
  let* seen := py_set seen_raw in
  let* self := get_bot in
  let* _ := set_bot {| seen_markets := seen; user_prefs := user_prefs self |} in
  (* Load user preferences *)
  let* users := get_default data "user_prefs" (JObj []) in
  match users with
  | JObj members => for_each members (fun kv => load_user (fst kv) (snd kv))
  | _ => raise AttributeError
  end.

Definition load_data : M unit :=
  fun w =>
    match data_file w with
    | None => logging (LogInfo "No existing data file found, starting fresh") w
    | Some data =>
        try_except (load_document data) Exception
                   (fun e => logging (LogError "Error loading data" e)) w
    end.

(** ** What a saved state looks like when it is loaded *)

(** The value that comes back for a last-notified entry: the string that
    was written for it. *)
Definition reloaded_stamp (L : Lib) (v : stamp) : stamp :=
  match v with
  | StampDatetime t => StampStr (str_of_datetime L t)
  | StampStr s => StampStr s
  end.

(** The record that comes back for a subscriber. *)
Definition reloaded_preferences (L : Lib) (prefs : UserPreferences) : UserPreferences :=
  {| user_id := user_id prefs;
     enabled_categories := enabled_categories prefs;
     keywords := keywords prefs;
     min_liquidity := min_liquidity prefs;
     min_volume := min_volume prefs;
     notify_on_launch := notify_on_launch prefs;
     last_notified := reloaded_stamp L <$> last_notified prefs |}.

(** Every record is stored under its own [user_id], as [cmd_start] and
    [load_data] store them. *)
Definition keyed_by_user_id (self : OpinionTradeMonitorBot) : Prop :=
  forall uid prefs, user_prefs self !! uid = Some prefs -> user_id prefs = uid.

(** The dictionary after the loop of [load_data] has stored the records
    of [l], one after the other. *)
Definition stored (L : Lib) (l : list (Z * UserPreferences))
    (users : gmap Z UserPreferences) : gmap Z UserPreferences :=
  foldl (fun acc kv => <[kv.1 := reloaded_preferences L kv.2]> acc) users l.

(** ** API integration *)

(** [float(x)] on a number.  A float is returned as it is.  An int is
    converted to the nearest double: up to 2^53 in absolute value that is
    the int itself, and from [OVERFLOW_INT] on there is none and the
    conversion raises.  A value that is not an integer can only be a
    float, and an integer-valued float beyond 2^53 is its own nearest
    double, so the value alone decides. *)
Definition float_of_number (L : Lib) (x : number) : M number :=
  if too_large x then raise OverflowError
  else if beyond_exact x then
    match x with
    | Finite q => ret (Finite (nearest_double L (Qnum q)))
    | _ => ret x
    end
  else ret x.

(** [float(v)] *)
Definition py_float (L : Lib) (v : json) : M number :=
  match v with
  | JNum x => float_of_number L x
  | JBool b => ret (if b then amount 1 else amount 0)
  | JStr s => match float_of_str L s with
              | Some q => ret q
              | None => raise ValueError
              end
  | JNull | JArr _ | JObj _ => raise TypeError
  end.

(** [str(v)] *)
Definition py_str (L : Lib) (v : json) : string :=
  match v with
  | JStr s => s
  | _ => str_of_json L v
  end.

(** [v.lower()]: only a string has the method. *)
Definition lower_method (v : json) : M string :=
  match v with
  | JStr s => ret (lower s)
  | _ => raise AttributeError
  end.

(** [datetime.fromisoformat(v.replace('Z', '+00:00'))] *)
Definition parse_timestamp (L : Lib) (v : json) : M datetime :=
  match v with
  | JStr s => match fromisoformat L (replace_char "Z" "+00:00" s) with
              | Some t => ret t
              | None => raise ValueError
              end
  | _ => raise AttributeError
  end.

(** The [Market(...)] expression of [parse_markets]; the keyword
    arguments are evaluated in the order they are written. *)
Definition parse_market (L : Lib) (item : json) : M Market :=
  let* id_raw := subscript item "id" in
  let* question_raw := get_default item "question" (JStr "No title") in
  let* the_question := typed as_str question_raw in
  let* description_raw := get_default item "description" (JStr "") in
  let* the_description := typed as_str description_raw in
  let* category_raw := get_default item "category" (JStr "other") in
  let* the_category := lower_method category_raw in
  let* volume_raw := get_default item "volume" (JNum (amount 0)) in
  let* the_volume := py_float L volume_raw in
  let* liquidity_raw := get_default item "liquidity" (JNum (amount 0)) in
  let* the_liquidity := py_float L liquidity_raw in
  let* expiry_raw := subscript item "expiry" in
  let* the_expiry := parse_timestamp L expiry_raw in
  let* url_id := subscript item "id" in
  let* created_raw := subscript item "created_at" in
  let* the_created := parse_timestamp L created_raw in
  let* tags_raw := get_default item "tags" (JArr []) in
  let* the_tags := typed as_str_list tags_raw in
  ret {| id := py_str L id_raw;
         question := the_question;
         description := the_description;
         category := the_category;
         volume := the_volume;
         liquidity := the_liquidity;
         expiry := the_expiry;
         url := "https://opinion.trade/market/" +:+ py_str L url_id;
         created_at := the_created;
         tags := the_tags |}.

(** The loop of [parse_markets], with the list built so far. *)
Fixpoint parse_items (L : Lib) (items : list json) (markets : list Market) : M (list Market) :=
  match items with
  | [] => ret markets
  | item :: rest =>
      let* markets' :=
        try_except
          (let* market := parse_market L item in ret (markets ++ [market])%list)
          KeyError_or_ValueError
          (fun e => let* _ := logging (LogWarning "Error parsing market data" e) in
                    ret markets) in
      parse_items L rest markets'
  end.

(** What [for item in v] iterates over: the elements of a list, the
    characters of a string, the keys of a dictionary. *)
Definition py_iter (v : json) : M (list json) :=
  match v with
  | JArr items => ret items
  | JStr s => ret ((fun c => JStr (String c "")) <$> list_ascii_of_string s)
  | JObj members => ret ((fun kv => JStr (fst kv)) <$> members)
  | JNull | JBool _ | JNum _ => raise TypeError
  end.

Definition parse_markets (L : Lib) (api_data : json) : M (list Market) :=
  let* listed := get_default api_data "markets" (JArr []) in
  let* items := py_iter listed in
  parse_items L items [].

Definition next_reply (E : Env) : M ApiReply :=
  fun w => (Returned (api E (fetches w)),
            {| bot := bot w; outbox := outbox w; replies := replies w; logged := logged w;
               clock_reads := clock_reads w; data_file := data_file w;
               fetches := S (fetches w) |}).

Definition fetch_markets (E : Env) (L : Lib) : M (list Market) :=
  try_except
    (let* response := next_reply E in
     match response with
     | HttpReply status data =>
         if status =? 200 then parse_markets L data
         else let* _ := logging (LogApiError status) in ret []
     | HttpFailure => raise ClientError
     end)
    Exception
    (fun e => let* _ := logging (LogError "Error fetching markets" e) in ret []).

(** ** Reading the parser *)

Definition is_str (j : json) : bool :=
  match j with JStr _ => true | _ => false end.

(** What [float] takes without a [TypeError] or an [OverflowError]. *)
Definition is_amount (j : json) : bool :=
  match j with
  | JNum x => negb (too_large x)
  | JBool _ | JStr _ => true
  | _ => false
  end.

Definition is_str_array (j : json) : bool :=
  match as_str_list j with Some _ => true | None => false end.

(** A member that, when present, passes [ok]. *)
Definition optional (ok : json -> bool) (key : string) (members : list (string * json)) : bool :=
  match jget key members with Some v => ok v | None => true end.

(** A raw record whose members, where present, have the JSON types the
    parser expects: strings for the texts, the category and the two
    timestamps, a number that [float] can convert, a boolean or a string
    for the amounts, an array of strings for the tags. *)
Definition well_typed_record (item : json) : bool :=
  match item with
  | JObj members =>
      optional is_str "question" members && optional is_str "description" members
      && optional is_str "category" members && optional is_amount "volume" members
      && optional is_amount "liquidity" members && optional is_str "expiry" members
      && optional is_str "created_at" members && optional is_str_array "tags" members
  | _ => false
  end.

(** The member [key] is a string that [fromisoformat] reads. *)
Definition reads_timestamp (L : Lib) (key : string) (members : list (string * json)) : bool :=
  match jget key members with
  | Some (JStr s) => bool_decide (is_Some (fromisoformat L (replace_char "Z" "+00:00" s)))
  | _ => false
  end.

(** The member [key] is absent or, in a well-typed record, a value that
    [float] reads. *)
Definition reads_amount (L : Lib) (key : string) (members : list (string * json)) : bool :=
  match jget key members with
  | None | Some (JNum _) | Some (JBool _) => true
  | Some (JStr s) => bool_decide (is_Some (float_of_str L s))
  | Some _ => false
  end.

(** A valid record: the identifier and both timestamps are there, and
    every value that has to be parsed parses. *)
Definition valid_record (L : Lib) (item : json) : bool :=
  match item with
  | JObj members =>
      bool_decide (is_Some (jget "id" members))
      && reads_amount L "volume" members && reads_amount L "liquidity" members
      && reads_timestamp L "expiry" members && reads_timestamp L "created_at" members
  | _ => false
  end.

(** The market a record yields, if it yields one, and the warning it
    causes otherwise. *)
Definition market_of_record (L : Lib) (item : json) : option Market :=
  match pure_run (parse_market L item) with
  | Returned market => Some market
  | _ => None
  end.

Definition warning_of_record (L : Lib) (item : json) : option LogRecord :=
  match pure_run (parse_market L item) with
  | Raised e => Some (LogWarning "Error parsing market data" e)
  | _ => None
  end.

(** ** The periodic job *)

(** The attributes of the class and of its instances. *)
Definition ATTRIBUTES : list string :=
  [ "application"; "seen_markets"; "user_prefs"; "session";
    "init"; "close"; "load_data"; "save_data"; "fetch_markets"; "parse_markets";
    "market_matches_preferences"; "send_market_alert"; "check_new_markets";
    "setup_handlers"; "cmd_start"; "cmd_settings"; "cmd_categories";
    "show_category_menu"; "cmd_keywords"; "cmd_filters"; "cmd_status";
    "cmd_test_alert"; "cmd_help"; "handle_callback" ].

(** [self.<name>], to be called with a market and a preference record:
    a name the class does not define raises [AttributeError]. *)
Definition getattr (name : string) : M (Market -> UserPreferences -> bool) :=
  if String.eqb name "market_matches_preferences" then ret market_matches_preferences
  else if existsb (String.eqb name) ATTRIBUTES then unmodelled
  else raise AttributeError.

(** [self.seen_markets.add(market_id)] *)
Definition seen_markets_add (market_id : string) : M unit :=
  let* self := get_bot in
  set_bot {| seen_markets := seen_markets self ∪ {[ market_id ]};
             user_prefs := user_prefs self |}.

(** [m.id not in self.seen_markets] *)
Definition is_new (self : OpinionTradeMonitorBot) (m : Market) : bool :=
  negb (bool_decide (id m ∈ seen_markets self)).

(** The inner loop of [check_new_markets] for one market.  [prefs] is the
    object held by the dictionary, so it is read from the bot when its
    turn comes.  [predicate] is the name of the method the source calls. *)
Definition notify_users (E : Env) (predicate : string) (market : Market) : M unit :=
  let* self := get_bot in
  for_each (map_to_list (user_prefs self))
    (fun item =>
       let* current := get_bot in
       match user_prefs current !! fst item with
       | None => ret tt
       | Some prefs =>
           let* matches := getattr predicate in
           if matches market prefs then send_market_alert E (fst item) market
           else ret tt
       end).

(** [check_new_markets] with the name of the predicate left open. *)
Definition check_new_markets_with (predicate : string) (E : Env) (L : Lib) : M unit :=
  let* _ := logging (LogInfo "Checking for new markets...") in
  let* markets := fetch_markets E L in
  let* self := get_bot in
  let new_markets := List.filter (is_new self) markets in
  let* _ :=
    for_each new_markets
      (fun market =>
         let* _ := logging (LogInfo "New market detected") in
         let* _ := seen_markets_add (id market) in
         (* Notify users who have matching preferences *)
         notify_users E predicate market) in
  save_data L.

(** The job as the source has it. *)
Definition check_new_markets : Env -> Lib -> M unit :=
  check_new_markets_with "mark_matches_preferences".

(** The job with the name of the method the class defines. *)
Definition check_new_markets_intended : Env -> Lib -> M unit :=
  check_new_markets_with "market_matches_preferences".

(** The ledger only grows. *)
Definition ledger_grows (w w' : World) : Prop :=
  seen_markets (bot w) ⊆ seen_markets (bot w').

(** What the job leaves alone between two markets: the file on disk. *)
Definition same_disk (w w' : World) : Prop := data_file w' = data_file w.

(** ** Telegram command handlers *)

(** [set(CATEGORIES.keys())] *)
Definition all_categories : gset string := list_to_set (fst <$> CATEGORIES).

(** The record [cmd_start] creates. *)
Definition default_preferences (uid : Z) : UserPreferences :=
  {| user_id := uid;
     enabled_categories := all_categories;
     keywords := [];
     min_liquidity := amount 0;
     min_volume := amount 0;
     notify_on_launch := true;
     last_notified := ∅ |}.

Definition cmd_start (L : Lib) (uid : Z) : M unit :=
  let* self := get_bot in
  let* _ :=
    (* Initialize user preferences if not exists *)
    match user_prefs self !! uid with
    | None =>
        let* _ := set_bot {| seen_markets := seen_markets self;
                             user_prefs := <[uid := default_preferences uid]> (user_prefs self) |} in
        save_data L
    | Some _ => ret tt
    end in
  reply_text uid WelcomeMsg.

(** The market of [cmd_test_alert], given the two readings of
    [datetime.now()]. *)
Definition test_market (now1 now2 : datetime) : Market :=
  {| id := "test_123";
     question := "Test: Will this notification work?";
     description := "This is a test market to verify notifications are working properly.";
     category := "crypto";
     volume := Finite (Q2Qc (3001 # 2));
     liquidity := Finite (Q2Qc (3001 # 4));
     expiry := dt_add now1 (days_td 30);
     url := "https://opinion.trade/market/test";
     created_at := now2;
     tags := ["test"; "notification"] |}.

Definition cmd_test_alert (E : Env) (uid : Z) : M unit :=
  let* now1 := datetime_now E in
  let* now2 := datetime_now E in
  let* _ := send_market_alert E uid (test_market now1 now2) in
  reply_text uid TestAlertSent.

(** ** Concrete markets, subscribers and worlds used in the examples *)



(** The market of the worked scenario; the fields the scenario leaves
    open are arguments. *)
Definition scenario_market (title text : string) (expires created : datetime)
    (labels : list string) : Market :=
  {| id := "m1"; question := title; description := text; category := "crypto";
     volume := amount 1500; liquidity := amount 750;
     expiry := expires; url := "https://opinion.trade/market/m1";
     created_at := created; tags := labels |}.

Definition scenario_subscriber (uid : Z) (cats : gset string) (min_liq min_vol : number)
    (kws : list string) (enabled : bool) (last : gmap string stamp) : UserPreferences :=
  {| user_id := uid; enabled_categories := cats; keywords := kws;
     min_liquidity := min_liq; min_volume := min_vol; notify_on_launch := enabled;
     last_notified := last |}.

(** An environment in which time passes one second per reading of the
    clock, the local zone is UTC, every delivery succeeds and the API is
    unreachable; one in which every delivery fails. *)
Definition calm_env : Env :=
  {| instant := fun n => 1000000 * Z.of_nat n; local_offset := 0;
     channel_ok := fun _ => true; api := fun _ => HttpFailure |}.


(** A bot with one subscriber and an empty ledger. *)
Definition bot_of (prefs : UserPreferences) : OpinionTradeMonitorBot :=
  {| seen_markets := ∅; user_prefs := {[ user_id prefs := prefs ]} |}.

Definition muted_subscriber : UserPreferences :=
  scenario_subscriber 7 {[ "crypto" ]} (amount 100) (amount 500) [] false ∅.

Definition crypto_subscriber : UserPreferences :=
  scenario_subscriber 7 {[ "crypto" ]} (amount 100) (amount 500) [] true ∅.

(** The scenario market, expiring a day and a half after the epoch. *)
Definition m1 : Market :=
  scenario_market "Will BTC close above 100k?" "Resolves on the daily close."
                  (Aware (days_td 3 / 2)) (Aware 0) ["btc"].

(** A library that reads the one timestamp of the examples: midnight UTC
    on 1 January 2030, which is 1893456000 seconds after the epoch. *)
Definition iso_lib : Lib :=
  {| float_of_str := fun _ => None;
     nearest_double := Qc_of_Z;
     fromisoformat := fun s => if String.eqb s "2030-01-01T00:00:00+00:00"
                               then Some (Aware 1893456000000000) else None;
     str_of_json := fun _ => "?";
     str_of_datetime := fun _ => "1970-01-01 00:00:00" |}.

(** A raw record of the API, complete and well typed. *)
Definition listed (market_id : string) : json :=
  JObj [ ("id", JStr market_id);
         ("question", JStr "Will BTC close above 100k?");
         ("description", JStr "Resolves on the daily close.");
         ("category", JStr "Crypto");
         ("volume", JNum (amount 1500));
         ("liquidity", JNum (amount 750));
         ("expiry", JStr "2030-01-01T00:00:00Z");
         ("created_at", JStr "2030-01-01T00:00:00Z");
         ("tags", JArr [JStr "btc"]) ].

(** The market [parse_markets] makes of [listed market_id]. *)
Definition parsed (market_id : string) : Market :=
  {| id := market_id;
     question := "Will BTC close above 100k?";
     description := "Resolves on the daily close.";
     category := "crypto";
     volume := amount 1500;
     liquidity := amount 750;
     expiry := Aware 1893456000000000;
     url := "https://opinion.trade/market/" +:+ market_id;
     created_at := Aware 1893456000000000;
     tags := ["btc"] |}.

(** An API that lists the markets m1 and m2 on every request. *)
Definition listing_env : Env :=
  {| instant := fun n => 1000000 * Z.of_nat n; local_offset := 0;
     channel_ok := fun _ => true;
     api := fun _ => HttpReply 200 (JObj [("markets", JArr [listed "m1"; listed "m2"])]) |}.

(** A subscriber who was notified about m1 at the epoch. *)
Definition notified_subscriber : UserPreferences :=
  scenario_subscriber 7 {[ "crypto" ]} (amount 100) (amount 500) [] true
                      {[ "m1" := StampDatetime (Naive 0) ]}.

(** A record whose category is null, and the batch that holds it before a
    complete record. *)
Definition null_category_record : json :=
  JObj [ ("id", JStr "m0"); ("category", JNull);
         ("expiry", JStr "2030-01-01T00:00:00Z");
         ("created_at", JStr "2030-01-01T00:00:00Z") ].

Definition no_expiry_record : json :=
  JObj [ ("id", JStr "m3"); ("question", JStr "Will it rain?");
         ("created_at", JStr "2030-01-01T00:00:00Z") ].

(** A record whose volume is the integer 10^400. *)
Definition huge_volume_record : json :=
  JObj [ ("id", JStr "m4"); ("volume", JNum (amount (10 ^ 400)));
         ("expiry", JStr "2030-01-01T00:00:00Z");
         ("created_at", JStr "2030-01-01T00:00:00Z") ].

(** An environment for the cooldown scenario: the first alert is composed
    and recorded at the epoch, the clock is next read 5 minutes later and
    from then on 61 minutes after the epoch. *)
Definition paced_env : Env :=
  {| instant := fun n => match n with
                         | O | S O => 0
                         | S (S O) => minutes 5
                         | _ => minutes 61
                         end;
     local_offset := 0;
     channel_ok := fun _ => true;
     api := fun _ => HttpFailure |}.

(** ** Proof tools *)

(** Unfolding the primitives of the coroutine model. *)
Ltac run :=
  cbv [bind ret raise unmodelled get_bot set_bot logging read_clock datetime_now
       datetime_now_utc send_message reply_text write_data_file lift try_except
       Exception typed];
  cbn [fst snd bot outbox replies logged clock_reads data_file fetches].

(** Case analysis on a proof [H] that a result is an [alert_run]. *)
Ltac invert_alert_run H :=
  inversion H as [r n Heq | prefs x n Hp Hon Hx Hok Heq | prefs x n Hp Hon Hx Hok Heq];
  rewrite <- Heq in *; clear Heq H;
  cbn [fst snd bot outbox logged clock_reads] in *.

(** ** Relations and examples that the statements of Part III name *)

(** What a request to the API may change: the log and the count of
    requests, nothing else. *)
Definition only_logged (w w' : World) : Prop :=
  bot w' = bot w /\ data_file w' = data_file w /\ outbox w' = outbox w
  /\ replies w' = replies w /\ clock_reads w' = clock_reads w.

(** [check_new_markets] called [n] times in a row: however a call ends,
    the next one starts from the world it left. *)
Fixpoint cycles (E : Env) (L : Lib) (n : nat) (w : World) : World :=
  match n with
  | O => w
  | S k => cycles E L k (snd (check_new_markets E L w))
  end.

Definition is_object (item : json) : bool :=
  match item with JObj _ => true | _ => false end.

(** A record on which [parse_market] raises an exception that the loop of
    [parse_markets] does not catch. *)
Definition fatal_record (L : Lib) (item : json) : Prop :=
  exists e, pure_run (parse_market L item) = Raised e /\ KeyError_or_ValueError e = false.

(** An API that lists the market m1 and, after it, a string. *)
Definition stray_item_env : Env :=
  {| instant := fun n => 1000000 * Z.of_nat n; local_offset := 0;
     channel_ok := fun _ => true;
     api := fun _ => HttpReply 200 (JObj [("markets", JArr [listed "m1"; JStr "m2"])]) |}.

(** The body of the loop of [check_new_markets] over the new markets. *)
Definition enter_and_notify (E : Env) (predicate : string) (market : Market) : M unit :=
  let* _ := logging (LogInfo "New market detected") in
  let* _ := seen_markets_add (id market) in
  notify_users E predicate market.

(** What a cycle of the job, as the source has it, leaves alone. *)
Definition no_dispatch (w w' : World) : Prop :=
  outbox w' = outbox w /\ replies w' = replies w /\ clock_reads w' = clock_reads w
  /\ user_prefs (bot w') = user_prefs (bot w).

(** What [load_data] may change: the bot and the log. *)
Definition only_loaded (w w' : World) : Prop :=
  outbox w' = outbox w /\ replies w' = replies w /\ clock_reads w' = clock_reads w
  /\ data_file w' = data_file w /\ fetches w' = fetches w.

(** ** The chat interface *)

(** What the handlers read of an [Update]: the ids of the user and of the
    chat it comes from, whether [update.message] is there (it is not when
    the update is the press of a button), and the data of
    [update.callback_query], if the update has one.  The arguments of a
    command, [context.args], are passed to the handlers that read them. *)
Record Update : Type := {
  effective_user : Z;
  effective_chat : Z;
  has_message : bool;
  callback_query : option string
}.

(** The texts the handlers send, with the values they show. *)
Inductive Text : Type :=
| PleaseStartFirst
| CurrentSettings (alerts : bool) (categories keywords_set : nat) (liquidity_min volume_min : number)
| SelectCategories
| KeywordsSet (joined : string)
| KeywordsUsage
| FiltersUpdated (liquidity_min volume_min : number)
| EnterValidNumbers
| FiltersUsage (liquidity_min volume_min : number)
| SendKeywords
| SendFilters
| TestAlertWasSent.

Inductive Label : Type :=
| CategoriesLabel
| KeywordsLabel
| LiquidityVolumeLabel
| AlertsLabel (disable : bool)
| CategoryLabel (selected : bool) (name : string)
| BackLabel.

(** [InlineKeyboardButton(label, callback_data=...)] *)
Record Button : Type := {
  label : Label;
  callback_data : string
}.

(** The calls to Telegram that the handlers below make:
    [update.message.reply_text], [application.bot.send_message] with the
    category menu, and [answer], [edit_message_text] and [delete_message]
    on the callback query.  They are kept apart from the [outbox], which
    holds the market alerts. *)
Inductive Call : Type :=
| ReplyText (shown : Text) (keyboard : list Button)
| SendMenu (chat : Z) (shown : Text) (keyboard : list Button)
| Answer
| EditMessageText (shown : Text)
| DeleteMessage.

(** Whether the [n]-th of these calls succeeds. *)
Record Telegram : Type := {
  call_ok : nat -> bool
}.

(** The world together with the calls made so far, oldest first, each
    with its success. *)
Record Chat : Type := {
  world : World;
  calls : list (Call * bool)
}.

(** A chat in which no call has been made yet. *)
Definition fresh_chat (w : World) : Chat := {| world := w; calls := [] |}.

(** *** Handlers as state transformers over the chat *)

Definition Handler (A : Type) : Type := Chat -> outcome A * Chat.

Definition returning {A} (a : A) : Handler A := fun s => (Returned a, s).

Definition and_then {A B} (c : Handler A) (k : A -> Handler B) : Handler B :=
  fun s =>
    match c s with
    | (Returned a, s') => k a s'
    | (Raised e, s') => (Raised e, s')
    | (Unmodelled, s') => (Unmodelled, s')
    end.

Definition raising {A} (e : exn) : Handler A := fun s => (Raised e, s).

(** [try: body  except classes: handler] *)
Definition guarded {A} (body : Handler A) (classes : exn -> bool) (handler : exn -> Handler A)
    : Handler A :=
  fun s =>
    match body s with
    | (Raised e, s') => if classes e then handler e s' else (Raised e, s')
    | r => r
    end.

Notation "'let+' x ':=' c 'in' k" := (and_then c (fun x => k))
  (at level 10, x name, c at level 200, k at level 200) : py_scope.

(** A method of the bot, run on the world of the chat. *)
Definition in_world {A} (c : M A) : Handler A :=
  fun s => (fst (c (world s)), {| world := snd (c (world s)); calls := calls s |}).

(** A call to Telegram: it is recorded whether it succeeds or not; a
    failure raises. *)
Definition call (T : Telegram) (c : Call) : Handler unit :=
  fun s =>
    let ok := call_ok T (length (calls s)) in
    (if ok then Returned tt else Raised ChannelError,
     {| world := world s; calls := calls s ++ [(c, ok)] |}).

(** [await update.message.reply_text(...)]: without a message the
    attribute look-up on [None] raises. *)
Definition message_reply_text (T : Telegram) (update : Update) (shown : Text)
    (keyboard : list Button) : Handler unit :=
  if has_message update then call T (ReplyText shown keyboard) else raising AttributeError.

Definition ValueError_only (e : exn) : bool :=
  match e with ValueError => true | _ => false end.

(** *** Strings of the handlers *)

(** [' '.join(items)] *)
Fixpoint join_space (items : list string) : string :=
  match items with
  | [] => ""
  | [s] => s
  | s :: rest => s +:+ " " +:+ join_space rest
  end.

(** [s.split(sep)] for a one-character [sep]: the pieces between the
    separators, of which there is always at least one. *)
Fixpoint split (sep : ascii) (s : string) : list string :=
  match s with
  | EmptyString => [""]
  | String c rest =>
      if Ascii.eqb c sep then "" :: split sep rest
      else match split sep rest with
           | piece :: pieces => String c piece :: pieces
           | [] => [String c ""]
           end
  end.

(** The ASCII characters that [str.isspace] accepts: tab to carriage
    return, the four separators, the space.  As for [str.lower], white
    space outside the ASCII range is not modelled. *)
Definition is_space (c : ascii) : bool :=
  let n := nat_of_ascii c in
  ((9 <=? n)%nat && (n <=? 13)%nat || (28 <=? n)%nat && (n <=? 32)%nat)%bool.

Fixpoint lstrip (chars : list ascii) : list ascii :=
  match chars with
  | [] => []
  | c :: rest => if is_space c then lstrip rest else chars
  end.

(** [s.strip()] *)
Definition strip (s : string) : string :=
  string_of_list_ascii (reverse (lstrip (reverse (lstrip (list_ascii_of_string s))))).

(** [s[n:]] *)
Fixpoint slice_from (n : nat) (s : string) : string :=
  match n, s with
  | O, _ => s
  | S k, String _ rest => slice_from k rest
  | S _, EmptyString => EmptyString
  end.

(** [s.startswith(prefix)] *)
Definition startswith (s prefix : string) : bool := String.prefix prefix s.

(** *** Updates to a subscriber's record *)

Definition with_keywords (kws : list string) (prefs : UserPreferences) : UserPreferences :=
  {| user_id := user_id prefs;
     enabled_categories := enabled_categories prefs;
     keywords := kws;
     min_liquidity := min_liquidity prefs;
     min_volume := min_volume prefs;
     notify_on_launch := notify_on_launch prefs;
     last_notified := last_notified prefs |}.

Definition with_thresholds (liquidity_min volume_min : number) (prefs : UserPreferences)
    : UserPreferences :=
  {| user_id := user_id prefs;
     enabled_categories := enabled_categories prefs;
     keywords := keywords prefs;
     min_liquidity := liquidity_min;
     min_volume := volume_min;
     notify_on_launch := notify_on_launch prefs;
     last_notified := last_notified prefs |}.

(** [remove] when the category is in the set, [add] when it is not. *)
Definition toggled (c : string) (cats : gset string) : gset string :=
  if bool_decide (c ∈ cats) then cats ∖ {[ c ]} else cats ∪ {[ c ]}.

Definition with_categories (cats : gset string) (prefs : UserPreferences) : UserPreferences :=
  {| user_id := user_id prefs;
     enabled_categories := cats;
     keywords := keywords prefs;
     min_liquidity := min_liquidity prefs;
     min_volume := min_volume prefs;
     notify_on_launch := notify_on_launch prefs;
     last_notified := last_notified prefs |}.

Definition with_alerts (enabled : bool) (prefs : UserPreferences) : UserPreferences :=
  {| user_id := user_id prefs;
     enabled_categories := enabled_categories prefs;
     keywords := keywords prefs;
     min_liquidity := min_liquidity prefs;
     min_volume := min_volume prefs;
     notify_on_launch := enabled;
     last_notified := last_notified prefs |}.

(** The object stored under [uid] is replaced by its updated version:
    the handlers change the object that the dictionary holds. *)
Definition update_prefs (uid : Z) (change : UserPreferences -> UserPreferences) : M unit :=
  let* self := get_bot in
  set_bot {| seen_markets := seen_markets self;
             user_prefs := alter change uid (user_prefs self) |}.

(** *** The handlers *)

Definition settings_keyboard (prefs : UserPreferences) : list Button :=
  [ {| label := CategoriesLabel; callback_data := "cat_menu" |};
    {| label := KeywordsLabel; callback_data := "set_keywords" |};
    {| label := LiquidityVolumeLabel; callback_data := "set_filters" |};
    {| label := AlertsLabel (notify_on_launch prefs); callback_data := "toggle_alerts" |} ].

Definition cmd_settings (T : Telegram) (update : Update) : Handler unit :=
  let user := effective_user update in
  let+ self := in_world get_bot in
  match user_prefs self !! user with
  | None => message_reply_text T update PleaseStartFirst []
  | Some prefs =>
      message_reply_text T update
        (CurrentSettings (notify_on_launch prefs) (size (enabled_categories prefs))
           (length (keywords prefs)) (min_liquidity prefs) (min_volume prefs))
        (settings_keyboard prefs)
  end.

Definition category_keyboard (prefs : UserPreferences) : list Button :=
  ((fun item =>
      {| label := CategoryLabel (bool_decide (fst item ∈ enabled_categories prefs)) (snd item);
         callback_data := "cat_" +:+ fst item |}) <$> CATEGORIES)
  ++ [ {| label := BackLabel; callback_data := "back_settings" |} ].

Definition show_category_menu (T : Telegram) (chat : Z) : Handler unit :=
  let user := chat in
  let+ self := in_world get_bot in
  match user_prefs self !! user with
  | None => returning tt
  | Some prefs => call T (SendMenu chat SelectCategories (category_keyboard prefs))
  end.

Definition cmd_categories (T : Telegram) (update : Update) : Handler unit :=
  show_category_menu T (effective_chat update).

Definition cmd_keywords (T : Telegram) (L : Lib) (update : Update) (args : list string)
    : Handler unit :=
  if list_truthy args then
    let kws := strip <$> split "," (join_space args) in
    let user := effective_user update in
    let+ self := in_world get_bot in
    match user_prefs self !! user with
    | Some _ =>
        let+ _ := in_world (update_prefs user (with_keywords kws)) in
        let+ _ := in_world (save_data L) in
        message_reply_text T update (KeywordsSet (join_comma kws)) []
    | None => returning tt
    end
  else message_reply_text T update KeywordsUsage [].

Definition cmd_filters (T : Telegram) (L : Lib) (update : Update) (args : list string)
    : Handler unit :=
  let user := effective_user update in
  let+ self := in_world get_bot in
  match user_prefs self !! user with
  | None => returning tt
  | Some prefs =>
      match args with
      | first :: second :: _ =>
          guarded
            (let+ liquidity_min := in_world (py_float L (JStr first)) in
             let+ volume_min := in_world (py_float L (JStr second)) in
             let+ _ := in_world (update_prefs user (with_thresholds liquidity_min volume_min)) in
             let+ _ := in_world (save_data L) in
             message_reply_text T update (FiltersUpdated liquidity_min volume_min) [])
            ValueError_only
            (fun _ => message_reply_text T update EnterValidNumbers [])
      | _ =>
          message_reply_text T update
            (FiltersUsage (min_liquidity prefs) (min_volume prefs)) []
      end
  end.

(** [cmd_test_alert] as a handler on the chat: its answer goes through
    [update.message] and can fail, where the [cmd_test_alert] above
    records the answer as given. *)
Module OnChat.

Definition cmd_test_alert (T : Telegram) (E : Env) (update : Update) : Handler unit :=
  let+ now1 := in_world (datetime_now E) in
  let+ now2 := in_world (datetime_now E) in
  let+ _ := in_world (send_market_alert E (effective_user update) (test_market now1 now2)) in
  message_reply_text T update TestAlertWasSent [].

End OnChat.

Definition handle_callback (T : Telegram) (L : Lib) (update : Update) : Handler unit :=
  match callback_query update with
  | None => raising AttributeError
  | Some data =>
      let+ _ := call T Answer in
      let user := effective_user update in
      let+ _ :=
        if startswith data "cat_" then
          (* Toggle category *)
          let chosen := slice_from 4 data in
          let+ self := in_world get_bot in
          match user_prefs self !! user with
          | Some prefs =>
              let+ _ := in_world (update_prefs user
                                    (with_categories (toggled chosen (enabled_categories prefs)))) in
              let+ _ := in_world (save_data L) in
              show_category_menu T user
          | None => returning tt
          end
        else if String.eqb data "cat_menu" then show_category_menu T user
        else if String.eqb data "toggle_alerts" then
          let+ self := in_world get_bot in
          match user_prefs self !! user with
          | Some prefs =>
              let+ _ := in_world (update_prefs user
                                    (with_alerts (negb (notify_on_launch prefs)))) in
              let+ _ := in_world (save_data L) in
              cmd_settings T update
          | None => returning tt
          end
        else if String.eqb data "set_keywords" then call T (EditMessageText SendKeywords)
        else if String.eqb data "set_filters" then call T (EditMessageText SendFilters)
        else if String.eqb data "back_settings" then cmd_settings T update
        else returning tt in
      (* Delete the callback message *)
      guarded (call T DeleteMessage) Exception (fun _ => returning tt)
  end.

(** The patterns under which [setup_handlers] registers
    [handle_callback]; a press whose data matches none of them is handled
    by nobody. *)
Definition CALLBACK_PATTERNS : list string := ["cat_"; "toggle_"; "set_"].

Definition dispatch_callback (T : Telegram) (L : Lib) (update : Update) : Handler unit :=
  match callback_query update with
  | Some data =>
      if existsb (startswith data) CALLBACK_PATTERNS then handle_callback T L update
      else returning tt
  | None => returning tt
  end.

(** *** What a handler does to the world *)

(** What the handlers of this part may change of the world: of the
    record of [user], the categories, the keywords, the thresholds and
    the flag; and the file. *)
Definition settings_only (user : Z) (w w' : World) : Prop :=
  seen_markets (bot w') = seen_markets (bot w)
  /\ outbox w' = outbox w /\ replies w' = replies w /\ logged w' = logged w
  /\ clock_reads w' = clock_reads w /\ fetches w' = fetches w
  /\ (forall other, other <> user ->
        user_prefs (bot w') !! other = user_prefs (bot w) !! other)
  /\ match user_prefs (bot w) !! user with
     | Some prefs =>
         exists prefs', user_prefs (bot w') !! user = Some prefs'
                        /\ user_id prefs' = user_id prefs
                        /\ last_notified prefs' = last_notified prefs
     | None => user_prefs (bot w') !! user = None
     end.

(** A relation between the world before and after that every run of a
    handler respects, however it ends. *)
Definition keeps {A} (R : World -> World -> Prop) (h : Handler A) : Prop :=
  forall s, R (world s) (world (snd (h s))).

(** *** Chats used in the examples *)

(** A Telegram on which every call succeeds. *)
Definition reliable : Telegram := {| call_ok := fun _ => true |}.

(** A command sent by a user in a private chat, and the press of a
    button by that user. *)
Definition command_from (uid : Z) : Update :=
  {| effective_user := uid; effective_chat := uid; has_message := true;
     callback_query := None |}.

Definition press_by (uid : Z) (data : string) : Update :=
  {| effective_user := uid; effective_chat := uid; has_message := false;
     callback_query := Some data |}.

(** A library that reads plain decimal numerals as amounts. *)
Definition numeral_lib : Lib :=
  {| float_of_str := fun s => amount <$> int_of_str s;
     nearest_double := nearest_double iso_lib;
     fromisoformat := fromisoformat iso_lib;
     str_of_json := str_of_json iso_lib;
     str_of_datetime := str_of_datetime iso_lib |}.

(** Unfolding the primitives of the handlers. *)
Ltac chat :=
  cbv [and_then returning raising guarded in_world call message_reply_text update_prefs
       save_data];
  run; cbn [fst snd world calls bot outbox replies logged clock_reads data_file fetches
            seen_markets user_prefs].

(** * Part II: properties *)

(** ** Strings *)

Lemma append_cons (c : ascii) (s t : string) : String c s +:+ t = String c (s +:+ t).
Proof. reflexivity. Qed.

Lemma prefix_nil (hay : string) : String.prefix "" hay = true.
Proof. by destruct hay. Qed.

Lemma prefix_cons (c d : ascii) (needle hay : string) :
  String.prefix (String c needle) (String d hay)
  = if ascii_dec c d then String.prefix needle hay else false.
Proof. reflexivity. Qed.

Lemma prefix_iff_app (needle hay : string) :
  String.prefix needle hay = true <-> exists post, hay = needle +:+ post.
Proof.
  revert hay. induction needle as [|c needle IH]; intros hay.
  - rewrite prefix_nil. split; [intros _; by exists hay | done].
  - destruct hay as [|d hay].
    + split; [done | intros [post H]; discriminate].
    + rewrite prefix_cons. destruct (ascii_dec c d) as [->|Hne].
      * rewrite IH. split; intros [post H]; exists post.
        -- rewrite append_cons. congruence.
        -- rewrite append_cons in H. congruence.
      * split; [done | intros [post H]; rewrite append_cons in H; congruence].
Qed.

Lemma contains_iff_substring (hay needle : string) :
  contains hay needle = true <-> substring_of needle hay.
Proof.
  unfold substring_of. induction hay as [|c hay IH].
  - cbn [contains]. rewrite orb_false_r, prefix_iff_app. split.
    + intros [post H]. by exists "", post.
    + intros [pre [post H]]. destruct pre; [by exists post | discriminate].
  - cbn [contains]. rewrite orb_true_iff, IH, prefix_iff_app. split.
    + intros [[post H] | [pre [post H]]].
      * by exists "", post.
      * exists (String c pre), post. rewrite append_cons. by rewrite H.
    + intros [pre [post H]]. destruct pre as [|d pre].
      * left. by exists post.
      * right. exists pre, post. rewrite append_cons in H. congruence.
Qed.

(** ** The filter *)



Lemma category_check_iff (market : Market) (prefs : UserPreferences) :
  (set_truthy (enabled_categories prefs)
   && negb (bool_decide (category market ∈ enabled_categories prefs)))%bool = false
  <-> category_predicate market prefs.
Proof.
  unfold set_truthy, category_predicate.
  rewrite andb_false_iff, !negb_false_iff, !bool_decide_eq_true. tauto.
Qed.

Lemma keyword_check_iff (market : Market) (prefs : UserPreferences) :
  (if list_truthy (keywords prefs) then
     if negb (existsb (fun keyword => contains (market_text market) (lower keyword))
                      (keywords prefs))
     then false else true
   else true) = true
  <-> keyword_predicate_spaced market prefs.
Proof.
  unfold keyword_predicate_spaced, keyword_predicate_on, market_text.
  destruct (keywords prefs) as [|k ks] eqn:Hk; simpl list_truthy; cbv iota.
  - split; [by left | done].
  - set (test := fun keyword => _).
    destruct (existsb test (k :: ks)) eqn:Hex; simpl.
    + split; [intros _ | done]. right.
      apply existsb_exists in Hex as [kw [Hin Hc]].
      exists kw. split; [done |]. by apply contains_iff_substring.
    + split; [done |]. intros [? | [kw [Hin Hsub]]]; [done |].
      assert (existsb test (k :: ks) = true) as Hyes; [| congruence].
      apply existsb_exists. exists kw. split; [done |].
      by apply contains_iff_substring.
Qed.

Lemma market_matches_preferences_iff (market : Market) (prefs : UserPreferences) :
  market_matches_preferences market prefs = true
  <-> category_predicate market prefs /\ liquidity_not_below market prefs
      /\ volume_not_below market prefs /\ keyword_predicate_spaced market prefs.
Proof.
  unfold market_matches_preferences, liquidity_not_below, volume_not_below.
  rewrite <- category_check_iff, <- keyword_check_iff.
  destruct (_ && _)%bool; [intuition discriminate |].
  destruct (Py.lt (liquidity market) _); [intuition discriminate |].
  destruct (Py.lt (volume market) _); [intuition discriminate |].
  tauto.
Qed.



(** ** The alert dispatcher *)

Lemma tick_0 (w : World) : tick 0 w = w.
Proof. by destruct w. Qed.

Lemma tick_tick (n m : nat) (w : World) : tick n (tick m w) = tick (n + m) w.
Proof. unfold tick. cbn. f_equal. lia. Qed.

(** What the cooldown test does: it reads the clock at most once and
    touches nothing else. *)
Lemma recently_notified_run (E : Env) (found : option stamp) (w : World) :
  exists r n, recently_notified E found w = (r, tick n w) /\ (n <= 1)%nat.
Proof.
  destruct found as [[[t|t]|[|c s]]|]; unfold recently_notified; run.
  - exists (Returned (instant E (clock_reads w) + local_offset E - t <? COOLDOWN)), 1%nat.
    by split; [| lia].
  - exists (Raised TypeError), 1%nat. by split; [| lia].
  - exists (Returned false), 0%nat. rewrite tick_0. by split; [| lia].
  - exists (Raised TypeError), 1%nat. by split; [| lia].
  - exists (Returned false), 0%nat. rewrite tick_0. by split; [| lia].
Qed.

(** Every call of [send_market_alert] ends in one of the three ways. *)
Lemma send_market_alert_run (E : Env) (uid : Z) (market : Market) (w : World) :
  alert_run E uid market w (send_market_alert E uid market w).
Proof.
  unfold send_market_alert.
  cbv [bind get_bot]. cbn [bot].
  destruct (user_prefs (bot w) !! uid) as [prefs|] eqn:Hp;
    [| rewrite <- (tick_0 w) at 2; constructor].
  destruct (notify_on_launch prefs) eqn:Hon; cbn [negb];
    [| unfold ret; rewrite <- (tick_0 w) at 2; constructor].
  destruct (recently_notified_run E (last_notified prefs !! id market) w)
    as (r & n & -> & Hn).
  destruct r as [[|]| |]; try constructor.
  run. cbn [tick bot outbox clock_reads].
  destruct (expiry market) as [x|x] eqn:Hx; cbn [dt_sub].
  - change (?a, ?b) with (a, tick 1 (tick n w)).
    rewrite tick_tick. constructor.
  - cbv [tick]. cbn [bot outbox replies logged clock_reads data_file fetches].
    destruct (channel_ok E (length (outbox w))) eqn:Hok; cbv iota beta.
    + cbn [bot outbox replies logged clock_reads data_file fetches].
      by apply (run_delivered E uid market w prefs x n).
    + cbn [bot outbox replies logged clock_reads data_file fetches].
      by apply (run_failed E uid market w prefs x n).
Qed.

(** A subscriber that is unknown gets nothing and nothing changes. *)
Lemma send_market_alert_unknown (E : Env) (uid : Z) (market : Market) (w : World) :
  user_prefs (bot w) !! uid = None ->
  send_market_alert E uid market w = (Returned tt, w).
Proof. intros H. unfold send_market_alert. run. by rewrite H. Qed.

(** C8: when the notifications flag of a subscriber is off, the dispatch
    operation returns at once whatever the market is: the outcome is a
    normal return and the world after the call is the world before it, so
    no send was attempted and neither the subscriber's record nor anything
    else changed.  The filter is not consulted. *)
Theorem C8_disabled_subscriber_gets_nothing
    (E : Env) (uid : Z) (market : Market) (w : World) (prefs : UserPreferences) :
  user_prefs (bot w) !! uid = Some prefs ->
  notify_on_launch prefs = false ->
  send_market_alert E uid market w = (Returned tt, w)
  /\ outbox (snd (send_market_alert E uid market w)) = outbox w
  /\ user_prefs (bot (snd (send_market_alert E uid market w))) !! uid = Some prefs.
Proof.
  intros Hp Hoff.
  assert (send_market_alert E uid market w = (Returned tt, w)) as ->; [| done].
  unfold send_market_alert. run. by rewrite Hp, Hoff.
Qed.

Lemma C8_disabled_subscriber_gets_nothing_witness :
  user_prefs (bot (fresh_world (bot_of muted_subscriber))) !! 7 = Some muted_subscriber
  /\ notify_on_launch muted_subscriber = false
  /\ send_market_alert calm_env 7 m1 (fresh_world (bot_of muted_subscriber))
     = (Returned tt, fresh_world (bot_of muted_subscriber)).
Proof.
  split; [apply lookup_singleton_eq |]. split; [reflexivity |].
  apply (C8_disabled_subscriber_gets_nothing calm_env 7 m1
           (fresh_world (bot_of muted_subscriber)) muted_subscriber).
  - apply lookup_singleton_eq.
  - reflexivity.
Defined.

Lemma app_singleton_neq {A} (l : list A) (x : A) : l ++ [x] <> l.
Proof. intros H. apply (f_equal length) in H. rewrite length_app in H. simpl in H. lia. Qed.



(** [td_days] rounds down. *)
Lemma td_days_floor (d : timedelta) :
  MICROSECONDS_PER_DAY * td_days d <= d < MICROSECONDS_PER_DAY * (td_days d + 1).
Proof.
  unfold td_days.
  assert (0 < MICROSECONDS_PER_DAY) as Hpos by (by vm_compute).
  pose proof (Z.mul_div_le d _ Hpos). pose proof (Z.mul_succ_div_gt d _ Hpos). lia.
Qed.

(** C9, as stated, fails: for a market that expires a day and a half
    after the moment the message is composed, the message says 1 day,
    while a day and a half rounded up to whole days is 2. *)
Lemma C9_ceiling_counterexample :
  (fun s => msg_days_left (text s))
    <$> outbox (snd (send_market_alert calm_env 7 m1 (fresh_world (bot_of crypto_subscriber))))
  = [1]
  /\ dt_sub (expiry m1) (Aware (instant calm_env 0)) = inr (days_td 3 / 2)
  /\ td_ceil_days (days_td 3 / 2) = 2.
Proof. by vm_compute. Qed.

(** C9, amended: for every notification the dispatch operation hands to
    the channel, the days-remaining figure in the message is the floor of
    (expiry minus now) in whole days, where now is the aware reading of
    the clock taken during the call: the figure times one day is at most
    the time to expiry, which is less than the figure plus one, times one
    day. *)
Theorem C9_days_left_is_floor
    (E : Env) (uid : Z) (market : Market) (w : World) (s : Send) :
  outbox (snd (send_market_alert E uid market w)) = outbox w ++ [s] ->
  exists (n : nat) (d : timedelta),
    (clock_reads w <= n < clock_reads (snd (send_market_alert E uid market w)))%nat
    /\ dt_sub (expiry market) (Aware (instant E n)) = inr d
    /\ msg_days_left (text s) = td_days d
    /\ MICROSECONDS_PER_DAY * msg_days_left (text s) <= d
       < MICROSECONDS_PER_DAY * (msg_days_left (text s) + 1).
Proof.
  intros Hout. pose proof (send_market_alert_run E uid market w) as Hrun. invert_alert_run Hrun.
  - symmetry in Hout. by apply app_singleton_neq in Hout.
  - apply app_inj_tail in Hout as [_ <-].
    exists (n + clock_reads w)%nat, (x - instant E (n + clock_reads w)).
    rewrite Hx. cbn. split; [lia |]. split; [done |]. split; [done |].
    apply td_days_floor.
  - apply app_inj_tail in Hout as [_ <-].
    exists (n + clock_reads w)%nat, (x - instant E (n + clock_reads w)).
    rewrite Hx. cbn. split; [lia |]. split; [done |]. split; [done |].
    apply td_days_floor.
Qed.

Lemma C9_days_left_is_floor_witness :
  let w := fresh_world (bot_of crypto_subscriber) in
  let s := {| chat_id := 7; text := alert_message m1 1; delivered := true |} in
  outbox (snd (send_market_alert calm_env 7 m1 w)) = outbox w ++ [s]
  /\ exists (n : nat) (d : timedelta),
      (clock_reads w <= n < clock_reads (snd (send_market_alert calm_env 7 m1 w)))%nat
      /\ dt_sub (expiry m1) (Aware (instant calm_env n)) = inr d
      /\ msg_days_left (text s) = td_days d
      /\ MICROSECONDS_PER_DAY * msg_days_left (text s) <= d
         < MICROSECONDS_PER_DAY * (msg_days_left (text s) + 1).
Proof.
  intros w s.
  assert (outbox (snd (send_market_alert calm_env 7 m1 w)) = outbox w ++ [s]) as Hout
    by (vm_compute; reflexivity).
  split; [exact Hout |].
  exact (C9_days_left_is_floor calm_env 7 m1 w s Hout).
Defined.

(** *** The cooldown *)

(** Recording a notification touches one entry of one subscriber. *)
Lemma set_last_notified_same (uid : Z) (mid : string) (t : datetime)
    (self : OpinionTradeMonitorBot) (prefs : UserPreferences) :
  user_prefs self !! uid = Some prefs ->
  exists prefs',
    user_prefs (set_last_notified uid mid t self) !! uid = Some prefs'
    /\ last_notified prefs' !! mid = Some (StampDatetime t)
    /\ (forall other, other <> mid -> last_notified prefs' !! other = last_notified prefs !! other)
    /\ enabled_categories prefs' = enabled_categories prefs
    /\ keywords prefs' = keywords prefs
    /\ min_liquidity prefs' = min_liquidity prefs
    /\ min_volume prefs' = min_volume prefs
    /\ notify_on_launch prefs' = notify_on_launch prefs.
Proof.
  intros Hp. unfold set_last_notified. cbn [user_prefs].
  rewrite lookup_alter_eq, Hp. cbn. eexists. split; [done |]. cbn.
  split; [apply lookup_insert_eq |]. split; [| done].
  intros other Hne. by apply lookup_insert_ne.
Qed.

Lemma set_last_notified_other (uid other : Z) (mid : string) (t : datetime)
    (self : OpinionTradeMonitorBot) :
  other <> uid ->
  user_prefs (set_last_notified uid mid t self) !! other = user_prefs self !! other.
Proof. intros Hne. unfold set_last_notified. cbn [user_prefs]. by apply lookup_alter_ne. Qed.

Lemma set_last_notified_seen (uid : Z) (mid : string) (t : datetime)
    (self : OpinionTradeMonitorBot) :
  seen_markets (set_last_notified uid mid t self) = seen_markets self.
Proof. reflexivity. Qed.

(** Within the cooldown nothing is sent and nothing is raised. *)
Lemma cooldown_suppresses (E : Env) (uid : Z) (market : Market) (w : World)
    (prefs : UserPreferences) (t : Z) :
  user_prefs (bot w) !! uid = Some prefs ->
  last_notified prefs !! id market = Some (StampDatetime (Naive t)) ->
  instant E (clock_reads w) + local_offset E - t < COOLDOWN ->
  fst (send_market_alert E uid market w) = Returned tt
  /\ outbox (snd (send_market_alert E uid market w)) = outbox w
  /\ bot (snd (send_market_alert E uid market w)) = bot w.
Proof.
  intros Hp Hl Hlt. unfold send_market_alert. run. rewrite Hp.
  destruct (notify_on_launch prefs); cbn [negb]; [| done].
  rewrite Hl. unfold recently_notified. run. cbn [dt_sub].
  apply Z.ltb_lt in Hlt. by rewrite Hlt.
Qed.

(** Once the cooldown has elapsed, or when no notification is on record,
    an enabled subscriber gets exactly one send for a market whose expiry
    is aware; when it is delivered, the time of the second reading of the
    clock after the test becomes the last-notified entry of the pair, and
    no other entry and no other subscriber is touched. *)
Lemma cooldown_elapsed_sends_once (E : Env) (uid : Z) (market : Market) (w : World)
    (prefs : UserPreferences) (x : Z) :
  user_prefs (bot w) !! uid = Some prefs ->
  notify_on_launch prefs = true ->
  (last_notified prefs !! id market = None
   \/ exists t, last_notified prefs !! id market = Some (StampDatetime (Naive t))
                /\ COOLDOWN <= instant E (clock_reads w) + local_offset E - t) ->
  expiry market = Aware x ->
  exists s,
    fst (send_market_alert E uid market w) = Returned tt
    /\ outbox (snd (send_market_alert E uid market w)) = outbox w ++ [s]
    /\ chat_id s = uid
    /\ delivered s = channel_ok E (length (outbox w))
    /\ (delivered s = true ->
        exists now prefs',
          user_prefs (bot (snd (send_market_alert E uid market w))) !! uid = Some prefs'
          /\ last_notified prefs' !! id market = Some (StampDatetime (Naive now))
          /\ (exists n, (clock_reads w < n < clock_reads (snd (send_market_alert E uid market w)))%nat
                        /\ now = instant E n + local_offset E)
          /\ (forall other, other <> id market ->
                            last_notified prefs' !! other = last_notified prefs !! other))
    /\ (forall other, other <> uid ->
          user_prefs (bot (snd (send_market_alert E uid market w))) !! other
          = user_prefs (bot w) !! other).
Proof.
  intros Hp Hon Hcool Hx.
  assert (exists n, recently_notified E (last_notified prefs !! id market) w
                    = (Returned false, tick n w) /\ (n <= 1)%nat) as (n & Hrec & Hn).
  { destruct Hcool as [-> | (t & -> & Hge)].
    - exists 0%nat. split; [by rewrite tick_0 | lia].
    - exists 1%nat. split; [| lia]. unfold recently_notified. run. cbn [dt_sub].
      apply Z.ltb_ge in Hge. by rewrite Hge. }
  unfold send_market_alert. cbv [bind get_bot]. cbn [bot]. rewrite Hp, Hon. cbn [negb].
  rewrite Hrec. run. rewrite Hx. cbn [dt_sub tick bot outbox clock_reads].
  destruct (channel_ok E (length (outbox w))) eqn:Hok;
    cbv iota beta; cbn [fst snd bot outbox clock_reads].
  - eexists. split; [done |]. split; [done |]. split; [done |]. split; [done |].
    split.
    + intros _.
      destruct (set_last_notified_same uid (id market)
                  (Naive (instant E (S (n + clock_reads w)) + local_offset E)) (bot w) prefs Hp)
        as (prefs' & Hp' & Hl' & Hothers & _).
      exists (instant E (S (n + clock_reads w)) + local_offset E), prefs'.
      split; [done |]. split; [done |]. split; [| done].
      exists (S (n + clock_reads w)). split; [lia | done].
    + intros other Hne. by apply set_last_notified_other.
  - eexists. split; [done |]. split; [done |]. split; [done |]. split; [done |].
    split; [intros [=] | done].
Qed.

(** The cooldown at work: the first call sends and records the time, a
    call 5 minutes later sends nothing, a call 61 minutes later sends once
    more and records the new time. *)
Lemma cooldown_scenario :
  let w0 := fresh_world (bot_of crypto_subscriber) in
  let w1 := snd (send_market_alert paced_env 7 m1 w0) in
  let w2 := snd (send_market_alert paced_env 7 m1 w1) in
  let w3 := snd (send_market_alert paced_env 7 m1 w2) in
  let noted (w : World) :=
    user_prefs (bot w) !! 7 ≫= fun prefs => last_notified prefs !! "m1" in
  (length (outbox w1) = 1%nat /\ noted w1 = Some (StampDatetime (Naive 0)))
  /\ (fst (send_market_alert paced_env 7 m1 w1) = Returned tt
      /\ length (outbox w2) = 1%nat /\ noted w2 = Some (StampDatetime (Naive 0)))
  /\ (fst (send_market_alert paced_env 7 m1 w2) = Returned tt
      /\ length (outbox w3) = 2%nat
      /\ noted w3 = Some (StampDatetime (Naive (minutes 61)))).
Proof. by vm_compute. Qed.

(** A market whose expiry is naive makes the dispatch operation raise
    before anything is sent. *)
Lemma naive_expiry_raises (E : Env) (uid : Z) (market : Market) (w : World)
    (prefs : UserPreferences) (x : Z) :
  user_prefs (bot w) !! uid = Some prefs ->
  notify_on_launch prefs = true ->
  last_notified prefs !! id market = None ->
  expiry market = Naive x ->
  send_market_alert E uid market w = (Raised TypeError, tick 1 w).
Proof.
  intros Hp Hon Hl Hx. unfold send_market_alert. run. rewrite Hp, Hon. cbn [negb].
  rewrite Hl. unfold recently_notified. run. by rewrite Hx.
Qed.

(** A last-notified entry that is a string makes the cooldown test
    raise. *)
Lemma string_stamp_raises (E : Env) (uid : Z) (market : Market) (w : World)
    (prefs : UserPreferences) (c : ascii) (s : string) :
  user_prefs (bot w) !! uid = Some prefs ->
  notify_on_launch prefs = true ->
  last_notified prefs !! id market = Some (StampStr (String c s)) ->
  send_market_alert E uid market w = (Raised TypeError, tick 1 w).
Proof.
  intros Hp Hon Hl. unfold send_market_alert. run. rewrite Hp, Hon. cbn [negb].
  rewrite Hl. unfold recently_notified. by run.
Qed.

(** ** The /start and /test handlers *)

(** What [cmd_start] does for a subscriber that is not yet known. *)
Lemma cmd_start_new (L : Lib) (uid : Z) (w : World) :
  user_prefs (bot w) !! uid = None ->
  fst (cmd_start L uid w) = Returned tt
  /\ bot (snd (cmd_start L uid w))
     = {| seen_markets := seen_markets (bot w);
          user_prefs := <[uid := default_preferences uid]> (user_prefs (bot w)) |}
  /\ outbox (snd (cmd_start L uid w)) = outbox w
  /\ replies (snd (cmd_start L uid w)) = replies w ++ [(uid, WelcomeMsg)].
Proof. intros Hp. unfold cmd_start, save_data. run. by rewrite Hp. Qed.

Lemma cmd_start_known (L : Lib) (uid : Z) (w : World) (prefs : UserPreferences) :
  user_prefs (bot w) !! uid = Some prefs ->
  cmd_start L uid w
  = (Returned tt,
     {| bot := bot w; outbox := outbox w; replies := replies w ++ [(uid, WelcomeMsg)];
        logged := logged w; clock_reads := clock_reads w; data_file := data_file w;
        fetches := fetches w |}).
Proof. intros Hp. unfold cmd_start. run. by rewrite Hp. Qed.

Lemma all_categories_spec (c : string) :
  c ∈ all_categories <-> exists name, In (c, name) CATEGORIES.
Proof.
  unfold all_categories. rewrite elem_of_list_to_set, list_elem_of_fmap. split.
  - intros [[k name] [-> Hin]]. exists name. by apply list_elem_of_In.
  - intros [name Hin]. exists (c, name). split; [done |]. by apply list_elem_of_In.
Qed.

(** After /start the subscriber is in the preference store. *)
Lemma cmd_start_registers (L : Lib) (uid : Z) (w : World) :
  is_Some (user_prefs (bot (snd (cmd_start L uid w))) !! uid).
Proof.
  destruct (user_prefs (bot w) !! uid) as [prefs|] eqn:Hp.
  - rewrite (cmd_start_known L uid w prefs Hp). cbn. by rewrite Hp.
  - destruct (cmd_start_new L uid w Hp) as (_ & -> & _). cbn [user_prefs].
    by rewrite lookup_insert_eq.
Qed.

(** C10: /start for a subscriber who is already in the preference store
    leaves the bot as it is, so every field of every record, the
    subscriber's own included, keeps its value, and nothing is written to
    disk; for a subscriber who is absent it stores a record with all
    categories enabled, no keywords, zero thresholds, notifications
    enabled and an empty last-notified map, and touches no other record.
    Hence a second /start changes nothing that the first has left. *)
Theorem C10_start_keeps_existing_preferences (L : Lib) (uid : Z) (w : World) :
  match user_prefs (bot w) !! uid with
  | Some prefs =>
      bot (snd (cmd_start L uid w)) = bot w
      /\ user_prefs (bot (snd (cmd_start L uid w))) !! uid = Some prefs
      /\ data_file (snd (cmd_start L uid w)) = data_file w
  | None =>
      user_prefs (bot (snd (cmd_start L uid w))) !! uid = Some (default_preferences uid)
      /\ (forall other, other <> uid ->
            user_prefs (bot (snd (cmd_start L uid w))) !! other = user_prefs (bot w) !! other)
      /\ seen_markets (bot (snd (cmd_start L uid w))) = seen_markets (bot w)
  end
  /\ bot (snd (cmd_start L uid (snd (cmd_start L uid w)))) = bot (snd (cmd_start L uid w))
  /\ (forall c, c ∈ enabled_categories (default_preferences uid)
                <-> exists name, In (c, name) CATEGORIES)
  /\ keywords (default_preferences uid) = []
  /\ min_liquidity (default_preferences uid) = amount 0
  /\ min_volume (default_preferences uid) = amount 0
  /\ notify_on_launch (default_preferences uid) = true
  /\ last_notified (default_preferences uid) = ∅.
Proof.
  split; [| split; [| split; [apply all_categories_spec | done]]].
  - destruct (user_prefs (bot w) !! uid) as [prefs|] eqn:Hp.
    + by rewrite (cmd_start_known L uid w prefs Hp).
    + destruct (cmd_start_new L uid w Hp) as (_ & -> & _). cbn [user_prefs seen_markets].
      split; [apply lookup_insert_eq |]. split; [| done].
      intros other Hne. by apply lookup_insert_ne.
  - destruct (cmd_start_registers L uid w) as [prefs Hp].
    by rewrite (cmd_start_known L uid _ prefs Hp).
Qed.

(** C3, at the market of the /test command: a subscriber who has just
    been created by /start has notifications enabled, passes the filter
    for the test market and has no last-notified entry for it, so one
    send is due.  The expiry of the test market is a naive datetime, the
    dispatch operation subtracts an aware one from it, and the call ends
    in [TypeError] with nothing sent and no confirmation replied. *)
Theorem C3_test_alert_raises_before_sending (E : Env) (L : Lib) (uid : Z) :
  let w := snd (cmd_start L uid (fresh_world empty_bot)) in
  user_prefs (bot w) !! uid = Some (default_preferences uid)
  /\ notify_on_launch (default_preferences uid) = true
  /\ last_notified (default_preferences uid) !! "test_123" = None
  /\ (forall now1 now2,
         market_matches_preferences (test_market now1 now2) (default_preferences uid) = true)
  /\ fst (cmd_test_alert E uid w) = Raised TypeError
  /\ outbox (snd (cmd_test_alert E uid w)) = []
  /\ replies (snd (cmd_test_alert E uid w)) = replies w.
Proof.
  intros w.
  destruct (cmd_start_new L uid (fresh_world empty_bot)) as (_ & Hbot & Hout & Hrep);
    [apply lookup_empty |].
  fold w in Hbot, Hout, Hrep.
  assert (user_prefs (bot w) !! uid = Some (default_preferences uid)) as Hp.
  { rewrite Hbot. cbn [user_prefs]. apply lookup_insert_eq. }
  split; [done |]. split; [done |]. split; [done |].
  split; [intros; by vm_compute |].
  unfold cmd_test_alert. cbv [bind datetime_now read_clock ret].
  cbn [clock_reads bot outbox replies logged data_file fetches].
  set (w2 := {| bot := bot w |}).
  rewrite (naive_expiry_raises E uid _ w2 (default_preferences uid)
             (instant E (clock_reads w) + local_offset E + days_td 30)); try done.
Qed.

(** ** The record parser *)

Lemma pure_ret {A} (a : A) : pure (ret a).
Proof. by intros w. Qed.

Lemma pure_raise {A} (e : exn) : pure (@raise A e).
Proof. by intros w. Qed.

Lemma pure_unmodelled {A} : pure (@unmodelled A).
Proof. by intros w. Qed.

Lemma pure_bind {A B} (c : M A) (k : A -> M B) :
  pure c -> (forall a, pure (k a)) -> pure (bind c k).
Proof.
  intros Hc Hk w. unfold pure_run, bind. rewrite Hc, (Hc (fresh_world empty_bot)).
  destruct (pure_run c) as [a| |]; [| done | done].
  by rewrite Hk, (Hk a (fresh_world empty_bot)).
Qed.

Lemma pure_subscript (d : json) (key : string) : pure (subscript d key).
Proof.
  unfold subscript. destruct d; try apply pure_raise.
  destruct (jget key members); [apply pure_ret | apply pure_raise].
Qed.

Lemma pure_get_default (d : json) (key : string) (default : json) :
  pure (get_default d key default).
Proof. unfold get_default. destruct d; try apply pure_raise. apply pure_ret. Qed.

Lemma pure_typed {A B} (decode : B -> option A) (v : B) : pure (typed decode v).
Proof. unfold typed. destruct (decode v); [apply pure_ret | apply pure_unmodelled]. Qed.

Lemma pure_lower_method (v : json) : pure (lower_method v).
Proof. destruct v; try apply pure_raise. apply pure_ret. Qed.

Lemma pure_float_of_number (L : Lib) (x : number) : pure (float_of_number L x).
Proof.
  unfold float_of_number. destruct (too_large x); [apply pure_raise |].
  destruct (beyond_exact x); [| apply pure_ret]. destruct x; apply pure_ret.
Qed.

Lemma pure_py_float (L : Lib) (v : json) : pure (py_float L v).
Proof.
  destruct v as [| |x|s| |]; try apply pure_raise; try apply pure_ret.
  - apply pure_float_of_number.
  - cbn. destruct (float_of_str L s); [apply pure_ret | apply pure_raise].
Qed.

(** [float(0)] is 0.0. *)
Lemma float_of_zero (L : Lib) : float_of_number L (amount 0) = ret (amount 0).
Proof. reflexivity. Qed.

(** What [float] makes of a number that is not too large: the number
    itself or, beyond 2^53, a double near it. *)
Lemma float_of_number_returns (L : Lib) (x : number) :
  too_large x = false -> exists y, float_of_number L x = ret y.
Proof.
  intros Hx. unfold float_of_number. rewrite Hx.
  destruct (beyond_exact x); [| by exists x]. destruct x; by eexists.
Qed.

Lemma pure_parse_timestamp (L : Lib) (v : json) : pure (parse_timestamp L v).
Proof.
  destruct v; try apply pure_raise.
  cbn. destruct (fromisoformat L _); [apply pure_ret | apply pure_raise].
Qed.

Create HintDb pure_db.
#[local] Hint Resolve pure_ret pure_raise pure_unmodelled pure_subscript pure_get_default
  pure_typed pure_lower_method pure_py_float pure_parse_timestamp : pure_db.

Lemma pure_parse_market (L : Lib) (item : json) : pure (parse_market L item).
Proof.
  unfold parse_market.
  repeat (apply pure_bind; [auto with pure_db | intros ?]).
  apply pure_ret.
Qed.

Lemma optional_str_default (key default : string) (members : list (string * json)) :
  optional is_str key members = true ->
  exists s, from_option Datatypes.id (JStr default) (jget key members) = JStr s.
Proof.
  unfold optional. destruct (jget key members) as [[]|]; try discriminate; cbn; eauto.
Qed.

Lemma optional_str_array_default (key : string) (members : list (string * json)) :
  optional is_str_array key members = true ->
  exists l, as_str_list (from_option Datatypes.id (JArr []) (jget key members)) = Some l.
Proof.
  unfold optional, is_str_array. destruct (jget key members) as [v|]; cbn.
  - destruct (as_str_list v); [eauto | discriminate].
  - eauto.
Qed.

(** What the [Market(...)] expression yields on a well-typed record: a
    market exactly when the record is valid, and [KeyError] or
    [ValueError] otherwise. *)
Lemma parse_market_well_typed (L : Lib) (item : json) :
  well_typed_record item = true ->
  match pure_run (parse_market L item) with
  | Returned _ => valid_record L item = true
  | Raised e => valid_record L item = false /\ KeyError_or_ValueError e = true
  | Unmodelled => False
  end.
Proof.
  destruct item as [| | | | |members]; try discriminate.
  unfold well_typed_record. rewrite !andb_true_iff.
  intros [[[[[[[Hq Hd] Hc] Hv] Hl] He] Hcr] Ht].
  apply (optional_str_default _ "No title") in Hq as [q Hq].
  apply (optional_str_default _ "") in Hd as [d Hd].
  apply (optional_str_default _ "other") in Hc as [c Hc].
  apply optional_str_array_default in Ht as [t Ht].
  unfold pure_run, parse_market, valid_record, reads_amount, reads_timestamp.
  unfold subscript, get_default, optional in *. run.
  rewrite Hq, Hd, Hc. cbn [as_str lower_method]. run.
  destruct (jget "id" members) as [i|]; [| by vm_compute].
  cbn [bool_decide]. 
  destruct (jget "volume" members) as [[| |vx|vs| |]|]; try discriminate Hv;
    cbn [from_option py_float Datatypes.id]; rewrite ?float_of_zero; run.
  all: try (apply negb_true_iff in Hv;
            destruct (float_of_number_returns L vx Hv) as [vy ->]; run).
  all: try (destruct (float_of_str L vs); run; [| by vm_compute]).
  all: destruct (jget "liquidity" members) as [[| |lx|ls| |]|]; try discriminate Hl;
    cbn [from_option py_float Datatypes.id]; rewrite ?float_of_zero; run.
  all: try (apply negb_true_iff in Hl;
            destruct (float_of_number_returns L lx Hl) as [ly ->]; run).
  all: try (destruct (float_of_str L ls); run; [| by vm_compute]).
  all: destruct (jget "expiry" members) as [[| | |es| |]|]; try discriminate He; [| by vm_compute ];
       cbn [parse_timestamp]; destruct (fromisoformat L _); run; [| by vm_compute].
  all: destruct (jget "created_at" members) as [[| | |cs| |]|]; try discriminate Hcr; [| by vm_compute ];
       cbn [parse_timestamp]; destruct (fromisoformat L _); run; [| by vm_compute].
  all: rewrite Ht; by vm_compute.
Qed.

Lemma add_logs_nil (w : World) : add_logs [] w = w.
Proof. unfold add_logs. rewrite app_nil_r. by destruct w. Qed.

Lemma add_logs_cons (r : LogRecord) (rs : list LogRecord) (w : World) :
  add_logs rs (add_logs [r] w) = add_logs (r :: rs) w.
Proof. unfold add_logs. cbn. by rewrite <- app_assoc. Qed.

(** One turn of the loop of [parse_markets]. *)
Lemma parse_items_cons (L : Lib) (item : json) (rest : list json) (markets : list Market)
    (w : World) :
  parse_items L (item :: rest) markets w
  = match pure_run (parse_market L item) with
    | Returned market => parse_items L rest (markets ++ [market]) w
    | Raised e =>
        if KeyError_or_ValueError e
        then parse_items L rest markets (add_logs [LogWarning "Error parsing market data" e] w)
        else (Raised e, w)
    | Unmodelled => (Unmodelled, w)
    end.
Proof.
  cbn [parse_items]. unfold bind at 1, try_except, bind at 1.
  rewrite (pure_parse_market L item w).
  destruct (pure_run (parse_market L item)) as [market|e|]; [done | | done].
  by destruct (KeyError_or_ValueError e).
Qed.

Lemma parse_items_well_typed (L : Lib) (items : list json) (markets : list Market) (w : World) :
  Forall (fun item => well_typed_record item = true) items ->
  parse_items L items markets w
  = (Returned (markets ++ omap (market_of_record L) items),
     add_logs (omap (warning_of_record L) items) w).
Proof.
  intros Hall. revert markets w.
  induction Hall as [|item items Hitem _ IH]; intros markets w.
  - cbn. by rewrite app_nil_r, add_logs_nil.
  - cbn [parse_items omap list_omap]. unfold bind at 1, try_except, bind at 1.
    rewrite (pure_parse_market L item w).
    pose proof (parse_market_well_typed L item Hitem) as Hcase.
    unfold market_of_record at 1, warning_of_record at 1.
    destruct (pure_run (parse_market L item)) as [market|e|]; [| | done].
    + cbn [ret]. rewrite IH. by rewrite <- app_assoc.
    + destruct Hcase as [_ ->]. run. rewrite IH.
      by rewrite <- (add_logs_cons (LogWarning "Error parsing market data" e)).
Qed.

Lemma valid_record_required (L : Lib) (members : list (string * json)) :
  jget "id" members = None \/ jget "expiry" members = None
  \/ jget "created_at" members = None ->
  valid_record L (JObj members) = false.
Proof.
  unfold valid_record, reads_timestamp. intros [-> | [-> | ->]]; cbn.
  - done.
  - by rewrite andb_false_r.
  - by rewrite andb_false_r.
Qed.

Lemma record_kept_or_warned (L : Lib) (item : json) :
  well_typed_record item = true ->
  (is_Some (market_of_record L item) <-> valid_record L item = true)
  /\ (is_Some (warning_of_record L item) <-> valid_record L item = false)
  /\ (market_of_record L item = None <-> is_Some (warning_of_record L item)).
Proof.
  intros Hitem. pose proof (parse_market_well_typed L item Hitem) as Hcase.
  unfold market_of_record, warning_of_record.
  destruct (pure_run (parse_market L item)) as [market|e|]; [| | done].
  - rewrite Hcase. repeat split; try done; intros H; try by destruct H.
  - destruct Hcase as [-> _]. repeat split; try done; intros H; try by destruct H.
Qed.

Lemma kept_and_warned_cover (L : Lib) (items : list json) :
  Forall (fun item => well_typed_record item = true) items ->
  (length (omap (market_of_record L) items) + length (omap (warning_of_record L) items))%nat
  = length items.
Proof.
  induction 1 as [|item items Hitem _ IH]; [done |].
  cbn [omap list_omap].
  pose proof (parse_market_well_typed L item Hitem) as Hcase.
  unfold market_of_record at 1, warning_of_record at 1.
  destruct (pure_run (parse_market L item)) as [market|e|]; [| | done]; cbn [length]; lia.
Qed.

(** What the handler of the parser does catch: for every batch of raw
    records that are JSON objects whose members, where present, have the
    types the parser expects and hold no integer that is too large for a
    float, the parser returns, in order, exactly the markets of the valid
    records and logs one warning for every other record, namely for each
    record that lacks the identifier, the expiry or the creation
    timestamp or that holds a timestamp or an amount string that does
    not parse. *)
Lemma parser_skips_key_and_value_errors
    (L : Lib) (members : list (string * json)) (items : list json) (w : World) :
  jget "markets" members = Some (JArr items) ->
  Forall (fun item => well_typed_record item = true) items ->
  parse_markets L (JObj members) w
  = (Returned (omap (market_of_record L) items),
     add_logs (omap (warning_of_record L) items) w)
  /\ (forall item, In item items ->
        (is_Some (market_of_record L item) <-> valid_record L item = true)
        /\ (is_Some (warning_of_record L item) <-> valid_record L item = false)
        /\ (market_of_record L item = None <-> is_Some (warning_of_record L item)))
  /\ (forall fields, In (JObj fields) items ->
        jget "id" fields = None \/ jget "expiry" fields = None
        \/ jget "created_at" fields = None ->
        market_of_record L (JObj fields) = None
        /\ is_Some (warning_of_record L (JObj fields)))
  /\ (length (omap (market_of_record L) items)
      + length (omap (warning_of_record L) items))%nat = length items
  /\ (forall fields, items = [JObj fields] -> jget "expiry" fields = None ->
        exists e, parse_markets L (JObj members) w
                  = (Returned [], add_logs [LogWarning "Error parsing market data" e] w)).
Proof.
  intros Hmarkets Hall.
  assert (parse_markets L (JObj members) w
          = (Returned (omap (market_of_record L) items),
             add_logs (omap (warning_of_record L) items) w)) as Hparse.
  { unfold parse_markets, get_default. run. rewrite Hmarkets.
    unfold from_option, Datatypes.id, py_iter. run.
    by rewrite parse_items_well_typed. }
  assert (forall item, In item items -> well_typed_record item = true) as Htyped
    by (by apply List.Forall_forall).
  split; [exact Hparse |]. split; [| split; [| split]].
  - intros item Hin. by apply record_kept_or_warned, Htyped.
  - intros fields Hin Hmissing.
    destruct (record_kept_or_warned L (JObj fields) (Htyped _ Hin)) as (Hkept & Hwarned & Hnone).
    pose proof (valid_record_required L fields Hmissing) as Hinvalid.
    split; [apply Hnone |]; by apply Hwarned.
  - by apply kept_and_warned_cover.
  - intros fields -> Hexpiry. rewrite Hparse.
    destruct (record_kept_or_warned L (JObj fields)) as (_ & Hwarned & Hnone);
      [apply Htyped; by left |].
    assert (is_Some (warning_of_record L (JObj fields))) as [r Hr].
    { apply Hwarned, valid_record_required. tauto. }
    assert (market_of_record L (JObj fields) = None) as Hm by (apply Hnone; by rewrite Hr).
    cbn [omap list_omap]. rewrite Hm, Hr. cbn.
    unfold warning_of_record in Hr.
    destruct (pure_run (parse_market L (JObj fields))) as [|e|]; try discriminate.
    injection Hr as <-. by exists e.
Qed.

Lemma parser_skips_key_and_value_errors_example :
  let members := [("markets", JArr [listed "m1"; no_expiry_record; listed "m2"])] in
  jget "markets" members = Some (JArr [listed "m1"; no_expiry_record; listed "m2"])
  /\ Forall (fun item => well_typed_record item = true)
            [listed "m1"; no_expiry_record; listed "m2"]
  /\ parse_markets iso_lib (JObj members) (fresh_world empty_bot)
     = (Returned (omap (market_of_record iso_lib) [listed "m1"; no_expiry_record; listed "m2"]),
        add_logs (omap (warning_of_record iso_lib)
                       [listed "m1"; no_expiry_record; listed "m2"])
                 (fresh_world empty_bot))
  /\ omap (market_of_record iso_lib) [listed "m1"; no_expiry_record; listed "m2"]
     = [parsed "m1"; parsed "m2"]
  /\ omap (warning_of_record iso_lib) [listed "m1"; no_expiry_record; listed "m2"]
     = [LogWarning "Error parsing market data" KeyError].
Proof.
  intros members.
  assert (Forall (fun item => well_typed_record item = true)
                 [listed "m1"; no_expiry_record; listed "m2"]) as Hall
    by (repeat constructor).
  split; [reflexivity |]. split; [exact Hall |].
  split; [| split; by vm_compute].
  exact (proj1 (parser_skips_key_and_value_errors iso_lib members
                  [listed "m1"; no_expiry_record; listed "m2"]
                  (fresh_world empty_bot) eq_refl Hall)).
Qed.

(** A batch that holds a fatal record does not come back from the loop:
    the exception of the first fatal record leaves it, unless a record
    before it has left the typed fragment. *)
Lemma parse_items_fatal (L : Lib) (items : list json) (markets : list Market) (w : World) :
  Exists (fatal_record L) items ->
  fst (parse_items L items markets w) = Unmodelled
  \/ exists e, KeyError_or_ValueError e = false
               /\ fst (parse_items L items markets w) = Raised e.
Proof.
  intros Hfatal. revert markets w.
  induction Hfatal as [item rest (e & Hrun & Hue) | item rest Hrest IH];
    intros markets w; rewrite parse_items_cons.
  - rewrite Hrun, Hue. right. by exists e.
  - destruct (pure_run (parse_market L item)) as [m|e|]; [apply IH | | by left].
    destruct (KeyError_or_ValueError e) eqn:He; [apply IH |]. right. by exists e.
Qed.

(** C7: the handler of the parser is [except (KeyError, ValueError)], so
    the parser skips a record only when parsing it raises one of these
    two, as for the record without an expiry of the worked scenario.  A
    record whose category is null raises [AttributeError], an item that
    is not an object raises [TypeError], and a record whose volume is an
    integer too large for a float raises [OverflowError]; none of them
    is caught.  A batch that holds such a record is lost as a whole: the
    exception leaves the parser, no market of the batch is returned, and
    the complete records that stand before or after the bad one are
    lost with it. *)
Theorem C7_bad_record_aborts_parser :
  (forall L w,
      parse_markets L (JObj [("markets", JArr [no_expiry_record])]) w
      = (Returned [], add_logs [LogWarning "Error parsing market data" KeyError] w))
  /\ (forall L, pure_run (parse_market L null_category_record) = Raised AttributeError)
  /\ (forall L item,
         is_object item = false -> pure_run (parse_market L item) = Raised TypeError)
  /\ (forall L, pure_run (parse_market L huge_volume_record) = Raised OverflowError)
  /\ (forall L members items w,
         jget "markets" members = Some (JArr items) ->
         Exists (fatal_record L) items ->
         forall markets, fst (parse_markets L (JObj members) w) <> Returned markets)
  /\ (forall L w,
         parse_markets L (JObj [("markets", JArr [null_category_record; listed "m1"])]) w
         = (Raised AttributeError, w))
  /\ market_of_record iso_lib (listed "m1") = Some (parsed "m1")
  /\ market_of_record iso_lib (listed "m2") = Some (parsed "m2")
  /\ (forall w,
         parse_markets iso_lib
           (JObj [("markets", JArr [listed "m1"; JStr "m0"; listed "m2"])]) w
         = (Raised TypeError, w))
  /\ (forall w,
         parse_markets iso_lib
           (JObj [("markets", JArr [listed "m1"; huge_volume_record; listed "m2"])]) w
         = (Raised OverflowError, w)).
Proof.
  split; [intros L w; by vm_compute |].
  split; [intros L; by vm_compute |].
  split; [intros L item Hitem; destruct item; try discriminate; by vm_compute |].
  split; [intros L; by vm_compute |].
  split.
  { intros L members items w Hmarkets Hfatal markets.
    unfold parse_markets, get_default. run. rewrite Hmarkets.
    unfold from_option, Datatypes.id, py_iter. run.
    destruct (parse_items_fatal L items [] w Hfatal) as [-> | (e & _ & ->)]; discriminate. }
  split; [intros L w; by vm_compute |].
  split; [by vm_compute |]. split; [by vm_compute |].
  split; intros w; by vm_compute.
Qed.

(** ** Persistence *)

Lemma int_of_str_of_int (n : Z) : int_of_str (str_of_int n) = Some n.
Proof.
  unfold int_of_str, str_of_int.
  rewrite DecimalString.NilZero.isi.
  - cbn. by rewrite DecimalZ.of_to.
  - destruct n; cbn; try discriminate.
    intros [= H]. by apply DecimalPos.Unsigned.to_uint_nonnil in H.
  - destruct n; cbn; try discriminate.
    intros [= H]. by apply DecimalPos.Unsigned.to_uint_nonnil in H.
Qed.

Lemma as_str_list_strings (l : list string) : as_str_list (JArr (JStr <$> l)) = Some l.
Proof.
  cbn. induction l as [|s l IH]; [done |].
  cbn. cbn in IH. by rewrite IH.
Qed.

Lemma py_set_elements (s : gset string) (w : World) :
  py_set (JArr (JStr <$> elements s)) w = (Returned s, w).
Proof.
  unfold py_set. rewrite as_str_list_strings. by rewrite list_to_set_elements_L.
Qed.

Lemma as_stamps_saved (L : Lib) (m : gmap string stamp) :
  as_stamps (JObj (prod_map Datatypes.id (stamp_to_json L) <$> map_to_list m))
  = Some (reloaded_stamp L <$> m).
Proof.
  unfold as_stamps.
  assert (forall l : list (string * stamp),
             mapM (fun kv : string * json => pair kv.1 <$> (StampStr <$> as_str kv.2))
                  (prod_map Datatypes.id (stamp_to_json L) <$> l)
             = Some (prod_map Datatypes.id (reloaded_stamp L) <$> l)) as Hl.
  { induction l as [|[k v] l IH]; [done |].
    cbn. cbn in IH. rewrite IH. by destruct v. }
  rewrite Hl. cbn. f_equal.
  rewrite list_to_map_fmap. by rewrite list_to_map_to_list.
Qed.

Lemma load_user_saved (L : Lib) (uid : Z) (prefs : UserPreferences) (w : World) :
  user_id prefs = uid ->
  load_user (str_of_int uid) (prefs_to_json L prefs) w
  = (Returned tt,
     with_bot {| seen_markets := seen_markets (bot w);
                 user_prefs := <[uid := reloaded_preferences L prefs]> (user_prefs (bot w)) |}
              w).
Proof.
  intros Huid. unfold load_user, prefs_to_json, subscript. run.
  rewrite int_of_str_of_int.
  change (jget "enabled_categories" _) with (Some (JArr (JStr <$> elements (enabled_categories prefs)))).
  cbv iota beta. rewrite py_set_elements.
  change (jget "keywords" _) with (Some (JArr (JStr <$> keywords prefs))).
  cbv iota beta. rewrite as_str_list_strings.
  change (jget "min_liquidity" _) with (Some (JNum (min_liquidity prefs))).
  change (jget "min_volume" _) with (Some (JNum (min_volume prefs))).
  change (jget "notify_on_launch" _) with (Some (JBool (notify_on_launch prefs))).
  change (jget "last_notified" _)
    with (Some (JObj (prod_map Datatypes.id (stamp_to_json L) <$> map_to_list (last_notified prefs)))).
  cbv iota beta. cbn [as_num as_bool]. rewrite as_stamps_saved.
  unfold with_bot, reloaded_preferences. by rewrite Huid.
Qed.

Lemma load_users_saved (L : Lib) (l : list (Z * UserPreferences)) (w : World) :
  Forall (fun kv => user_id kv.2 = kv.1) l ->
  for_each (prod_map str_of_int (prefs_to_json L) <$> l) (fun kv => load_user kv.1 kv.2) w
  = (Returned tt,
     with_bot {| seen_markets := seen_markets (bot w);
                 user_prefs := stored L l (user_prefs (bot w)) |} w).
Proof.
  intros Hall. revert w. induction Hall as [|[uid prefs] l Hkey _ IH]; intros w.
  - cbn. by destruct w as [[] ?].
  - cbn [fmap list_fmap for_each prod_map fst snd]. unfold bind.
    rewrite (load_user_saved L uid prefs w Hkey), IH. by cbn.
Qed.

Lemma stored_is_union (L : Lib) (l : list (Z * UserPreferences))
    (users : gmap Z UserPreferences) :
  NoDup l.*1 ->
  stored L l users
  = list_to_map (prod_map Datatypes.id (reloaded_preferences L) <$> l) ∪ users.
Proof.
  revert users. induction l as [|[uid prefs] l IH]; intros users Hnd.
  - cbn. by rewrite (left_id_L ∅ (∪)).
  - apply NoDup_cons in Hnd as [Hnotin Hnd]. cbn [stored foldl fst snd].
    fold (stored L l (<[uid := reloaded_preferences L prefs]> users)).
    rewrite IH by done. cbn [fmap list_fmap prod_map fst snd list_to_map foldr Datatypes.id].
    rewrite <- insert_union_l. rewrite <- insert_union_r; [done |].
    apply not_elem_of_list_to_map_1. by rewrite <- list_fmap_compose.
Qed.

Lemma stored_from_empty (L : Lib) (users : gmap Z UserPreferences) :
  stored L (map_to_list users) ∅ = reloaded_preferences L <$> users.
Proof.
  rewrite stored_is_union by apply NoDup_fst_map_to_list.
  by rewrite (right_id_L ∅ (∪)), list_to_map_fmap, list_to_map_to_list.
Qed.

(** Saving a state and loading it in a new process gives back the ledger
    and, for every subscriber, a record with the same categories,
    keywords, thresholds and flag; every last-notified entry comes back
    as the string that was written for it. *)
Lemma save_then_load (L : Lib) (w : World) :
  keyed_by_user_id (bot w) ->
  load_data (restart (snd (save_data L w)))
  = (Returned tt,
     with_bot {| seen_markets := seen_markets (bot w);
                 user_prefs := reloaded_preferences L <$> user_prefs (bot w) |}
              (restart (snd (save_data L w)))).
Proof.
  intros Hkeys. unfold save_data, load_data, restart. run.
  unfold load_document, data_to_json, get_default. run.
  change (jget "seen_markets" _) with (Some (JArr (JStr <$> elements (seen_markets (bot w))))).
  cbn [from_option Datatypes.id]. rewrite py_set_elements.
  change (jget "user_prefs" _)
    with (Some (JObj (prod_map str_of_int (prefs_to_json L) <$> map_to_list (user_prefs (bot w))))).
  cbn [from_option Datatypes.id].
  rewrite load_users_saved.
  - cbn [bot user_prefs seen_markets empty_bot]. by rewrite stored_from_empty.
  - apply List.Forall_forall. intros [uid prefs] Hin. cbn.
    apply Hkeys. by apply elem_of_map_to_list, list_elem_of_In.
Qed.

(** The round trip is the identity on a state without last-notified
    entries, and on any state that has itself been loaded. *)
Lemma reloaded_preferences_id (L : Lib) (prefs : UserPreferences) :
  (forall market_id v, last_notified prefs !! market_id = Some v -> exists s, v = StampStr s) ->
  reloaded_preferences L prefs = prefs.
Proof.
  intros Hstr. destruct prefs as [uid cats kws minl minv notify last].
  unfold reloaded_preferences. cbn in *. f_equal.
  apply map_eq. intros k. rewrite lookup_fmap.
  destruct (last !! k) as [v|] eqn:Hk; [| done].
  cbn. by destruct (Hstr k v Hk) as [s ->].
Qed.

Lemma save_then_load_without_datetimes (L : Lib) (w : World) :
  keyed_by_user_id (bot w) ->
  (forall uid prefs market_id v,
      user_prefs (bot w) !! uid = Some prefs ->
      last_notified prefs !! market_id = Some v -> exists s, v = StampStr s) ->
  fst (load_data (restart (snd (save_data L w)))) = Returned tt
  /\ bot (snd (load_data (restart (snd (save_data L w))))) = bot w.
Proof.
  intros Hkeys Hstr. rewrite save_then_load by done. split; [done |].
  cbn [snd with_bot bot]. destruct (bot w) as [seen users] eqn:Hb. cbn in *. f_equal.
  apply map_eq. intros uid. rewrite lookup_fmap.
  destruct (users !! uid) as [prefs|] eqn:Hu; [| done].
  cbn. f_equal. apply reloaded_preferences_id. intros mid v. by apply (Hstr uid).
Qed.

(** C6, at a bot whose one subscriber was notified about m1: after
    [save_data], a restart and [load_data], the subscriber is back with
    the same categories, keywords, thresholds and flag, but the entry of
    m1 in the last-notified map is no longer the datetime that was saved:
    it is the string that [str] makes of it.  The next alert about m1
    for this subscriber then ends in [TypeError]. *)
Theorem C6_reloaded_timestamp_is_a_string (L : Lib) (E : Env) :
  let w := fresh_world (bot_of notified_subscriber) in
  let w' := snd (load_data (restart (snd (save_data L w)))) in
  fst (load_data (restart (snd (save_data L w)))) = Returned tt
  /\ seen_markets (bot w') = seen_markets (bot w)
  /\ (exists prefs',
        user_prefs (bot w') !! 7 = Some prefs'
        /\ enabled_categories prefs' = enabled_categories notified_subscriber
        /\ keywords prefs' = keywords notified_subscriber
        /\ min_liquidity prefs' = min_liquidity notified_subscriber
        /\ min_volume prefs' = min_volume notified_subscriber
        /\ notify_on_launch prefs' = notify_on_launch notified_subscriber
        /\ last_notified notified_subscriber !! "m1" = Some (StampDatetime (Naive 0))
        /\ last_notified prefs' !! "m1" = Some (StampStr (str_of_datetime L (Naive 0)))
        /\ last_notified prefs' <> last_notified notified_subscriber)
  /\ (str_of_datetime L (Naive 0) <> "" ->
      fst (send_market_alert E 7 m1 w') = Raised TypeError).
Proof.
  intros w w'.
  assert (w' = {| bot := {| seen_markets := ∅;
                            user_prefs :=
                              {[ 7 := scenario_subscriber 7 {[ "crypto" ]} (amount 100)
                                        (amount 500) [] true
                                        {[ "m1" := StampStr (str_of_datetime L (Naive 0)) ]} ]} |};
                  outbox := []; replies := []; logged := []; clock_reads := 0;
                  data_file := Some (data_to_json L (bot_of notified_subscriber));
                  fetches := 0 |}) as Hw' by (by vm_compute).
  split; [by vm_compute |]. rewrite Hw'. split; [done |]. split.
  - eexists. split; [apply lookup_singleton_eq |]. cbn.
    do 5 (split; [by vm_compute |]).
    split; [apply lookup_singleton_eq |]. split; [apply lookup_singleton_eq |].
    intros Heq. apply (f_equal (fun m => m !! "m1")) in Heq.
    rewrite !lookup_singleton_eq in Heq. discriminate.
  - intros Hne. clear Hw' w' w.
    destruct (str_of_datetime L (Naive 0)) as [|c s] eqn:Hs; [done |].
    set (prefs' := scenario_subscriber _ _ _ _ _ _ _).
    rewrite (string_stamp_raises E 7 m1 _ prefs' c s).
    + done.
    + cbv [bot user_prefs]. apply lookup_singleton_eq.
    + reflexivity.
    + unfold prefs', scenario_subscriber. cbv [last_notified].
      change (id m1) with "m1". apply lookup_singleton_eq.
Qed.

(** ** The periodic job *)

(** ** What every run respects *)

Section Stable.

Context (R : World -> World -> Prop) `{!PreOrder R}.

Lemma stable_pure {A} (c : M A) : pure c -> stable R c.
Proof. intros Hc w. by rewrite Hc. Qed.

Lemma stable_ret {A} (a : A) : stable R (ret a).
Proof. by intros w. Qed.

Lemma stable_raise {A} (e : exn) : stable R (@raise A e).
Proof. by intros w. Qed.

Lemma stable_bind {A B} (c : M A) (k : A -> M B) :
  stable R c -> (forall a, stable R (k a)) -> stable R (bind c k).
Proof.
  intros Hc Hk w. unfold bind. specialize (Hc w).
  destruct (c w) as [[a|e|] w1]; cbn [snd] in *; [| done | done].
  by etrans; [| apply Hk].
Qed.

Lemma stable_try_except {A} (body : M A) (classes : exn -> bool) (handler : exn -> M A) :
  stable R body -> (forall e, stable R (handler e)) -> stable R (try_except body classes handler).
Proof.
  intros Hb Hh w. unfold try_except. specialize (Hb w).
  destruct (body w) as [[a|e|] w1]; cbn [snd] in *; [done | | done].
  destruct (classes e); [| done]. by etrans; [| apply Hh].
Qed.

Lemma stable_for_each {A} (xs : list A) (body : A -> M unit) :
  (forall x, stable R (body x)) -> stable R (for_each xs body).
Proof.
  intros Hb. induction xs as [|x xs IH]; [apply stable_ret |].
  cbn [for_each]. by apply stable_bind.
Qed.

End Stable.

(** *** The ledger only grows *)

Lemma ledger_grows_preorder : PreOrder ledger_grows.
Proof.
  split.
  - intros w. by unfold ledger_grows.
  - intros w1 w2 w3. unfold ledger_grows. set_solver.
Qed.

#[local] Existing Instance ledger_grows_preorder.

Lemma same_bot_keeps_ledger {A} (c : M A) :
  (forall w, bot (snd (c w)) = bot w) -> stable ledger_grows c.
Proof. intros Hc w. unfold ledger_grows. by rewrite Hc. Qed.

Lemma send_market_alert_keeps_ledger (E : Env) (uid : Z) (market : Market) :
  stable ledger_grows (send_market_alert E uid market).
Proof.
  intros w. unfold ledger_grows.
  pose proof (send_market_alert_run E uid market w) as Hrun. invert_alert_run Hrun; done.
Qed.

Lemma parse_items_stable (R : World -> World -> Prop) `{!PreOrder R} (L : Lib)
    (items : list json) (markets : list Market) :
  (forall r, stable R (logging r)) ->
  stable R (parse_items L items markets).
Proof.
  intros Hlog. revert markets. induction items as [|item items IH]; intros markets.
  - apply stable_ret; done.
  - cbn [parse_items]. apply stable_bind; [done | | done].
    apply stable_try_except; [done | |].
    + apply stable_bind; [done | | intros; by apply stable_ret].
      apply stable_pure; [done | apply pure_parse_market].
    + intros e. apply stable_bind; [done | apply Hlog | intros; by apply stable_ret].
Qed.

Lemma fetch_markets_stable (R : World -> World -> Prop) `{!PreOrder R} (E : Env) (L : Lib) :
  (forall r, stable R (logging r)) ->
  stable R (next_reply E) ->
  stable R (fetch_markets E L).
Proof.
  intros Hlog Hnext. unfold fetch_markets.
  apply stable_try_except; [done | |].
  - apply stable_bind; [done | done |]. intros [status data|]; [| by apply stable_raise].
    assert (stable R (parse_markets L data)) as Hparse.
    { unfold parse_markets. apply stable_bind; [done | |].
      - apply stable_pure; [done | apply pure_get_default].
      - intros listed. apply stable_bind; [done | |].
        + apply stable_pure; [done |]. unfold py_iter.
          destruct listed; auto using pure_ret, pure_raise.
        + intros items. by apply parse_items_stable. }
    destruct (status =? 200); [done |].
    apply stable_bind; [done | apply Hlog | intros; by apply stable_ret].
  - intros e. apply stable_bind; [done | apply Hlog | intros; by apply stable_ret].
Qed.

(** Whatever the name of the predicate and however the job ends, every
    identifier that was in the ledger before a cycle is in it after. *)
Lemma check_new_markets_keeps_ledger (predicate : string) (E : Env) (L : Lib) :
  stable ledger_grows (check_new_markets_with predicate E L).
Proof.
  assert (forall r, stable ledger_grows (logging r)) as Hlog
    by (intros r; by apply same_bot_keeps_ledger).
  unfold check_new_markets_with.
  apply stable_bind; [apply _ | apply Hlog | intros _].
  apply stable_bind; [apply _ | | intros markets].
  { apply fetch_markets_stable; [apply _ | done | by apply same_bot_keeps_ledger]. }
  apply stable_bind; [apply _ | by apply same_bot_keeps_ledger | intros self].
  apply stable_bind; [apply _ | | intros _; by apply same_bot_keeps_ledger].
  apply stable_for_each; [apply _ |]. intros market.
  apply stable_bind; [apply _ | apply Hlog | intros _].
  apply stable_bind; [apply _ | | intros _].
  - intros w. unfold ledger_grows, seen_markets_add. run. cbn. set_solver.
  - unfold notify_users.
    apply stable_bind; [apply _ | by apply same_bot_keeps_ledger | intros self'].
    apply stable_for_each; [apply _ |]. intros item.
    apply stable_bind; [apply _ | by apply same_bot_keeps_ledger | intros current].
    destruct (user_prefs current !! item.1) as [prefs|]; [| apply stable_ret, _].
    apply stable_bind; [apply _ | | intros matches].
    + unfold getattr. destruct (String.eqb _ _); [apply stable_ret, _ |].
      destruct (existsb _ _); [by apply same_bot_keeps_ledger | apply stable_raise, _].
    + destruct (matches market prefs);
        [apply send_market_alert_keeps_ledger | apply stable_ret, _].
Qed.

(** A market that is in the ledger is not new, in this cycle or in any
    later one. *)
Lemma seen_market_is_never_new (predicate : string) (E : Env) (L : Lib)
    (w : World) (market : Market) :
  id market ∈ seen_markets (bot w) ->
  is_new (bot w) market = false
  /\ is_new (bot (snd (check_new_markets_with predicate E L w))) market = false.
Proof.
  intros Hin. unfold is_new. rewrite !negb_false_iff, !bool_decide_eq_true.
  split; [done |]. by apply (check_new_markets_keeps_ledger predicate E L w).
Qed.

(** *** The job as the source has it *)

(** The name the job looks up is not an attribute of the bot. *)
Lemma getattr_misspelled (w : World) :
  getattr "mark_matches_preferences" w = (Raised AttributeError, w).
Proof. reflexivity. Qed.

Lemma getattr_defined (w : World) :
  getattr "market_matches_preferences" w = (Returned market_matches_preferences, w).
Proof. reflexivity. Qed.

(** With at least one subscriber, the loop over the subscribers stops at
    the first one, before the filter is evaluated and before anything is
    sent. *)
Lemma notify_users_raises (E : Env) (market : Market) (w : World) :
  user_prefs (bot w) <> ∅ ->
  notify_users E "mark_matches_preferences" market w = (Raised AttributeError, w).
Proof.
  intros Hne. unfold notify_users. cbv [bind get_bot]. cbn [bot].
  destruct (map_to_list (user_prefs (bot w))) as [|[uid prefs] rest] eqn:Hl.
  - by apply map_to_list_empty_iff in Hl.
  - assert (user_prefs (bot w) !! uid = Some prefs) as Hp.
    { apply elem_of_map_to_list. rewrite Hl. by left. }
    cbn [for_each fst]. cbv [bind get_bot]. cbn [bot]. by rewrite Hp.
Qed.

(** So the job as the source has it fails as soon as a new market meets a
    subscriber: the first new market is entered in the ledger, and that
    is all. *)
Lemma check_new_markets_raises (E : Env) (L : Lib) (w w1 : World)
    (markets : list Market) (first : Market) (rest : list Market) :
  fetch_markets E L (snd (logging (LogInfo "Checking for new markets...") w))
  = (Returned markets, w1) ->
  List.filter (is_new (bot w1)) markets = first :: rest ->
  user_prefs (bot w1) <> ∅ ->
  check_new_markets E L w
  = (Raised AttributeError,
     {| bot := {| seen_markets := seen_markets (bot w1) ∪ {[ id first ]};
                  user_prefs := user_prefs (bot w1) |};
        outbox := outbox w1; replies := replies w1;
        logged := logged w1 ++ [LogInfo "New market detected"];
        clock_reads := clock_reads w1; data_file := data_file w1;
        fetches := fetches w1 |}).
Proof.
  intros Hfetch Hnew Husers.
  unfold check_new_markets, check_new_markets_with.
  unfold bind at 1. destruct (logging _ w) as [[[]| |] w0] eqn:Hlog; try discriminate.
  cbn [snd] in Hfetch. unfold bind at 1. rewrite Hfetch.
  cbv [bind get_bot]. cbn [bot]. rewrite Hnew. cbn [for_each].
  cbv [bind logging seen_markets_add get_bot set_bot].
  cbn [bot outbox replies logged clock_reads data_file fetches].
  by rewrite notify_users_raises.
Qed.

(** C2, at a cycle in which the API lists two markets that are new and
    that both pass the filter of the one subscriber, who has notifications
    enabled and no cooldown running: the job looks up the attribute
    mark_matches_preferences, which the bot does not have, and ends in
    [AttributeError] at the first market.  The filter is never evaluated,
    no delivery is attempted and the state is not persisted. *)
Theorem C2_cycle_stops_at_misspelled_predicate :
  let w := fresh_world (bot_of crypto_subscriber) in
  fst (fetch_markets listing_env iso_lib w) = Returned [parsed "m1"; parsed "m2"]
  /\ List.filter (is_new (bot w)) [parsed "m1"; parsed "m2"] = [parsed "m1"; parsed "m2"]
  /\ market_matches_preferences (parsed "m1") crypto_subscriber = true
  /\ market_matches_preferences (parsed "m2") crypto_subscriber = true
  /\ fst (check_new_markets listing_env iso_lib w) = Raised AttributeError
  /\ outbox (snd (check_new_markets listing_env iso_lib w)) = []
  /\ data_file (snd (check_new_markets listing_env iso_lib w)) = None.
Proof. by vm_compute. Qed.

(** C5, at the same cycle: m1 and m2 are both new, and after the cycle
    the ledger holds m1 only.  The job has ended in [AttributeError]
    while notifying about m1, before m2 was entered. *)
Theorem C5_second_new_market_not_entered :
  let w := fresh_world (bot_of crypto_subscriber) in
  let w' := snd (check_new_markets listing_env iso_lib w) in
  is_new (bot w) (parsed "m1") = true
  /\ is_new (bot w) (parsed "m2") = true
  /\ fst (fetch_markets listing_env iso_lib w) = Returned [parsed "m1"; parsed "m2"]
  /\ seen_markets (bot w') = {[ "m1" ]}
  /\ bool_decide ("m2" ∈ seen_markets (bot w')) = false
  /\ is_new (bot w') (parsed "m2") = true.
Proof. by vm_compute. Qed.

(** *** The job with the predicate that the class defines *)

(** The same cycle with the name of the method that the class defines:
    both markets are entered in the ledger, the subscriber gets one alert
    for each, and the state is persisted at the end. *)
Lemma intended_cycle_dispatches_and_persists :
  let w := fresh_world (bot_of crypto_subscriber) in
  let w' := snd (check_new_markets_intended listing_env iso_lib w) in
  fst (check_new_markets_intended listing_env iso_lib w) = Returned tt
  /\ (fun s => (chat_id s, msg_url (text s), delivered s)) <$> outbox w'
     = [ (7, "https://opinion.trade/market/m1", true);
         (7, "https://opinion.trade/market/m2", true) ]
  /\ seen_markets (bot w') = {[ "m1"; "m2" ]}
  /\ data_file w' = Some (data_to_json iso_lib (bot w')).
Proof. by vm_compute. Qed.

Lemma returns_ret {A} (P : World -> Prop) (a : A) (Q : A -> World -> Prop) :
  (forall w, P w -> Q a w) -> returns P (ret a) Q.
Proof. intros H w Hw. exists a, w. split; [done | by apply H]. Qed.

Lemma returns_bind {A B} (P : World -> Prop) (c : M A) (Q : A -> World -> Prop)
    (k : A -> M B) (S : B -> World -> Prop) :
  returns P c Q -> (forall a, returns (Q a) (k a) S) -> returns P (bind c k) S.
Proof.
  intros Hc Hk w Hw. destruct (Hc w Hw) as (a & w1 & Hrun & Hq).
  destruct (Hk a w1 Hq) as (b & w2 & Hrun' & Hs).
  exists b, w2. split; [| done]. unfold bind. by rewrite Hrun.
Qed.

Lemma returns_weaken {A} (P P' : World -> Prop) (c : M A) (Q Q' : A -> World -> Prop) :
  returns P c Q -> (forall w, P' w -> P w) -> (forall a w, Q a w -> Q' a w) ->
  returns P' c Q'.
Proof.
  intros Hc Hp Hq w Hw. destruct (Hc w (Hp w Hw)) as (a & w' & Hrun & H).
  exists a, w'. split; [done | by apply Hq].
Qed.

(** A loop with an invariant over what it has been through. *)
Lemma returns_for_each {A} (I : list A -> World -> Prop) (body : A -> M unit)
    (xs before : list A) :
  (forall seen x, In x xs -> returns (I seen) (body x) (fun _ => I (seen ++ [x]))) ->
  returns (I before) (for_each xs body) (fun _ => I (before ++ xs)).
Proof.
  revert before. induction xs as [|x xs IH]; intros before Hbody.
  - apply returns_ret. intros w. by rewrite app_nil_r.
  - cbn [for_each]. eapply returns_bind; [apply Hbody; by left |]. intros [].
    eapply returns_weaken; [apply IH | done |].
    + intros seen y Hin. apply Hbody. by right.
    + intros [] w. by rewrite <- app_assoc.
Qed.

Lemma set_last_notified_keeps_stamps (uid : Z) (mid : string) (t : Z)
    (self : OpinionTradeMonitorBot) :
  stamps_are_datetimes self ->
  stamps_are_datetimes (set_last_notified uid mid (Naive t) self).
Proof.
  intros Hinv uid' prefs' mid' v Hp Hl. unfold set_last_notified in Hp. cbn in Hp.
  destruct (decide (uid' = uid)) as [->|Hne].
  - rewrite lookup_alter_eq in Hp.
    destruct (user_prefs self !! uid) as [prefs|] eqn:Hp0; [| discriminate].
    cbn in Hp. injection Hp as <-. cbn in Hl.
    destruct (decide (mid' = mid)) as [->|Hne].
    + rewrite lookup_insert_eq in Hl. injection Hl as <-. by exists t.
    + rewrite lookup_insert_ne in Hl by done. by eapply Hinv.
  - rewrite lookup_alter_ne in Hp by done. by eapply Hinv.
Qed.

(** With datetime entries and an aware expiry the dispatch operation
    returns; it leaves the ledger and the disk alone and keeps the entries
    datetimes. *)
Lemma send_market_alert_returns (E : Env) (uid : Z) (market : Market) (w0 : World) :
  aware_expiry market ->
  returns (fun w => stamps_are_datetimes (bot w)
                    /\ seen_markets (bot w) = seen_markets (bot w0) /\ same_disk w0 w)
          (send_market_alert E uid market)
          (fun _ w => stamps_are_datetimes (bot w)
                      /\ seen_markets (bot w) = seen_markets (bot w0) /\ same_disk w0 w).
Proof.
  intros [x Hx] w (Hinv & Hseen & Hdisk). exists tt.
  assert (fst (send_market_alert E uid market w) = Returned tt) as Hret.
  { unfold send_market_alert. run.
    destruct (user_prefs (bot w) !! uid) as [prefs|] eqn:Hp; [| done].
    destruct (notify_on_launch prefs); cbn [negb]; [| done].
    unfold recently_notified.
    destruct (last_notified prefs !! id market) as [v|] eqn:Hl.
    - destruct (Hinv _ _ _ _ Hp Hl) as [t ->]. run. cbn [dt_sub].
      destruct (_ <? COOLDOWN); [done |]. rewrite Hx. cbn [dt_sub].
      by destruct (channel_ok E _).
    - run. rewrite Hx. cbn [dt_sub]. by destruct (channel_ok E _). }
  destruct (send_market_alert E uid market w) as [r w'] eqn:Hrun. cbn in Hret. subst r.
  exists w'. split; [done |].
  pose proof (send_market_alert_run E uid market w) as Halert. rewrite Hrun in Halert.
  unfold same_disk in *.
  inversion Halert as [r n Heq | prefs y n Hp Hon Hy Hok Heq | prefs y n Hp Hon Hy Hok Heq];
    subst; cbn; try done.
  split; [| done]. by apply set_last_notified_keeps_stamps.
Qed.

Lemma notify_users_returns (E : Env) (market : Market) (w0 : World) :
  aware_expiry market ->
  returns (fun w => stamps_are_datetimes (bot w)
                    /\ seen_markets (bot w) = seen_markets (bot w0) /\ same_disk w0 w)
          (notify_users E "market_matches_preferences" market)
          (fun _ w => stamps_are_datetimes (bot w)
                      /\ seen_markets (bot w) = seen_markets (bot w0) /\ same_disk w0 w).
Proof.
  intros Haware. set (K := fun w : World => _ /\ _ /\ _).
  assert (forall A (a : A), returns K (ret a) (fun _ => K)) as Hret
    by (intros; by apply returns_ret).
  unfold notify_users.
  eapply returns_bind with (Q := fun _ => K); [by intros w Hw; exists (bot w), w |].
  intros self.
  eapply returns_weaken;
    [apply (returns_for_each (fun _ => K) _ _ []) | done | by intros [] ?].
  intros _ item _.
  eapply returns_bind with (Q := fun _ => K); [by intros w Hw; exists (bot w), w |].
  intros current. destruct (user_prefs current !! item.1) as [prefs|]; [| apply Hret].
  eapply returns_bind with (Q := fun _ => K); [apply Hret |]. intros matches.
  destruct (matches market prefs); [| apply Hret].
  by apply send_market_alert_returns.
Qed.

Lemma untouched_preorder :
  PreOrder (fun w w' : World => bot w' = bot w /\ data_file w' = data_file w).
Proof.
  split.
  - by intros w.
  - intros w1 w2 w3 [-> ->] [-> ->]. done.
Qed.

#[local] Existing Instance untouched_preorder.

(** Asking the API changes neither the bot nor the disk. *)
Lemma fetch_markets_untouched (E : Env) (L : Lib) (w : World) :
  bot (snd (fetch_markets E L w)) = bot w
  /\ data_file (snd (fetch_markets E L w)) = data_file w.
Proof.
  by apply (fetch_markets_stable (fun w w' => bot w' = bot w /\ data_file w' = data_file w)).
Qed.

Lemma new_and_seen_cover (self : OpinionTradeMonitorBot) (markets : list Market) :
  seen_markets self ∪ list_to_set (id <$> List.filter (is_new self) markets)
  = seen_markets self ∪ list_to_set (id <$> markets).
Proof.
  induction markets as [|m markets IH]; [done |].
  cbn [List.filter]. unfold is_new at 1.
  destruct (bool_decide (id m ∈ seen_markets self)) eqn:Hin;
    cbn [negb fmap list_fmap list_to_set foldr].
  - apply bool_decide_eq_true in Hin. rewrite IH.
    rewrite (assoc_L (∪)), (comm_L (∪) _ {[ id m ]}), (subseteq_union_1_L {[ id m ]}); [done |].
    by apply singleton_subseteq_l.
  - by rewrite !(assoc_L (∪)), !(comm_L (∪) _ {[ id m ]}), <- !(assoc_L (∪)), IH.
Qed.

(** With the name of the method that the class defines, a cycle over
    well-formed data runs to its end: every fetched market is in the
    ledger afterwards, whether it was new or not, and the state on disk
    is the state of the bot at the end of the cycle. *)
Lemma intended_cycle_completes (E : Env) (L : Lib) (w w1 : World) (markets : list Market) :
  fetch_markets E L (snd (logging (LogInfo "Checking for new markets...") w))
  = (Returned markets, w1) ->
  Forall aware_expiry markets ->
  stamps_are_datetimes (bot w) ->
  exists w',
    check_new_markets_intended E L w = (Returned tt, w')
    /\ seen_markets (bot w') = seen_markets (bot w) ∪ list_to_set (id <$> markets)
    /\ data_file w' = Some (data_to_json L (bot w'))
    /\ stamps_are_datetimes (bot w').
Proof.
  intros Hfetch Haware Hinv.
  destruct (fetch_markets_untouched E L (snd (logging (LogInfo "Checking for new markets...") w)))
    as [Hbot _].
  rewrite Hfetch in Hbot. cbn in Hbot.
  set (news := List.filter (is_new (bot w1)) markets).
  set (I := fun (seen : list Market) (w' : World) =>
              stamps_are_datetimes (bot w')
              /\ seen_markets (bot w') = seen_markets (bot w1) ∪ list_to_set (id <$> seen)).
  assert (returns (I []) (for_each news
            (fun market =>
               let* _ := logging (LogInfo "New market detected") in
               let* _ := seen_markets_add (id market) in
               notify_users E "market_matches_preferences" market))
            (fun _ => I news)) as Hloop.
  { apply (returns_for_each I _ news []). intros seen market Hin w2 [Hinv2 Hseen2].
    assert (aware_expiry market) as Hm.
    { apply (proj1 (List.Forall_forall _ _) Haware). by apply filter_In in Hin as [? _]. }
    unfold bind at 1, logging. cbn [fst snd]. unfold bind at 1, seen_markets_add. run.
    set (w3 := {| bot := _ |}).
    destruct (notify_users_returns E market w3 Hm w3) as ([] & w4 & Hrun & Hinv4 & Hseen4 & _);
      [done |].
    exists tt, w4. split; [done |]. split; [done |].
    rewrite Hseen4. cbn. rewrite Hseen2, fmap_app, list_to_set_app_L. cbn.
    by rewrite (right_id_L ∅ (∪)), (assoc_L (∪)). }
  destruct (Hloop w1) as ([] & w2 & Hrun & Hinv2 & Hseen2).
  { split; [by rewrite Hbot |]. cbn. by rewrite (right_id_L ∅ (∪)). }
  exists {| bot := bot w2; outbox := outbox w2; replies := replies w2; logged := logged w2;
            clock_reads := clock_reads w2;
            data_file := Some (data_to_json L (bot w2)); fetches := fetches w2 |}.
  split.
  - unfold check_new_markets_intended, check_new_markets_with.
    unfold bind at 1. destruct (logging _ w) as [[[]| |] w0] eqn:Hlog; try discriminate.
    cbn [snd] in Hfetch. unfold bind at 1. rewrite Hfetch.
    unfold bind at 1, get_bot. cbn [bot]. fold news.
    unfold bind at 1. rewrite Hrun. by unfold save_data; run.
  - cbn. split; [| done]. rewrite Hseen2. unfold news.
    rewrite new_and_seen_cover. by rewrite Hbot.
Qed.

(** * Part III: more of the bot *)

(** ** Fetching *)

Lemma only_logged_preorder : PreOrder only_logged.
Proof.
  split.
  - by intros w.
  - intros w1 w2 w3 (? & ? & ? & ? & ?) (? & ? & ? & ? & ?).
    unfold only_logged. repeat split; congruence.
Qed.

#[local] Existing Instance only_logged_preorder.

(** X1: a request to the markets API never raises, and it changes
    nothing but the log and the count of requests.  What it returns and
    logs is settled by the reply: for a status other than 200 the empty
    list, with the status logged; for a transport failure the empty
    list, with the failure logged; for a status of 200 what the parser
    returns, with what the parser has logged, or, when the parser
    raises, the empty list, with the exception logged after what the
    parser had logged before it raised. *)
Theorem fetch_markets_never_raises (E : Env) (L : Lib) (w : World) :
  (forall e, fst (fetch_markets E L w) <> Raised e)
  /\ only_logged w (snd (fetch_markets E L w))
  /\ match api E (fetches w) with
     | HttpReply status body =>
         (status <> 200 ->
          fetch_markets E L w
          = (Returned [], add_logs [LogApiError status] (snd (next_reply E w))))
         /\ (status = 200 ->
             (forall markets w',
                 parse_markets L body (snd (next_reply E w)) = (Returned markets, w') ->
                 fetch_markets E L w = (Returned markets, w'))
             /\ (forall e w',
                    parse_markets L body (snd (next_reply E w)) = (Raised e, w') ->
                    fetch_markets E L w
                    = (Returned [], add_logs [LogError "Error fetching markets" e] w')))
     | HttpFailure =>
         fetch_markets E L w
         = (Returned [], add_logs [LogError "Error fetching markets" ClientError]
                           (snd (next_reply E w)))
     end.
Proof.
  split; [| split].
  - intros e. unfold fetch_markets, try_except.
    by destruct (bind (next_reply E) _ w) as [[ms|e'|] w'].
  - apply (fetch_markets_stable only_logged); by intros.
  - unfold fetch_markets, next_reply. run.
    destruct (api E (fetches w)) as [status body|]; [| done].
    split.
    + intros Hne. apply Z.eqb_neq in Hne. by rewrite Hne.
    + intros ->. cbn [Z.eqb Pos.eqb]. split.
      * intros markets w' Hparse. by rewrite Hparse.
      * intros e w' Hparse. by rewrite Hparse.
Qed.

(** ** Parsing *)

Lemma lower_char_idempotent (c : ascii) : lower_char (lower_char c) = lower_char c.
Proof. destruct c as [[] [] [] [] [] [] [] []]; reflexivity. Qed.

Lemma lower_idempotent (s : string) : lower (lower s) = lower s.
Proof. induction s as [|c s IH]; [done |]. cbn. by rewrite lower_char_idempotent, IH. Qed.

(** The market that a record yields, member by member. *)
Lemma parse_market_returned (L : Lib) (members : list (string * json)) (market : Market) :
  pure_run (parse_market L (JObj members)) = Returned market ->
  exists id_raw the_question the_description the_category the_tags,
    jget "id" members = Some id_raw
    /\ from_option Datatypes.id (JStr "No title") (jget "question" members) = JStr the_question
    /\ from_option Datatypes.id (JStr "") (jget "description" members) = JStr the_description
    /\ from_option Datatypes.id (JStr "other") (jget "category" members) = JStr the_category
    /\ as_str_list (from_option Datatypes.id (JArr []) (jget "tags" members)) = Some the_tags
    /\ pure_run (py_float L (from_option Datatypes.id (JNum (amount 0)) (jget "volume" members)))
       = Returned (volume market)
    /\ pure_run (py_float L (from_option Datatypes.id (JNum (amount 0)) (jget "liquidity" members)))
       = Returned (liquidity market)
    /\ id market = py_str L id_raw
    /\ question market = the_question
    /\ description market = the_description
    /\ category market = lower the_category
    /\ url market = "https://opinion.trade/market/" +:+ py_str L id_raw
    /\ tags market = the_tags.
Proof.
  unfold pure_run, parse_market, subscript, get_default. run.
  destruct (jget "id" members) as [id_raw|]; [| discriminate].
  destruct (from_option Datatypes.id (JStr "No title") (jget "question" members))
    as [| | |q| |] eqn:Hq; try discriminate.
  destruct (from_option Datatypes.id (JStr "") (jget "description" members))
    as [| | |d| |] eqn:Hd; try discriminate.
  destruct (from_option Datatypes.id (JStr "other") (jget "category" members))
    as [| | |c| |] eqn:Hc; try discriminate.
  cbn [as_str lower_method]. run.
  destruct (py_float L (from_option Datatypes.id (JNum (amount 0)) (jget "volume" members)) _)
    as [[v|e|] wv] eqn:Hv; try discriminate.
  rewrite (pure_py_float L _ _) in Hv. injection Hv as Hv <-.
  destruct (py_float L (from_option Datatypes.id (JNum (amount 0)) (jget "liquidity" members)) _)
    as [[l|e|] wl] eqn:Hl; try discriminate.
  rewrite (pure_py_float L _ _) in Hl. injection Hl as Hl <-.
  destruct (jget "expiry" members) as [expiry_raw|]; [| discriminate].
  destruct (parse_timestamp L expiry_raw _) as [[te|e|] we] eqn:He; try discriminate.
  rewrite (pure_parse_timestamp L _ _) in He. injection He as He <-.
  destruct (jget "created_at" members) as [created_raw|]; [| discriminate].
  destruct (parse_timestamp L created_raw _) as [[tc|e|] wc] eqn:Hcr; try discriminate.
  rewrite (pure_parse_timestamp L _ _) in Hcr. injection Hcr as Hcr <-.
  destruct (as_str_list (from_option Datatypes.id (JArr []) (jget "tags" members)))
    as [t|] eqn:Ht; [| discriminate].
  cbn. intros [= <-]. cbn.
  exists id_raw, q, d, c, t. by repeat split.
Qed.

(** X2: a market that the parser yields takes its URL from its identifier
    and from nothing else, has a category in lower case (the one given,
    whatever it is, or "other" when none is given), and gets "No title",
    an empty description, zero volume, zero liquidity and no tags for the
    members that the record lacks. *)
Theorem parsed_market_fields (L : Lib) (members : list (string * json)) (market : Market) :
  market_of_record L (JObj members) = Some market ->
  (exists id_raw, jget "id" members = Some id_raw /\ id market = py_str L id_raw)
  /\ url market = "https://opinion.trade/market/" +:+ id market
  /\ lower (category market) = category market
  /\ (forall c, jget "category" members = Some (JStr c) -> category market = lower c)
  /\ (jget "category" members = None -> category market = "other")
  /\ (jget "question" members = None -> question market = "No title")
  /\ (jget "description" members = None -> description market = "")
  /\ (jget "volume" members = None -> volume market = amount 0)
  /\ (jget "liquidity" members = None -> liquidity market = amount 0)
  /\ (jget "tags" members = None -> tags market = []).
Proof.
  unfold market_of_record. intros Hsome.
  destruct (pure_run (parse_market L (JObj members))) as [m| |] eqn:Hrun; try discriminate.
  injection Hsome as ->.
  destruct (parse_market_returned L members market Hrun)
    as (id_raw & q & d & c & t & Hid & Hq & Hd & Hc & Ht & Hv & Hl
        & Hmid & Hmq & Hmd & Hmc & Hmu & Hmt).
  split; [by exists id_raw |]. split; [by rewrite Hmu, Hmid |].
  split; [by rewrite Hmc, lower_idempotent |].
  split; [intros c' Hc'; rewrite Hc' in Hc; cbn in Hc; by injection Hc as <- |].
  split; [intros Hn; rewrite Hn in Hc; cbn in Hc; injection Hc as <-; by rewrite Hmc |].
  split; [intros Hn; rewrite Hn in Hq; cbn in Hq; injection Hq as <-; by rewrite Hmq |].
  split; [intros Hn; rewrite Hn in Hd; cbn in Hd; injection Hd as <-; by rewrite Hmd |].
  split; [intros Hn; rewrite Hn in Hv; cbn in Hv; by injection Hv as <- |].
  split; [intros Hn; rewrite Hn in Hl; cbn in Hl; by injection Hl as <- |].
  intros Hn. rewrite Hn in Ht. cbn in Ht. injection Ht as <-. by rewrite Hmt.
Qed.

Lemma parsed_market_fields_witness :
  market_of_record iso_lib (listed "m1") = Some (parsed "m1")
  /\ url (parsed "m1") = "https://opinion.trade/market/" +:+ id (parsed "m1")
  /\ lower (category (parsed "m1")) = category (parsed "m1").
Proof.
  assert (market_of_record iso_lib (listed "m1") = Some (parsed "m1")) as H
    by (vm_compute; reflexivity).
  split; [exact H |].
  destruct (parsed_market_fields iso_lib _ (parsed "m1") H) as (_ & Hurl & Hcat & _).
  split; [exact Hurl | exact Hcat].
Defined.

(** ** Filtering *)

(** X3: a subscriber that /start has just registered is sent a market
    exactly when the category of the market is one of the keys of
    CATEGORIES and neither its liquidity nor its volume is negative: a
    market in a category that the table does not list never passes the
    filter of such a subscriber. *)
Theorem fresh_subscriber_filter (L : Lib) (uid : Z) (w : World) (market : Market) :
  user_prefs (bot w) !! uid = None ->
  exists prefs,
    user_prefs (bot (snd (cmd_start L uid w))) !! uid = Some prefs
    /\ (market_matches_preferences market prefs = true
        <-> (exists name, In (category market, name) CATEGORIES)
            /\ Py.lt (liquidity market) (amount 0) = false
            /\ Py.lt (volume market) (amount 0) = false).
Proof.
  intros Hnew. destruct (cmd_start_new L uid w Hnew) as (_ & -> & _).
  exists (default_preferences uid). cbn [user_prefs]. split; [apply lookup_insert_eq |].
  rewrite market_matches_preferences_iff.
  unfold category_predicate, liquidity_not_below, volume_not_below,
    keyword_predicate_spaced, keyword_predicate_on.
  cbn [default_preferences enabled_categories min_liquidity min_volume keywords].
  rewrite all_categories_spec. split.
  - intros ([Hempty | Hcat] & Hl & Hv & _); [| done].
    assert ("other" ∈ all_categories) as Hin
      by (apply all_categories_spec; exists "Other"; cbn; tauto).
    rewrite Hempty in Hin. by apply not_elem_of_empty in Hin.
  - intros (Hcat & Hl & Hv). split; [by right |]. split; [done |]. split; [done |]. by left.
Qed.

Lemma fresh_subscriber_filter_witness :
  user_prefs (bot (fresh_world empty_bot)) !! 7 = None
  /\ exists prefs,
       user_prefs (bot (snd (cmd_start iso_lib 7 (fresh_world empty_bot)))) !! 7 = Some prefs
       /\ (market_matches_preferences m1 prefs = true
           <-> (exists name, In (category m1, name) CATEGORIES)
               /\ Py.lt (liquidity m1) (amount 0) = false
               /\ Py.lt (volume m1) (amount 0) = false).
Proof.
  split; [apply lookup_empty |].
  apply (fresh_subscriber_filter iso_lib 7 (fresh_world empty_bot) m1), lookup_empty.
Defined.

(** X4: a record that is not a JSON object is fatal for the batch it is in:
    subscripting it raises [TypeError], which the loop of [parse_markets]
    does not catch.  When a reply lists one fatal record, [fetch_markets]
    yields no market at all, also not the complete records listed before
    or after it: its own handler logs the exception and returns the empty
    list (unless an earlier record has left the typed fragment). *)
Theorem fatal_record_empties_batch (E : Env) (L : Lib) (w : World)
    (members : list (string * json)) (items : list json) :
  api E (fetches w) = HttpReply 200 (JObj members) ->
  jget "markets" members = Some (JArr items) ->
  Exists (fun item => is_object item = false \/ fatal_record L item) items ->
  fst (fetch_markets E L w) = Unmodelled
  \/ (fst (fetch_markets E L w) = Returned []
      /\ exists e before,
           KeyError_or_ValueError e = false
           /\ logged (snd (fetch_markets E L w))
              = logged w ++ before ++ [LogError "Error fetching markets" e]).
Proof.
  intros Hapi Hget Hbad.
  assert (Exists (fatal_record L) items) as Hfatal.
  { apply List.Exists_exists in Hbad as (item & Hin & [Hobj | Hf]);
      apply List.Exists_exists; exists item; (split; [done |]); [| done].
    exists TypeError. destruct item; try discriminate; by split. }
  clear Hbad.
  unfold fetch_markets, next_reply. run. rewrite Hapi. cbn [Z.eqb Pos.eqb].
  unfold parse_markets, get_default, py_iter. run. rewrite Hget. cbn [from_option Datatypes.id].
  set (w0 := {| bot := bot w |}).
  assert (forall markets before,
             logged w0 = logged w ++ before ->
             forall w1, logged w1 = logged w ++ before ->
             fst (parse_items L items markets w1) = Unmodelled
             \/ exists e before', KeyError_or_ValueError e = false
                  /\ fst (parse_items L items markets w1) = Raised e
                  /\ logged (snd (parse_items L items markets w1)) = logged w ++ before')
    as Hloop.
  { clear Hget Hapi. intros markets before _. revert markets before.
    induction Hfatal as [item rest (e & Hrun & Hue) | item rest Hrest IH];
      intros markets before w1 Hlog; rewrite parse_items_cons.
    - rewrite Hrun, Hue. right. by exists e, before.
    - destruct (pure_run (parse_market L item)) as [m|e|].
      + by apply (IH _ before).
      + destruct (KeyError_or_ValueError e) eqn:He.
        * apply (IH _ (before ++ [LogWarning "Error parsing market data" e])).
          cbn [add_logs logged]. by rewrite Hlog, <- (assoc_L (++)).
        * right. by exists e, before.
      + by left. }
  destruct (Hloop [] [] (eq_sym (app_nil_r _)) w0 (eq_sym (app_nil_r _)))
    as [Hun | (e & before & Hue & Hraised & Hlog)].
  - left. by destruct (parse_items L items [] w0) as [[ms|e|] w1]; cbn in Hun.
  - right. destruct (parse_items L items [] w0) as [[ms|e'|] w1]; cbn in Hraised; try done.
    injection Hraised as ->. cbn in Hlog. cbn. split; [done |].
    exists e, before. split; [done |]. by rewrite Hlog, <- (assoc_L (++)).
Qed.

Lemma fatal_record_empties_batch_witness :
  fetch_markets stray_item_env iso_lib (fresh_world empty_bot)
  = (Returned [],
     add_logs [LogError "Error fetching markets" TypeError]
              (snd (next_reply stray_item_env (fresh_world empty_bot)))).
Proof.
  destruct (fatal_record_empties_batch stray_item_env iso_lib (fresh_world empty_bot)
              [("markets", JArr [listed "m1"; JStr "m2"])] [listed "m1"; JStr "m2"])
    as [Hun | _].
  - reflexivity.
  - reflexivity.
  - apply Exists_cons_tl, Exists_cons_hd. by left.
  - vm_compute in Hun. discriminate.
  - by vm_compute.
Defined.

(** ** Dispatching *)

(** X5: what one call of [send_market_alert] can do, however it ends: it
    attempts at most one delivery, to the subscriber it was called for and
    about the market it was called with; it answers no command, writes no
    file and asks the API nothing; it leaves the ledger, every other
    subscriber and the set of subscribers as they were; of the subscriber
    it may change nothing but the last-notified entry of this market; and
    if it raises, the exception is [TypeError] and nothing was sent or
    changed in the bot. *)
Theorem send_market_alert_frame (E : Env) (uid : Z) (market : Market) (w : World) :
  let w' := snd (send_market_alert E uid market w) in
  (outbox w' = outbox w
   \/ exists s, outbox w' = outbox w ++ [s] /\ chat_id s = uid
                /\ exists days_left, text s = alert_message market days_left)
  /\ replies w' = replies w /\ data_file w' = data_file w /\ fetches w' = fetches w
  /\ seen_markets (bot w') = seen_markets (bot w)
  /\ (forall other, other <> uid ->
        user_prefs (bot w') !! other = user_prefs (bot w) !! other)
  /\ (user_prefs (bot w) !! uid = None -> user_prefs (bot w') !! uid = None)
  /\ (forall prefs,
        user_prefs (bot w) !! uid = Some prefs ->
        exists prefs',
          user_prefs (bot w') !! uid = Some prefs'
          /\ enabled_categories prefs' = enabled_categories prefs
          /\ keywords prefs' = keywords prefs
          /\ min_liquidity prefs' = min_liquidity prefs
          /\ min_volume prefs' = min_volume prefs
          /\ notify_on_launch prefs' = notify_on_launch prefs
          /\ forall other, other <> id market ->
               last_notified prefs' !! other = last_notified prefs !! other)
  /\ (forall e, fst (send_market_alert E uid market w) = Raised e ->
        e = TypeError /\ outbox w' = outbox w /\ bot w' = bot w).
Proof.
  intros w'.
  assert (forall e, fst (send_market_alert E uid market w) = Raised e ->
            e = TypeError /\ outbox w' = outbox w /\ bot w' = bot w) as Hraise.
  { subst w'. unfold send_market_alert. run.
    destruct (user_prefs (bot w) !! uid) as [prefs|]; [| done].
    destruct (notify_on_launch prefs); cbn [negb]; [| done].
    unfold recently_notified.
    destruct (last_notified prefs !! id market) as [[[t|t]|[|c s]]|]; run; cbn [dt_sub].
    2, 4: by intros e [= <-].
    1: destruct (_ <? COOLDOWN); [done |].
    all: destruct (expiry market) as [x|x]; cbn [dt_sub]; [by intros e [= <-] |].
    all: by destruct (channel_ok E _). }
  subst w'. pose proof (send_market_alert_run E uid market w) as Hrun.
  invert_alert_run Hrun; cbn [bot outbox replies data_file fetches tick seen_markets].
  - split; [by left |]. do 5 (split; [done |]). split; [done |]. split; [| done].
    intros prefs Hp. by exists prefs.
  - split; [right; eexists; split; [done |]; split; [done |]; by eexists |].
    do 3 (split; [done |]). split; [done |].
    split; [intros other Hne; by apply set_last_notified_other |].
    split; [intros Hnone; congruence |]. split; [| done].
    intros prefs0 Hp0.
    destruct (set_last_notified_same uid (id market)
                (Naive (instant E (S (n + clock_reads w)) + local_offset E)) (bot w) prefs0 Hp0)
      as (prefs' & Hp' & _ & Hother & Hc & Hk & Hl & Hv & Hn).
    exists prefs'. by repeat split.
  - split; [right; eexists; split; [done |]; split; [done |]; by eexists |].
    do 5 (split; [done |]). split; [done |]. split; [| done].
    intros prefs0 Hp0. by exists prefs0.
Qed.

(** X6: the /test handler never delivers an alert and never changes the
    bot.  For a user who is not subscribed, has notifications off or was
    notified about the test market within the last hour, nothing is due
    and the handler goes on to answer that the test alert was sent,
    although none was: it returns when that answer is delivered, and
    ends in [AttributeError] when the update has no message and in the
    error of the call when the answer fails.  In every other case it ends
    in [TypeError] before any delivery and without an answer, because
    the expiry of its market carries no time zone. *)
Theorem test_alert_never_sends (T : Telegram) (E : Env) (update : Update) (s : Chat) :
  let uid := effective_user update in
  let r := OnChat.cmd_test_alert T E update s in
  let nothing_due :=
    match user_prefs (bot (world s)) !! uid with
    | None => True
    | Some prefs =>
        notify_on_launch prefs = false
        \/ exists t,
             last_notified prefs !! "test_123" = Some (StampDatetime (Naive t))
             /\ instant E (2 + clock_reads (world s)) + local_offset E - t < COOLDOWN
    end in
  outbox (world (snd r)) = outbox (world s)
  /\ bot (world (snd r)) = bot (world s)
  /\ (nothing_due ->
      if has_message update
      then calls (snd r) = calls s ++ [(ReplyText TestAlertWasSent [],
                                        call_ok T (length (calls s)))]
           /\ fst r = (if call_ok T (length (calls s)) then Returned tt
                       else Raised ChannelError)
      else calls (snd r) = calls s /\ fst r = Raised AttributeError)
  /\ (~ nothing_due -> calls (snd r) = calls s /\ fst r = Raised TypeError).
Proof.
  intros uid r nothing_due. subst uid r nothing_due.
  unfold OnChat.cmd_test_alert, send_market_alert. chat.
  destruct (user_prefs (bot (world s)) !! effective_user update) as [prefs|]; chat.
  2: { destruct (has_message update); chat; by repeat split. }
  destruct (notify_on_launch prefs); cbn [negb]; chat.
  2: { do 2 (split; [by destruct (has_message update) |]). split.
       - intros _. by destruct (has_message update).
       - intros Hdue. exfalso. apply Hdue. by left. }
  cbn [id test_market]. unfold recently_notified.
  destruct (last_notified prefs !! "test_123") as [[[t|t]|[|c str]]|]; chat;
    cbn [dt_sub expiry dt_add]; [destruct (_ <? COOLDOWN) eqn:Hlt | | | |];
    chat; cbn [dt_sub expiry dt_add]; chat.
  - apply Z.ltb_lt in Hlt.
    do 2 (split; [by destruct (has_message update) |]). split.
    + intros _. by destruct (has_message update).
    + intros Hdue. exfalso. apply Hdue. right. by exists t.
  - apply Z.ltb_ge in Hlt. do 2 (split; [done |]). split; [| done].
    intros [[=] | (t' & [= <-] & Hlt')]. cbn [Nat.add] in Hlt'. lia.
  - do 2 (split; [done |]). split; [| done]. by intros [[=] | (t' & [=] & _)].
  - do 2 (split; [done |]). split; [| done]. by intros [[=] | (t' & [=] & _)].
  - do 2 (split; [done |]). split; [| done]. by intros [[=] | (t' & [=] & _)].
  - do 2 (split; [done |]). split; [| done]. by intros [[=] | (t' & [=] & _)].
Qed.

(** ** The periodic job *)

Lemma no_dispatch_preorder : PreOrder no_dispatch.
Proof.
  split.
  - by intros w.
  - intros w1 w2 w3 (? & ? & ? & ?) (? & ? & ? & ?).
    unfold no_dispatch. repeat split; congruence.
Qed.

#[local] Existing Instance no_dispatch_preorder.

(** One new market, with the name the source looks up: the market is
    entered in the ledger, and the look-up fails as soon as there is a
    subscriber to ask it for. *)
Lemma enter_and_notify_run (E : Env) (market : Market) (w : World) :
  enter_and_notify E "mark_matches_preferences" market w
  = (if decide (user_prefs (bot w) = ∅) then Returned tt else Raised AttributeError,
     {| bot := {| seen_markets := seen_markets (bot w) ∪ {[ id market ]};
                  user_prefs := user_prefs (bot w) |};
        outbox := outbox w; replies := replies w;
        logged := logged w ++ [LogInfo "New market detected"];
        clock_reads := clock_reads w; data_file := data_file w;
        fetches := fetches w |}).
Proof.
  unfold enter_and_notify. cbv [bind logging seen_markets_add get_bot set_bot].
  cbn [bot outbox replies logged clock_reads data_file fetches].
  destruct (decide (user_prefs (bot w) = ∅)) as [Hempty | Hsome].
  - unfold notify_users. cbv [bind get_bot]. cbn [bot user_prefs].
    by rewrite Hempty, map_to_list_empty.
  - by rewrite notify_users_raises.
Qed.

(** The loop over the new markets: nothing is sent, and the loop either
    returns or ends in [AttributeError]; the disk is as it was. *)
Lemma enter_and_notify_loop (E : Env) (markets : list Market) (w : World) :
  let r := for_each markets (enter_and_notify E "mark_matches_preferences") w in
  no_dispatch w (snd r) /\ data_file (snd r) = data_file w
  /\ fetches (snd r) = fetches w
  /\ seen_markets (bot w) ⊆ seen_markets (bot (snd r))
  /\ (fst r = Returned tt
      /\ (markets = [] \/ user_prefs (bot w) = ∅)
      /\ seen_markets (bot (snd r)) = seen_markets (bot w) ∪ list_to_set (id <$> markets)
      \/ fst r = Raised AttributeError /\ markets <> [] /\ user_prefs (bot w) <> ∅).
Proof.
  revert w. induction markets as [|market markets IH]; intros w r; subst r.
  - cbn. do 4 (split; [done |]). left.
    split; [done |]. split; [by left |]. by rewrite (right_id_L ∅ (∪)).
  - cbn [for_each]. unfold bind. rewrite enter_and_notify_run.
    set (w1 := {| bot := _ |}).
    destruct (decide (user_prefs (bot w) = ∅)) as [Hempty | Hsome].
    + destruct (IH w1) as ((Ho & Hr & Hc & Hu) & Hd & Hf & Hsub & Hend).
      subst w1.
      cbn [bot outbox replies clock_reads data_file fetches user_prefs seen_markets] in *.
      split; [by repeat split |]. split; [done |]. split; [done |].
      split; [etrans; [| exact Hsub]; apply union_subseteq_l |].
      destruct Hend as [(Hret & _ & Hseen) | (Hraised & _ & Hne)]; [| done].
      left. split; [done |]. split; [by right |].
      rewrite Hseen. cbn [fmap list_fmap list_to_set foldr].
      by rewrite (assoc_L (∪)).
    + subst w1.
      cbn [fst snd bot outbox replies clock_reads data_file fetches user_prefs seen_markets].
      do 3 (split; [done |]). split; [apply union_subseteq_l |]. by right.
Qed.

Lemma same_fetches_preorder : PreOrder (fun w w' => fetches w' = fetches w).
Proof.
  split.
  - by intros w.
  - intros w1 w2 w3 H12 H23. congruence.
Qed.

(** One call of [fetch_markets] is one request to the API. *)
Lemma fetch_markets_one_request (E : Env) (L : Lib) (w : World) :
  fetches (snd (fetch_markets E L w)) = S (fetches w).
Proof.
  unfold fetch_markets, next_reply. run.
  destruct (api E (fetches w)) as [status body|]; [| done].
  destruct (status =? 200); [| done].
  unfold parse_markets, get_default. destruct body as [| | | | |members]; try done.
  run. unfold py_iter.
  destruct (from_option Datatypes.id (JArr []) (jget "markets" members))
    as [| | |s|items|fields]; run; try done.
  all: match goal with
       | |- context [parse_items ?lib ?l [] ?w0] =>
           pose proof (parse_items_stable (fun w w' => fetches w' = fetches w)
                         (PreOrder0 := same_fetches_preorder) lib l []
                         ltac:(by intros r w1) w0) as Hst;
           destruct (parse_items lib l [] w0) as [[ms|e|] w1]; cbn in Hst |- *; congruence
       end.
Qed.

(** One cycle of the job as the source has it: no delivery is attempted,
    no command answered, the clock is not read and no subscriber is
    changed; the ledger does not shrink; the API is asked once.  The
    cycle returns when there is no new market or no subscriber, and then
    it has entered every fetched market and written the state to disk;
    otherwise it ends in [AttributeError] and writes nothing. *)
Lemma check_new_markets_run (E : Env) (L : Lib) (w : World) :
  let w' := snd (check_new_markets E L w) in
  outbox w' = outbox w /\ replies w' = replies w /\ clock_reads w' = clock_reads w
  /\ user_prefs (bot w') = user_prefs (bot w)
  /\ seen_markets (bot w) ⊆ seen_markets (bot w')
  /\ fetches w' = S (fetches w)
  /\ forall markets,
       fst (fetch_markets E L (add_logs [LogInfo "Checking for new markets..."] w))
       = Returned markets ->
       let new_markets := List.filter (is_new (bot w)) markets in
       (new_markets = [] \/ user_prefs (bot w) = ∅) /\
         fst (check_new_markets E L w) = Returned tt
         /\ seen_markets (bot w') = seen_markets (bot w) ∪ list_to_set (id <$> markets)
         /\ data_file w' = Some (data_to_json L (bot w'))
       \/ (new_markets <> [] /\ user_prefs (bot w) <> ∅) /\
          fst (check_new_markets E L w) = Raised AttributeError
          /\ data_file w' = data_file w.
Proof.
  intros w'. subst w'.
  set (w0 := add_logs [LogInfo "Checking for new markets..."] w).
  assert (check_new_markets E L w
          = (let* markets := fetch_markets E L in
             let* self := get_bot in
             let* _ := for_each (List.filter (is_new self) markets)
                         (enter_and_notify E "mark_matches_preferences") in
             save_data L) w0) as -> by reflexivity.
  destruct (fetch_markets_stable only_logged E L) with (w := w0)
    as (Hbot & Hdisk & Hout & Hrep & Hclock); [by intros | by intros |].
  pose proof (fetch_markets_one_request E L w0) as Hfetch.
  unfold save_data, bind. cbv [get_bot write_data_file].
  destruct (fetch_markets E L w0) as [[markets|e|] w1]; cbn [fst snd] in *;
    [| by rewrite Hbot, Hout, Hrep, Hclock, Hfetch
     | by rewrite Hbot, Hout, Hrep, Hclock, Hfetch].
  rewrite Hbot. cbn [bot add_logs w0].
  destruct (enter_and_notify_loop E (List.filter (is_new (bot w)) markets) w1)
    as ((Ho & Hr & Hc & Hu) & Hd & Hf & Hsub & Hend).
  rewrite Hbot in Hu, Hsub, Hend. cbn [w0 add_logs bot] in Hu, Hsub, Hend.
  destruct (for_each _ _ w1) as [[[]|e|] w2]; cbn [fst snd] in *;
    cbn [bot outbox replies data_file clock_reads fetches];
    subst w0; cbn [add_logs bot outbox replies data_file clock_reads fetches] in *.
  - do 3 (split; [congruence |]). split; [done |]. split; [done |]. split; [congruence |].
    intros ms [= <-]. left.
    destruct Hend as [(_ & Hcase & Hseen) | ([=] & _)].
    split; [done |]. split; [done |]. split; [| done].
    by rewrite Hseen, new_and_seen_cover.
  - do 3 (split; [congruence |]). split; [done |]. split; [done |]. split; [congruence |].
    intros ms [= <-]. right.
    destruct Hend as [([=] & _) | ([= ->] & Hne & Hsome)].
    split; [done |]. split; [done |]. congruence.
  - by destruct Hend as [([=] & _) | ([=] & _)].
Qed.

(** X7: the job as the source has it, for a cycle in which the API answers
    with a list of markets: the cycle returns exactly when none of the
    markets is new or nobody is subscribed, and it has then entered every
    fetched market in the ledger and written the state to disk.  In every
    other case it ends in [AttributeError] with the first new market, and
    only that one, entered in the ledger and nothing written.  Either way
    no delivery is attempted. *)
Theorem cycle_returns_iff_nothing_to_announce (E : Env) (L : Lib) (w : World)
    (markets : list Market) :
  fst (fetch_markets E L (add_logs [LogInfo "Checking for new markets..."] w))
  = Returned markets ->
  let w' := snd (check_new_markets E L w) in
  let new_markets := List.filter (is_new (bot w)) markets in
  (fst (check_new_markets E L w) = Returned tt
   <-> new_markets = [] \/ user_prefs (bot w) = ∅)
  /\ (fst (check_new_markets E L w) = Returned tt ->
      seen_markets (bot w') = seen_markets (bot w) ∪ list_to_set (id <$> markets)
      /\ data_file w' = Some (data_to_json L (bot w')))
  /\ (fst (check_new_markets E L w) <> Returned tt ->
      fst (check_new_markets E L w) = Raised AttributeError
      /\ data_file w' = data_file w
      /\ exists first rest,
           new_markets = first :: rest
           /\ seen_markets (bot w') = seen_markets (bot w) ∪ {[ id first ]})
  /\ outbox w' = outbox w.
Proof.
  intros Hfetch w' new_markets.
  destruct (check_new_markets_run E L w) as (Hout & _ & _ & _ & _ & _ & Hcases).
  specialize (Hcases markets Hfetch). cbv zeta in Hcases. fold w' new_markets in Hcases.
  destruct Hcases as [(Hnone & Hret & Hseen & Hdisk) | ((Hnew & Husers) & Hraised & Hdisk)].
  - split; [by split |]. split; [done |]. split; [by intros [] |]. done.
  - rewrite Hraised. split; [split; [done | intros [? | ?]; done] |].
    split; [done |]. split; [| done]. intros _. split; [done |]. split; [done |].
    destruct new_markets as [|first rest] eqn:Hn; [done |]. exists first, rest.
    split; [done |]. subst w'.
    destruct (fetch_markets E L (add_logs [LogInfo "Checking for new markets..."] w))
      as [r w1] eqn:Hcall.
    cbn in Hfetch. subst r.
    destruct (fetch_markets_stable only_logged E L)
      with (w := add_logs [LogInfo "Checking for new markets..."] w)
      as (Hbot & _); [by intros | by intros |].
    rewrite Hcall in Hbot. cbn in Hbot.
    rewrite (check_new_markets_raises E L w w1 markets first rest); cbn; rewrite ?Hbot; done.
Qed.

Lemma cycle_returns_iff_nothing_to_announce_witness :
  let w := fresh_world (bot_of crypto_subscriber) in
  fst (check_new_markets listing_env iso_lib w) = Raised AttributeError
  /\ data_file (snd (check_new_markets listing_env iso_lib w)) = data_file w
  /\ outbox (snd (check_new_markets listing_env iso_lib w)) = outbox w.
Proof.
  intros w.
  destruct (cycle_returns_iff_nothing_to_announce listing_env iso_lib w
              [parsed "m1"; parsed "m2"])
    as (Hiff & _ & Hraise & Hout); [by vm_compute |].
  destruct Hraise as (Hr & Hd & _); [| by repeat split].
  intros Hret. apply Hiff in Hret. vm_compute in Hret.
  destruct Hret as [Hnew | Hnobody]; [discriminate |].
  revert Hnobody. by vm_compute.
Defined.

(** X8: however often [check_new_markets] is called, and however each call
    ends, no alert is delivered, no command answered, the clock is never
    read, no subscriber is changed and no identifier leaves the ledger;
    every call asks the API exactly once. *)
Theorem cycles_never_alert (E : Env) (L : Lib) (n : nat) (w : World) :
  outbox (cycles E L n w) = outbox w
  /\ replies (cycles E L n w) = replies w
  /\ clock_reads (cycles E L n w) = clock_reads w
  /\ user_prefs (bot (cycles E L n w)) = user_prefs (bot w)
  /\ seen_markets (bot w) ⊆ seen_markets (bot (cycles E L n w))
  /\ fetches (cycles E L n w) = (n + fetches w)%nat.
Proof.
  revert w. induction n as [|n IH]; intros w; [done |].
  cbn [cycles].
  destruct (check_new_markets_run E L w) as (Ho & Hr & Hc & Hu & Hs & Hf & _).
  destruct (IH (snd (check_new_markets E L w))) as (Ho' & Hr' & Hc' & Hu' & Hs' & Hf').
  rewrite Ho', Hr', Hc', Hu', Hf', Ho, Hr, Hc, Hu, Hf.
  repeat split; [by etrans | lia].
Qed.

(** ** The cooldown *)

(** X9: for a subscriber with notifications on who was last notified about
    the market at the local time [t], and a market whose expiry carries a
    time zone: the call returns, and it attempts a delivery exactly when
    the hour is over, the end of the hour included.  Within the hour the
    bot is left as it was. *)
Theorem alert_sent_iff_cooldown_over (E : Env) (uid : Z) (market : Market) (w : World)
    (prefs : UserPreferences) (x t : Z) :
  user_prefs (bot w) !! uid = Some prefs ->
  notify_on_launch prefs = true ->
  expiry market = Aware x ->
  last_notified prefs !! id market = Some (StampDatetime (Naive t)) ->
  let now := instant E (clock_reads w) + local_offset E in
  let w' := snd (send_market_alert E uid market w) in
  fst (send_market_alert E uid market w) = Returned tt
  /\ (now - t < hours 1 -> outbox w' = outbox w /\ bot w' = bot w)
  /\ (hours 1 <= now - t ->
      exists s, outbox w' = outbox w ++ [s] /\ chat_id s = uid
                /\ delivered s = channel_ok E (length (outbox w)))
  /\ (outbox w' = outbox w <-> now - t < hours 1).
Proof.
  intros Hp Hon Hx Hl now w'.
  destruct (Z.lt_ge_cases (now - t) (hours 1)) as [Hlt | Hge].
  - destruct (cooldown_suppresses E uid market w prefs t Hp Hl Hlt) as (Hret & Hout & Hbot).
    split; [done |]. split; [done |]. split; [intros; lia |]. by split.
  - destruct (cooldown_elapsed_sends_once E uid market w prefs x Hp Hon) as (s & Hret & Hout & Hchat & Hdel & _);
      [right; by exists t | done |].
    split; [done |]. split; [intros; lia |]. split; [by exists s |].
    split; [| intros; lia]. subst w'. rewrite Hout. intros Heq.
    apply (f_equal length) in Heq. rewrite length_app in Heq. cbn in Heq. lia.
Qed.

Lemma alert_sent_iff_cooldown_over_witness :
  let w := fresh_world (bot_of notified_subscriber) in
  fst (send_market_alert calm_env 7 m1 w) = Returned tt
  /\ outbox (snd (send_market_alert calm_env 7 m1 w)) = outbox w.
Proof.
  intros w.
  destruct (alert_sent_iff_cooldown_over calm_env 7 m1 w notified_subscriber
              (days_td 3 / 2) 0)
    as (Hret & Hquiet & _); [by vm_compute | done | done | by vm_compute |].
  split; [exact Hret |]. by apply Hquiet.
Defined.

(** ** Persistence *)

Lemma only_loaded_preorder : PreOrder only_loaded.
Proof.
  split.
  - by intros w.
  - intros w1 w2 w3 (? & ? & ? & ? & ?) (? & ? & ? & ? & ?).
    unfold only_loaded. repeat split; congruence.
Qed.

#[local] Existing Instance only_loaded_preorder.

Lemma pure_py_set (v : json) : pure (py_set v).
Proof.
  destruct v; try (intros w; reflexivity).
  all: unfold py_set; destruct (as_str_list _); intros w; reflexivity.
Qed.

Lemma load_document_only_loaded (data : json) : stable only_loaded (load_document data).
Proof.
  assert (forall b, stable only_loaded (set_bot b)) as Hset by (by intros b w).
  assert (stable only_loaded get_bot) as Hget by (by intros w).
  unfold load_document.
  apply stable_bind; [apply _ | apply stable_pure, pure_get_default; apply _ | intros seen_raw].
  apply stable_bind; [apply _ | apply stable_pure, pure_py_set; apply _ | intros seen].
  apply stable_bind; [apply _ | done | intros self].
  apply stable_bind; [apply _ | done | intros _].
  apply stable_bind; [apply _ | apply stable_pure, pure_get_default; apply _ | intros users].
  destruct users; try (apply stable_raise, _).
  apply stable_for_each; [apply _ |]. intros [key prefs]. unfold load_user. cbn [fst snd].
  repeat (apply stable_bind;
          [apply _
          | first [ apply stable_pure; [apply _ |];
                    first [apply pure_typed | apply pure_subscript | apply pure_py_set]
                  | done ]
          | intros ?]).
  done.
Qed.

(** X10: [load_data] never raises, and it touches nothing but the bot and the
    log.  Without a file it leaves the bot as it was and logs that it
    starts fresh.  A failure is logged, but what was loaded before it
    stays loaded: when the file holds a ledger and, under user_prefs,
    something that is not an object, the ledger of the file has replaced
    the ledger of the bot although the load has failed. *)
Theorem load_data_never_raises (w : World) :
  (forall e, fst (load_data w) <> Raised e)
  /\ only_loaded w (snd (load_data w))
  /\ (data_file w = None ->
      load_data w
      = (Returned tt, add_logs [LogInfo "No existing data file found, starting fresh"] w))
  /\ (forall members ids users,
        data_file w = Some (JObj members) ->
        jget "seen_markets" members = Some (JArr (JStr <$> ids)) ->
        jget "user_prefs" members = Some users ->
        is_object users = false ->
        load_data w
        = (Returned tt,
           add_logs [LogError "Error loading data" AttributeError]
             (with_bot {| seen_markets := list_to_set ids;
                          user_prefs := user_prefs (bot w) |} w))).
Proof.
  split; [| split; [| split]].
  - intros e. unfold load_data. destruct (data_file w) as [data|]; [| done].
    unfold try_except. by destruct (load_document data w) as [[[]|e'|] w'].
  - unfold load_data. destruct (data_file w) as [data|] eqn:Hfile; [| done].
    pose proof (load_document_only_loaded data w) as Hdoc.
    unfold try_except. by destruct (load_document data w) as [[[]|e'|] w'].
  - intros Hnone. unfold load_data. by rewrite Hnone.
  - intros members ids users Hfile Hseen Husers Hobj.
    unfold load_data. rewrite Hfile. unfold try_except, load_document, get_default. run.
    rewrite Hseen. cbn [from_option Datatypes.id].
    unfold py_set. rewrite as_str_list_strings. run.
    rewrite Husers. cbn [from_option Datatypes.id]. by destruct users.
Qed.

(** X11: saving, restarting and loading gives back the ledger and the same
    subscribers, and every subscriber's filter decides every market as it
    did before, with the notification flag as it was; the load logs
    nothing.  When no last-notified entry holds a datetime, the bot that
    comes back is the bot that was saved. *)
Theorem save_load_round_trip (L : Lib) (w : World) :
  keyed_by_user_id (bot w) ->
  let w' := snd (load_data (restart (snd (save_data L w)))) in
  fst (load_data (restart (snd (save_data L w)))) = Returned tt
  /\ logged w' = []
  /\ seen_markets (bot w') = seen_markets (bot w)
  /\ (forall uid, user_prefs (bot w') !! uid = None <-> user_prefs (bot w) !! uid = None)
  /\ (forall uid prefs,
        user_prefs (bot w) !! uid = Some prefs ->
        exists prefs',
          user_prefs (bot w') !! uid = Some prefs'
          /\ notify_on_launch prefs' = notify_on_launch prefs
          /\ (forall market,
                market_matches_preferences market prefs'
                = market_matches_preferences market prefs)
          /\ (forall market_id,
                last_notified prefs' !! market_id = None
                <-> last_notified prefs !! market_id = None))
  /\ ((forall uid prefs market_id v,
          user_prefs (bot w) !! uid = Some prefs ->
          last_notified prefs !! market_id = Some v -> exists s, v = StampStr s) ->
      bot w' = bot w).
Proof.
  intros Hkeys w'. subst w'. rewrite (save_then_load L w Hkeys).
  cbn [fst snd with_bot bot logged restart seen_markets user_prefs].
  do 3 (split; [done |]).
  split; [intros uid; rewrite lookup_fmap; by destruct (user_prefs (bot w) !! uid) |].
  split.
  - intros uid prefs Hp. exists (reloaded_preferences L prefs).
    rewrite lookup_fmap, Hp. split; [done |]. split; [done |]. split; [done |].
    intros market_id. cbn [reloaded_preferences last_notified]. rewrite lookup_fmap.
    by destruct (last_notified prefs !! market_id).
  - intros Hstr. destruct (bot w) as [seen users] eqn:Hb. cbn in *. f_equal.
    apply map_eq. intros uid. rewrite lookup_fmap.
    destruct (users !! uid) as [prefs|] eqn:Hu; [| done].
    cbn. f_equal. apply reloaded_preferences_id. intros mid v. by apply (Hstr uid).
Qed.

Lemma save_load_round_trip_witness :
  bot (snd (load_data (restart (snd (save_data iso_lib
                                       (fresh_world (bot_of crypto_subscriber)))))))
  = bot_of crypto_subscriber.
Proof.
  destruct (save_load_round_trip iso_lib (fresh_world (bot_of crypto_subscriber)))
    as (_ & _ & _ & _ & _ & Hsame).
  - intros uid prefs Hp. cbn in Hp. by apply lookup_singleton_Some in Hp as [<- <-].
  - apply Hsame. intros uid prefs market_id v Hp Hl. cbn in Hp.
    apply lookup_singleton_Some in Hp as [_ <-]. cbn in Hl. by rewrite lookup_empty in Hl.
Defined.

(** ** Strings of the handlers *)

Lemma split_cons (sep : ascii) (s : string) :
  exists piece pieces, split sep s = piece :: pieces.
Proof.
  induction s as [|c s (piece & pieces & IH)]; [by exists "", [] |].
  cbn [split]. destruct (Ascii.eqb c sep); [by eexists _, _ |].
  rewrite IH. by eexists _, _.
Qed.

(** No piece of a split holds the separator. *)
Lemma split_without_sep (sep : ascii) (s piece : string) :
  In piece (split sep s) -> ~ In sep (list_ascii_of_string piece).
Proof.
  revert piece. induction s as [|c s IH]; intros piece.
  - cbn. intros [<- | []]. cbn. tauto.
  - cbn [split]. destruct (Ascii.eqb c sep) eqn:Hc.
    + intros [<- | Hin]; [cbn; tauto | by apply IH].
    + destruct (split_cons sep s) as (first & pieces & Hs). rewrite Hs in IH |- *.
      intros [<- | Hin].
      * cbn. intros [-> | Hin]; [by rewrite Ascii.eqb_refl in Hc |].
        apply (IH first); [by left | done].
      * apply IH. by right.
Qed.

(** A separator at the end leaves an empty last piece. *)
Lemma split_trailing_sep (sep : ascii) (s : string) :
  split sep (s +:+ String sep "") = (split sep s ++ [""])%list.
Proof.
  induction s as [|c s IH].
  - change ("" +:+ String sep "") with (String sep ""). cbn [split].
    by rewrite Ascii.eqb_refl.
  - rewrite append_cons. cbn [split]. rewrite IH.
    destruct (Ascii.eqb c sep); [done |].
    by destruct (split_cons sep s) as (first & pieces & ->).
Qed.

Lemma lstrip_suffix (chars : list ascii) :
  exists spaces, chars = (spaces ++ lstrip chars)%list.
Proof.
  induction chars as [|c chars (spaces & IH)]; [by exists [] |].
  cbn [lstrip]. destruct (is_space c); [| by exists []].
  exists (c :: spaces). cbn. by rewrite <- IH.
Qed.

Lemma lstrip_head (chars : list ascii) (c : ascii) :
  head (lstrip chars) = Some c -> is_space c = false.
Proof.
  induction chars as [|d chars IH]; [done |].
  cbn [lstrip]. destruct (is_space d) eqn:Hd; [done |].
  cbn. by intros [= <-].
Qed.

Lemma list_ascii_of_to (chars : list ascii) :
  list_ascii_of_string (string_of_list_ascii chars) = chars.
Proof. apply list_ascii_of_string_of_list_ascii. Qed.

(** What [strip] leaves: the text without the white space at its two
    ends. *)
Lemma strip_spec (s : string) :
  exists before after,
    list_ascii_of_string s = (before ++ list_ascii_of_string (strip s) ++ after)%list
    /\ (forall c, head (list_ascii_of_string (strip s)) = Some c -> is_space c = false)
    /\ (forall c, last (list_ascii_of_string (strip s)) = Some c -> is_space c = false).
Proof.
  unfold strip. rewrite list_ascii_of_to.
  set (chars := list_ascii_of_string s).
  destruct (lstrip_suffix chars) as (before & Hbefore).
  destruct (lstrip_suffix (reverse (lstrip chars))) as (after & Hafter).
  assert (lstrip chars
          = (reverse (lstrip (reverse (lstrip chars))) ++ reverse after)%list) as Hl.
  { rewrite <- reverse_app, <- Hafter. by rewrite reverse_involutive. }
  exists before, (reverse after). split; [| split].
  - rewrite Hbefore at 1. by rewrite Hl at 1.
  - intros c Hc. apply (lstrip_head chars). rewrite Hl.
    by destruct (reverse (lstrip (reverse (lstrip chars)))).
  - intros c Hc. rewrite <- head_reverse, reverse_involutive in Hc.
    by apply (lstrip_head (reverse (lstrip chars))).
Qed.

(** ** /keywords *)

(** What [cmd_keywords] stores: the pieces between the commas of the
    arguments joined by spaces, each stripped. *)
Lemma stored_keywords_clean (args : list string) (kw : string) :
  In kw (strip <$> split "," (join_space args)) ->
  ~ In ","%char (list_ascii_of_string kw)
  /\ (forall c, head (list_ascii_of_string kw) = Some c -> is_space c = false)
  /\ (forall c, last (list_ascii_of_string kw) = Some c -> is_space c = false).
Proof.
  intros Hin. apply list_elem_of_In, list_elem_of_fmap in Hin as (piece & -> & Hpiece).
  apply list_elem_of_In in Hpiece.
  destruct (strip_spec piece) as (before & after & Hchars & Hhead & Hlast).
  split; [| by split].
  intros Hcomma. apply (split_without_sep _ _ _ Hpiece).
  rewrite Hchars. apply in_or_app. right. apply in_or_app. by left.
Qed.

(** The record of a subscriber after /keywords with arguments. *)
Lemma cmd_keywords_lookup (T : Telegram) (L : Lib) (update : Update) (args : list string)
    (s : Chat) (prefs : UserPreferences) :
  args <> [] ->
  user_prefs (bot (world s)) !! effective_user update = Some prefs ->
  user_prefs (bot (world (snd (cmd_keywords T L update args s)))) !! effective_user update
  = Some (with_keywords (strip <$> split "," (join_space args)) prefs).
Proof.
  intros Hargs Hp. unfold cmd_keywords.
  destruct args as [|arg args]; [done |]. cbn [list_truthy].
  chat. rewrite Hp. chat. destruct (has_message update); chat.
  all: by rewrite lookup_alter_eq, Hp.
Qed.

(** X12: for a subscriber, /keywords with arguments replaces the keyword list
    by the pieces between the commas of the arguments, stripped: the list
    is never empty, and no keyword in it holds a comma or starts or ends
    with white space.  Nothing else of the subscriber, no other
    subscriber and no part of the ledger changes, no alert is sent, and
    the new state is on disk before the confirmation is attempted, so it
    stays also when the confirmation fails. *)
Theorem cmd_keywords_stores (T : Telegram) (L : Lib) (update : Update) (args : list string)
    (s : Chat) (prefs : UserPreferences) :
  args <> [] ->
  user_prefs (bot (world s)) !! effective_user update = Some prefs ->
  let s' := snd (cmd_keywords T L update args s) in
  let kws := strip <$> split "," (join_space args) in
  user_prefs (bot (world s')) !! effective_user update = Some (with_keywords kws prefs)
  /\ (forall other, other <> effective_user update ->
        user_prefs (bot (world s')) !! other = user_prefs (bot (world s)) !! other)
  /\ seen_markets (bot (world s')) = seen_markets (bot (world s))
  /\ outbox (world s') = outbox (world s)
  /\ data_file (world s') = Some (data_to_json L (bot (world s')))
  /\ kws <> []
  /\ (forall kw, In kw kws ->
        ~ In ","%char (list_ascii_of_string kw)
        /\ (forall c, head (list_ascii_of_string kw) = Some c -> is_space c = false)
        /\ (forall c, last (list_ascii_of_string kw) = Some c -> is_space c = false))
  /\ (if has_message update
      then calls s' = calls s ++ [(ReplyText (KeywordsSet (join_comma kws)) [],
                                   call_ok T (length (calls s)))]
      else fst (cmd_keywords T L update args s) = Raised AttributeError
           /\ calls s' = calls s).
Proof.
  intros Hargs Hp s' kws. subst s'. unfold cmd_keywords.
  destruct args as [|arg args]; [done |]. cbn [list_truthy]. fold kws.
  chat. rewrite Hp. chat. destruct (has_message update); chat.
  all: split; [by rewrite lookup_alter_eq, Hp |].
  all: split; [intros other Hne; by rewrite lookup_alter_ne |].
  all: do 3 (split; [done |]).
  all: split; [subst kws; by destruct (split_cons "," (join_space (arg :: args)))
                                as (piece & pieces & ->) |].
  all: split; [apply stored_keywords_clean |]; done.
Qed.

Lemma cmd_keywords_stores_witness :
  let s := fresh_chat (fresh_world (bot_of crypto_subscriber)) in
  user_prefs (bot (world (snd (cmd_keywords reliable iso_lib (command_from 7)
                                 ["bitcoin,"; "eth"] s)))) !! 7
  = Some (with_keywords ["bitcoin"; "eth"] crypto_subscriber).
Proof.
  intros s.
  exact (proj1 (cmd_keywords_stores reliable iso_lib (command_from 7) ["bitcoin,"; "eth"] s
                  crypto_subscriber ltac:(done) ltac:(by vm_compute))).
Defined.

Lemma append_assoc (a b c : string) : (a +:+ b) +:+ c = a +:+ b +:+ c.
Proof.
  induction a as [|x a IH]; [done |].
  by rewrite !append_cons, IH.
Qed.

Lemma join_space_snoc (items : list string) (item : string) :
  exists before, join_space (items ++ [item])%list = before +:+ item.
Proof.
  induction items as [|first items (before & IH)]; [by exists "" |].
  cbn [app join_space].
  destruct (items ++ [item])%list as [|second more] eqn:Hl; [by destruct items |].
  rewrite IH. exists (first +:+ " " +:+ before). by rewrite !append_assoc.
Qed.

(** X13: a comma at the end of the arguments of /keywords switches the
    keyword filter off: the last keyword stored is the empty string,
    which occurs in every text, so from then on every market passes the
    keyword test of the subscriber and the filter decides on category,
    liquidity and volume alone. *)
Theorem trailing_comma_switches_keywords_off (T : Telegram) (L : Lib) (update : Update)
    (args : list string) (last_arg : string) (s : Chat) (prefs : UserPreferences) :
  user_prefs (bot (world s)) !! effective_user update = Some prefs ->
  let s' := snd (cmd_keywords T L update (args ++ [last_arg +:+ ","]) s) in
  exists prefs',
    user_prefs (bot (world s')) !! effective_user update = Some prefs'
    /\ last (keywords prefs') = Some ""
    /\ forall market,
         market_matches_preferences market prefs' = true
         <-> category_predicate market prefs /\ liquidity_not_below market prefs
             /\ volume_not_below market prefs.
Proof.
  intros Hp s'.
  set (kws := strip <$> split "," (join_space (args ++ [last_arg +:+ ","]))).
  pose proof (cmd_keywords_lookup T L update (args ++ [last_arg +:+ ","]) s prefs
                ltac:(by destruct args) Hp) as Hstored.
  fold s' kws in Hstored.
  assert (last kws = Some "") as Hlast.
  { subst kws. destruct (join_space_snoc args (last_arg +:+ ",")) as (before & ->).
    rewrite <- append_assoc, split_trailing_sep, fmap_app.
    change (strip <$> [""]) with [""]. by rewrite last_snoc. }
  exists (with_keywords kws prefs). split; [done |]. split; [done |].
  intros market. rewrite market_matches_preferences_iff.
  assert (keyword_predicate_spaced market (with_keywords kws prefs)) as Hkw.
  { right. exists "". split.
    - cbn [keywords with_keywords]. apply list_elem_of_In.
      apply last_Some_elem_of in Hlast. done.
    - by exists "", (lower (question market +:+ " " +:+ description market)). }
  unfold category_predicate, liquidity_not_below, volume_not_below. cbn. tauto.
Qed.

Lemma trailing_comma_switches_keywords_off_witness :
  let s := fresh_chat (fresh_world (bot_of crypto_subscriber)) in
  exists prefs',
    user_prefs (bot (world (snd (cmd_keywords reliable iso_lib (command_from 7)
                                   ([] ++ ["bitcoin" +:+ ","]) s)))) !! 7 = Some prefs'
    /\ last (keywords prefs') = Some ""
    /\ forall market,
         market_matches_preferences market prefs' = true
         <-> category_predicate market crypto_subscriber
             /\ liquidity_not_below market crypto_subscriber
             /\ volume_not_below market crypto_subscriber.
Proof.
  intros s.
  exact (trailing_comma_switches_keywords_off reliable iso_lib (command_from 7) [] "bitcoin" s
           crypto_subscriber ltac:(by vm_compute)).
Defined.

(** X14: without arguments /keywords only shows its usage; for somebody who
    is not subscribed it does nothing at all with arguments, not even
    answer.  In both cases the bot and the disk stay as they were. *)
Theorem cmd_keywords_without_effect (T : Telegram) (L : Lib) (update : Update)
    (args : list string) (s : Chat) :
  args = [] \/ user_prefs (bot (world s)) !! effective_user update = None ->
  world (snd (cmd_keywords T L update args s)) = world s
  /\ (args <> [] -> cmd_keywords T L update args s = (Returned tt, s))
  /\ (args = [] ->
      cmd_keywords T L update args s = message_reply_text T update KeywordsUsage [] s).
Proof.
  intros Hcase. unfold cmd_keywords. destruct args as [|arg args].
  - cbn [list_truthy]. split; [| by split].
    unfold message_reply_text. destruct (has_message update); chat; by destruct s.
  - destruct Hcase as [[=] | Hnone]. cbn [list_truthy]. chat. rewrite Hnone.
    chat. by destruct s.
Qed.

Lemma cmd_keywords_without_effect_witness :
  cmd_keywords reliable iso_lib (command_from 7) ["bitcoin"] (fresh_chat (fresh_world empty_bot))
  = (Returned tt, fresh_chat (fresh_world empty_bot)).
Proof.
  apply (cmd_keywords_without_effect reliable iso_lib (command_from 7) ["bitcoin"]
           (fresh_chat (fresh_world empty_bot))); [right; apply lookup_empty | done].
Defined.

(** ** /filters *)

(** X15: /filters with two or more arguments, for a subscriber: when both of
    the first two arguments read as numbers, exactly the two thresholds
    of the subscriber are set to them, the state is written to disk and
    the confirmation attempted; further arguments are ignored.  When
    either does not read as a number, nothing is changed and nothing
    written, also when it is the second that fails, and the handler asks
    for valid numbers. *)
Theorem cmd_filters_all_or_nothing (T : Telegram) (L : Lib) (update : Update)
    (first second : string) (more : list string) (s : Chat) (prefs : UserPreferences) :
  user_prefs (bot (world s)) !! effective_user update = Some prefs ->
  let r := cmd_filters T L update (first :: second :: more) s in
  match float_of_str L first, float_of_str L second with
  | Some liquidity_min, Some volume_min =>
      user_prefs (bot (world (snd r))) !! effective_user update
      = Some (with_thresholds liquidity_min volume_min prefs)
      /\ (forall other, other <> effective_user update ->
            user_prefs (bot (world (snd r))) !! other
            = user_prefs (bot (world s)) !! other)
      /\ seen_markets (bot (world (snd r))) = seen_markets (bot (world s))
      /\ data_file (world (snd r)) = Some (data_to_json L (bot (world (snd r))))
      /\ (has_message update = true ->
          calls (snd r) = calls s ++ [(ReplyText (FiltersUpdated liquidity_min volume_min) [],
                                       call_ok T (length (calls s)))])
  | _, _ =>
      world (snd r) = world s
      /\ r = message_reply_text T update EnterValidNumbers [] s
  end.
Proof.
  intros Hp r. subst r. unfold cmd_filters. chat. rewrite Hp.
  unfold py_float.
  destruct (float_of_str L first) as [liquidity_min|]; chat.
  - destruct (float_of_str L second) as [volume_min|]; chat.
    + destruct (has_message update); chat;
        [destruct (call_ok T (length (calls s))) |]; cbn [ValueError_only]; chat.
      all: split; [by rewrite lookup_alter_eq, Hp |].
      all: split; [intros other Hne; by rewrite lookup_alter_ne |].
      all: by repeat split.
    + unfold message_reply_text. destruct (has_message update); chat; by destruct s.
  - destruct (float_of_str L second) as [volume_min|];
      unfold message_reply_text; destruct (has_message update); chat; by destruct s.
Qed.

Lemma cmd_filters_all_or_nothing_witness :
  let s := fresh_chat (fresh_world (bot_of crypto_subscriber)) in
  let r := cmd_filters reliable numeral_lib (command_from 7) ["250"; "1000"; "ignored"] s in
  user_prefs (bot (world (snd r))) !! 7
  = Some (with_thresholds (amount 250) (amount 1000) crypto_subscriber)
  /\ data_file (world (snd r)) = Some (data_to_json numeral_lib (bot (world (snd r)))).
Proof.
  intros s r.
  pose proof (cmd_filters_all_or_nothing reliable numeral_lib (command_from 7)
                "250" "1000" ["ignored"] s crypto_subscriber ltac:(by vm_compute)) as Hrun.
  cbv zeta in Hrun. fold r in Hrun.
  change (float_of_str numeral_lib "250") with (Some (amount 250)) in Hrun.
  change (float_of_str numeral_lib "1000") with (Some (amount 1000)) in Hrun.
  destruct Hrun as (Hstored & _ & _ & Hdisk & _). by split.
Defined.

(** ** Buttons *)

Lemma toggled_elem (c d : string) (cats : gset string) :
  d ∈ toggled c cats <-> (d <> c /\ d ∈ cats) \/ (d = c /\ c ∉ cats).
Proof.
  unfold toggled. destruct (bool_decide (c ∈ cats)) eqn:Hc.
  - apply bool_decide_eq_true in Hc. rewrite elem_of_difference, elem_of_singleton.
    split; [intros [? ?]; by left | intros [[? ?] | [? ?]]; done].
  - apply bool_decide_eq_false in Hc. rewrite elem_of_union, elem_of_singleton.
    split.
    + intros [Hd | ->]; [| by right]. left. split; [| done]. by intros ->.
    + intros [[? ?] | [? ?]]; [by left | by right].
Qed.

(** Toggling a category twice gives back the set. *)
Lemma toggled_twice (c : string) (cats : gset string) : toggled c (toggled c cats) = cats.
Proof.
  apply set_eq. intros d. rewrite !toggled_elem.
  destruct (decide (d = c)) as [-> | Hne]; destruct (decide (c ∈ cats)); tauto.
Qed.

Lemma startswith_append (prefix rest : string) : startswith (prefix +:+ rest) prefix = true.
Proof. unfold startswith. apply prefix_iff_app. by exists rest. Qed.

(** What a press on a button whose data starts with cat_ does for a
    subscriber, once the press has been answered. *)
Lemma handle_callback_category (T : Telegram) (L : Lib) (update : Update) (c : string)
    (s : Chat) (prefs : UserPreferences) :
  callback_query update = Some ("cat_" +:+ c) ->
  user_prefs (bot (world s)) !! effective_user update = Some prefs ->
  call_ok T (length (calls s)) = true ->
  let user := effective_user update in
  let prefs' := with_categories (toggled c (enabled_categories prefs)) prefs in
  let bot' := {| seen_markets := seen_markets (bot (world s));
                 user_prefs := <[user := prefs']> (user_prefs (bot (world s))) |} in
  let menu := SendMenu user SelectCategories (category_keyboard prefs') in
  let sent := call_ok T (S (length (calls s))) in
  handle_callback T L update s
  = (if sent then Returned tt else Raised ChannelError,
     {| world := {| bot := bot'; outbox := outbox (world s); replies := replies (world s);
                    logged := logged (world s); clock_reads := clock_reads (world s);
                    data_file := Some (data_to_json L bot'); fetches := fetches (world s) |};
        calls := calls s ++ [(Answer, true); (menu, sent)]
                 ++ if sent then [(DeleteMessage, call_ok T (S (S (length (calls s)))))]
                    else [] |}).
Proof.
  intros Hdata Hp Hanswer user prefs' bot' menu sent.
  assert (alter (with_categories (toggled c (enabled_categories prefs))) user
            (user_prefs (bot (world s)))
          = <[user := prefs']> (user_prefs (bot (world s)))) as Halter.
  { apply map_eq. intros other. destruct (decide (other = user)) as [-> | Hne].
    - rewrite lookup_alter_eq, lookup_insert_eq. unfold user. by rewrite Hp.
    - by rewrite lookup_alter_ne, lookup_insert_ne. }
  unfold handle_callback. rewrite Hdata.
  rewrite startswith_append.
  change (slice_from 4 ("cat_" +:+ c)) with c.
  unfold show_category_menu. chat. rewrite Hanswer. chat. rewrite Hp. chat. fold user.
  rewrite Halter, lookup_insert_eq. chat.
  rewrite !(last_length (A := Call * bool)). fold bot' menu sent.
  destruct sent; chat; cbn [Exception]; rewrite <- ?(assoc_L (++)); cbn [app]; try done.
  by destruct (call_ok T (S (S (length (calls s))))).
Qed.

(** X16: a press on a button whose data is cat_ followed by a name, by a
    subscriber: the name is removed from the enabled categories when it
    is among them and added when it is not, whatever the name is (it is
    not checked against CATEGORIES, and the data cat_menu of the
    Categories button of the settings toggles the name menu); no other
    category, field or subscriber changes; the new state is on disk; and
    the menu that is then sent shows the new state. *)
Theorem category_press_toggles (T : Telegram) (L : Lib) (update : Update) (c : string)
    (s : Chat) (prefs : UserPreferences) :
  callback_query update = Some ("cat_" +:+ c) ->
  user_prefs (bot (world s)) !! effective_user update = Some prefs ->
  call_ok T (length (calls s)) = true ->
  let s' := snd (handle_callback T L update s) in
  exists prefs',
    user_prefs (bot (world s')) !! effective_user update = Some prefs'
    /\ (c ∈ enabled_categories prefs' <-> c ∉ enabled_categories prefs)
    /\ (forall d, d <> c -> d ∈ enabled_categories prefs' <-> d ∈ enabled_categories prefs)
    /\ keywords prefs' = keywords prefs
    /\ min_liquidity prefs' = min_liquidity prefs
    /\ min_volume prefs' = min_volume prefs
    /\ notify_on_launch prefs' = notify_on_launch prefs
    /\ last_notified prefs' = last_notified prefs
    /\ (forall other, other <> effective_user update ->
          user_prefs (bot (world s')) !! other = user_prefs (bot (world s)) !! other)
    /\ seen_markets (bot (world s')) = seen_markets (bot (world s))
    /\ data_file (world s') = Some (data_to_json L (bot (world s')))
    /\ exists sent,
         In (SendMenu (effective_user update) SelectCategories (category_keyboard prefs'), sent)
            (calls s').
Proof.
  intros Hdata Hp Hanswer s'. subst s'.
  rewrite (handle_callback_category T L update c s prefs Hdata Hp Hanswer).
  cbn [snd world bot user_prefs seen_markets data_file calls].
  exists (with_categories (toggled c (enabled_categories prefs)) prefs).
  split; [apply lookup_insert_eq |]. cbn [with_categories enabled_categories].
  split; [rewrite toggled_elem; tauto |].
  split; [intros d Hne; rewrite toggled_elem; tauto |].
  do 5 (split; [done |]).
  split; [intros other Hne; by apply lookup_insert_ne |].
  do 2 (split; [done |]).
  eexists. apply in_or_app. right. apply in_or_app. left. right. by left.
Qed.

Lemma category_press_toggles_witness :
  let s := fresh_chat (fresh_world (bot_of crypto_subscriber)) in
  exists prefs',
    user_prefs (bot (world (snd (handle_callback reliable iso_lib (press_by 7 "cat_menu") s))))
      !! 7 = Some prefs'
    /\ ("menu" ∈ enabled_categories prefs' <-> "menu" ∉ enabled_categories crypto_subscriber).
Proof.
  intros s.
  destruct (category_press_toggles reliable iso_lib (press_by 7 "cat_menu") "menu" s
              crypto_subscriber)
    as (prefs' & Hstored & Htoggled & _); [done | by vm_compute | done |].
  by exists prefs'.
Defined.

(** X17: two presses on the same category button, both answered and both
    menus sent, leave the bot exactly as it was before the first. *)
Theorem category_press_twice_restores (T : Telegram) (L : Lib) (update : Update) (c : string)
    (s : Chat) (prefs : UserPreferences) :
  callback_query update = Some ("cat_" +:+ c) ->
  user_prefs (bot (world s)) !! effective_user update = Some prefs ->
  let s1 := snd (handle_callback T L update s) in
  let s2 := snd (handle_callback T L update s1) in
  call_ok T (length (calls s)) = true ->
  call_ok T (length (calls s1)) = true ->
  bot (world s2) = bot (world s)
  /\ data_file (world s2) = Some (data_to_json L (bot (world s))).
Proof.
  intros Hdata Hp s1 s2 Hok Hok1.
  pose proof (handle_callback_category T L update c s prefs Hdata Hp Hok) as Hfirst.
  cbv zeta in Hfirst.
  assert (user_prefs (bot (world s1)) !! effective_user update
          = Some (with_categories (toggled c (enabled_categories prefs)) prefs)) as Hp1.
  { subst s1. rewrite Hfirst. cbn. apply lookup_insert_eq. }
  pose proof (handle_callback_category T L update c s1 _ Hdata Hp1 Hok1) as Hsecond.
  cbv zeta in Hsecond. fold s2 in Hsecond.
  assert (bot (world s2) = bot (world s)) as Hbot.
  { subst s2. rewrite Hsecond. cbn [snd world bot].
    assert (seen_markets (bot (world s1)) = seen_markets (bot (world s))
            /\ user_prefs (bot (world s1))
               = <[effective_user update
                   := with_categories (toggled c (enabled_categories prefs)) prefs]>
                   (user_prefs (bot (world s)))) as [-> ->]
      by (subst s1; by rewrite Hfirst).
    rewrite insert_insert_eq. cbn [with_categories enabled_categories].
    rewrite toggled_twice.
    destruct (bot (world s)) as [seen users] eqn:Hb. cbn in *. f_equal.
    apply insert_id. rewrite Hp. by destruct prefs. }
  split; [done |]. rewrite <- Hbot. subst s2. by rewrite Hsecond.
Qed.

Lemma category_press_twice_restores_witness :
  let s := fresh_chat (fresh_world (bot_of crypto_subscriber)) in
  let s1 := snd (handle_callback reliable iso_lib (press_by 7 "cat_sports") s) in
  let s2 := snd (handle_callback reliable iso_lib (press_by 7 "cat_sports") s1) in
  bot (world s2) = bot (world s).
Proof.
  intros s s1 s2.
  exact (proj1 (category_press_twice_restores reliable iso_lib (press_by 7 "cat_sports")
                  "sports" s crypto_subscriber eq_refl ltac:(by vm_compute)
                  eq_refl eq_refl)).
Defined.

(** X18: an empty set of categories lets every category through, so the
    category buttons do not always narrow or widen the selection the way
    the menu shows it: switching off the only enabled category makes
    every market pass the category test, and switching one category on
    from the empty selection makes all markets of every other category
    fail it. *)
Theorem last_category_off_selects_all (T : Telegram) (L : Lib) (update : Update) (c : string)
    (s : Chat) (prefs : UserPreferences) :
  callback_query update = Some ("cat_" +:+ c) ->
  user_prefs (bot (world s)) !! effective_user update = Some prefs ->
  call_ok T (length (calls s)) = true ->
  let s' := snd (handle_callback T L update s) in
  exists prefs',
    user_prefs (bot (world s')) !! effective_user update = Some prefs'
    /\ (enabled_categories prefs = {[ c ]} ->
        forall market, category_predicate market prefs')
    /\ (enabled_categories prefs = ∅ ->
        forall market, category_predicate market prefs' <-> category market = c).
Proof.
  intros Hdata Hp Hanswer s'. subst s'.
  rewrite (handle_callback_category T L update c s prefs Hdata Hp Hanswer).
  cbn [snd world bot user_prefs].
  exists (with_categories (toggled c (enabled_categories prefs)) prefs).
  split; [apply lookup_insert_eq |].
  unfold category_predicate. cbn [with_categories enabled_categories]. split.
  - intros Hone market. left. apply set_eq. intros d.
    rewrite toggled_elem, Hone, elem_of_singleton.
    split; [intros [[? ?] | [? Hnot]]; [done |] | by intros ?%not_elem_of_empty].
    exfalso. apply Hnot. by apply elem_of_singleton.
  - intros Hnone market. rewrite toggled_elem, Hnone. split.
    + intros [Hempty | [[_ Hin] | [Heq _]]]; [| by apply not_elem_of_empty in Hin | done].
      assert (c ∈ toggled c ∅) as Hc by (apply toggled_elem; right; by split).
      rewrite Hempty in Hc. by apply not_elem_of_empty in Hc.
    + intros Heq. right. right. split; [done |]. apply not_elem_of_empty.
Qed.

Lemma last_category_off_selects_all_witness :
  let s := fresh_chat (fresh_world (bot_of crypto_subscriber)) in
  exists prefs',
    user_prefs (bot (world (snd (handle_callback reliable iso_lib (press_by 7 "cat_crypto") s))))
      !! 7 = Some prefs'
    /\ forall market, category_predicate market prefs'.
Proof.
  intros s.
  destruct (last_category_off_selects_all reliable iso_lib (press_by 7 "cat_crypto") "crypto" s
              crypto_subscriber)
    as (prefs' & Hstored & Hall & _); [done | by vm_compute | done |].
  exists prefs'. split; [exact Hstored |]. by apply Hall.
Defined.

(** X19: every button of the category menu is one of two kinds.  It is the
    button of an entry of CATEGORIES, ticked exactly when that category
    is enabled, with the data cat_ followed by the key, so that a press
    on it is dispatched to [handle_callback], which reads the key back
    from the data.  Or it is the Back button, whose data matches none of
    the patterns under which [handle_callback] is registered: a press on
    it is handled by nobody. *)
Theorem category_menu_buttons (prefs : UserPreferences) (button : Button) :
  In button (category_keyboard prefs) ->
  (exists key name,
      In (key, name) CATEGORIES
      /\ label button = CategoryLabel (bool_decide (key ∈ enabled_categories prefs)) name
      /\ callback_data button = "cat_" +:+ key
      /\ existsb (startswith (callback_data button)) CALLBACK_PATTERNS = true
      /\ startswith (callback_data button) "cat_" = true
      /\ slice_from 4 (callback_data button) = key)
  \/ (label button = BackLabel
      /\ existsb (startswith (callback_data button)) CALLBACK_PATTERNS = false
      /\ forall T L update s,
           callback_query update = Some (callback_data button) ->
           dispatch_callback T L update s = (Returned tt, s)).
Proof.
  unfold category_keyboard. intros [Hin | [<- | []]]%in_app_or.
  - left. apply list_elem_of_In, list_elem_of_fmap in Hin as ([key name] & -> & Hin).
    apply list_elem_of_In in Hin. exists key, name. cbn [fst snd label callback_data].
    split; [done |]. split; [done |]. split; [done |].
    assert (startswith ("cat_" +:+ key) "cat_" = true) as Hstart by apply startswith_append.
    split; [cbn [existsb CALLBACK_PATTERNS]; by rewrite Hstart |]. by split.
  - right. cbn [label callback_data]. split; [done |]. split; [done |].
    intros T L update s Hdata. unfold dispatch_callback. by rewrite Hdata.
Qed.

Lemma category_menu_buttons_witness :
  existsb (startswith "back_settings") CALLBACK_PATTERNS = false
  /\ dispatch_callback reliable iso_lib (press_by 7 "back_settings")
       (fresh_chat (fresh_world (bot_of crypto_subscriber)))
     = (Returned tt, fresh_chat (fresh_world (bot_of crypto_subscriber))).
Proof.
  destruct (category_menu_buttons crypto_subscriber
              {| label := BackLabel; callback_data := "back_settings" |})
    as [(key & name & _ & Hlabel & _) | (_ & Hunmatched & Hignored)].
  - apply in_or_app. right. by left.
  - discriminate Hlabel.
  - split; [exact Hunmatched |]. by apply Hignored.
Defined.

(** X20: a press on the alerts button of the settings, by a subscriber: the
    notification flag is inverted and the new state written to disk.
    The settings are then to be shown again through [update.message],
    which a press of a button does not have: the handler ends in
    [AttributeError], nothing is shown and the message with the buttons
    is not deleted. *)
Theorem alerts_press_flips_then_raises (T : Telegram) (L : Lib) (update : Update)
    (s : Chat) (prefs : UserPreferences) :
  callback_query update = Some "toggle_alerts" ->
  user_prefs (bot (world s)) !! effective_user update = Some prefs ->
  call_ok T (length (calls s)) = true ->
  let r := handle_callback T L update s in
  user_prefs (bot (world (snd r))) !! effective_user update
  = Some (with_alerts (negb (notify_on_launch prefs)) prefs)
  /\ (forall other, other <> effective_user update ->
        user_prefs (bot (world (snd r))) !! other = user_prefs (bot (world s)) !! other)
  /\ seen_markets (bot (world (snd r))) = seen_markets (bot (world s))
  /\ data_file (world (snd r)) = Some (data_to_json L (bot (world (snd r))))
  /\ (has_message update = false ->
      fst r = Raised AttributeError /\ calls (snd r) = calls s ++ [(Answer, true)])
  /\ (has_message update = true ->
      exists shown,
        calls (snd r)
        = calls s ++ [(Answer, true);
                      (ReplyText (CurrentSettings (negb (notify_on_launch prefs))
                                    (size (enabled_categories prefs)) (length (keywords prefs))
                                    (min_liquidity prefs) (min_volume prefs))
                                 (settings_keyboard
                                    (with_alerts (negb (notify_on_launch prefs)) prefs)),
                       shown)]
          ++ if shown then [(DeleteMessage, call_ok T (2 + length (calls s)))] else []).
Proof.
  intros Hdata Hp Hanswer r. subst r.
  unfold handle_callback. rewrite Hdata.
  change (startswith "toggle_alerts" "cat_") with false.
  change (String.eqb "toggle_alerts" "cat_menu") with false.
  change (String.eqb "toggle_alerts" "toggle_alerts") with true.
  unfold cmd_settings. chat. rewrite Hanswer. chat. rewrite Hp. chat.
  rewrite lookup_alter_eq, Hp. cbn [fmap option_fmap option_map].
  destruct (has_message update); chat.
  - rewrite !(last_length (A := Call * bool)).
    destruct (call_ok T (S (length (calls s)))) eqn:Hshown; chat; cbn [Exception].
    + rewrite ?(last_length (A := Call * bool)).
      destruct (call_ok T (S (S (length (calls s))))) eqn:Hdel; chat.
      all: split; [by rewrite lookup_alter_eq, Hp |].
      all: split; [intros other Hne; by rewrite lookup_alter_ne |].
      all: do 3 (split; [done |]).
      all: intros _; exists true; rewrite <- !(assoc_L (++)); cbn [app Nat.add];
        by rewrite Hdel.
    + split; [by rewrite lookup_alter_eq, Hp |].
      split; [intros other Hne; by rewrite lookup_alter_ne |].
      do 3 (split; [done |]).
      intros _. exists false. by rewrite <- !(assoc_L (++)).
  - split; [by rewrite lookup_alter_eq, Hp |].
    split; [intros other Hne; by rewrite lookup_alter_ne |].
    by repeat split.
Qed.

Lemma alerts_press_flips_then_raises_witness :
  let s := fresh_chat (fresh_world (bot_of crypto_subscriber)) in
  let r := handle_callback reliable iso_lib (press_by 7 "toggle_alerts") s in
  user_prefs (bot (world (snd r))) !! 7 = Some (with_alerts false crypto_subscriber)
  /\ fst r = Raised AttributeError.
Proof.
  intros s r.
  destruct (alerts_press_flips_then_raises reliable iso_lib (press_by 7 "toggle_alerts") s
              crypto_subscriber)
    as (Hflipped & _ & _ & _ & Hraises & _); [done | by vm_compute | done |].
  split; [exact Hflipped |]. by apply Hraises.
Defined.

(** X21: a press on the keywords or on the filters button of the settings:
    once the press is answered, the hint replaces the text of the
    message, and when that has worked the message is deleted at once; a
    deletion that fails is passed over in silence.  The world is not
    touched. *)
Theorem hint_is_deleted_at_once (T : Telegram) (L : Lib) (update : Update) (s : Chat)
    (data : string) (hint : Text) :
  (data, hint) = ("set_keywords", SendKeywords) \/ (data, hint) = ("set_filters", SendFilters) ->
  callback_query update = Some data ->
  call_ok T (length (calls s)) = true ->
  let r := handle_callback T L update s in
  let edited := call_ok T (1 + length (calls s)) in
  world (snd r) = world s
  /\ fst r = (if edited then Returned tt else Raised ChannelError)
  /\ calls (snd r)
     = calls s ++ [(Answer, true); (EditMessageText hint, edited)]
       ++ if edited then [(DeleteMessage, call_ok T (2 + length (calls s)))] else [].
Proof.
  intros Hcase Hdata Hanswer r edited. subst r edited.
  unfold handle_callback. rewrite Hdata.
  destruct Hcase as [[= -> ->] | [= -> ->]].
  - change (startswith "set_keywords" "cat_") with false.
    change (String.eqb "set_keywords" "cat_menu") with false.
    change (String.eqb "set_keywords" "toggle_alerts") with false.
    change (String.eqb "set_keywords" "set_keywords") with true.
    chat. rewrite Hanswer. chat. rewrite !(last_length (A := Call * bool)).
    cbn [Nat.add]. destruct (call_ok T (S (length (calls s)))); chat; cbn [Exception].
    + rewrite ?(last_length (A := Call * bool)).
      destruct (call_ok T (S (S (length (calls s))))); chat;
        by rewrite <- !(assoc_L (++)).
    + by rewrite <- !(assoc_L (++)).
  - change (startswith "set_filters" "cat_") with false.
    change (String.eqb "set_filters" "cat_menu") with false.
    change (String.eqb "set_filters" "toggle_alerts") with false.
    change (String.eqb "set_filters" "set_keywords") with false.
    change (String.eqb "set_filters" "set_filters") with true.
    chat. rewrite Hanswer. chat. rewrite !(last_length (A := Call * bool)).
    cbn [Nat.add]. destruct (call_ok T (S (length (calls s)))); chat; cbn [Exception].
    + rewrite ?(last_length (A := Call * bool)).
      destruct (call_ok T (S (S (length (calls s))))); chat;
        by rewrite <- !(assoc_L (++)).
    + by rewrite <- !(assoc_L (++)).
Qed.

Lemma hint_is_deleted_at_once_witness :
  let s := fresh_chat (fresh_world (bot_of crypto_subscriber)) in
  handle_callback reliable iso_lib (press_by 7 "set_keywords") s
  = (Returned tt,
     {| world := world s;
        calls := [(Answer, true); (EditMessageText SendKeywords, true); (DeleteMessage, true)] |}).
Proof.
  intros s.
  destruct (hint_is_deleted_at_once reliable iso_lib (press_by 7 "set_keywords") s
              "set_keywords" SendKeywords)
    as (Hworld & Hret & Hcalls); [by left | done | done |].
  destruct (handle_callback reliable iso_lib (press_by 7 "set_keywords") s) as [r [w' c']].
  cbn in Hworld, Hret, Hcalls. by subst.
Defined.

(** ** What the handlers leave alone *)

Section Keeps.

Context (R : World -> World -> Prop) `{!PreOrder R}.

Lemma keeps_returning {A} (a : A) : keeps R (returning a).
Proof. by intros s. Qed.

Lemma keeps_raising {A} (e : exn) : keeps R (@raising A e).
Proof. by intros s. Qed.

Lemma keeps_call (T : Telegram) (c : Call) : keeps R (call T c).
Proof. by intros s. Qed.

Lemma keeps_in_world {A} (c : M A) : stable R c -> keeps R (in_world c).
Proof. intros Hc s. apply Hc. Qed.

Lemma keeps_and_then {A B} (c : Handler A) (k : A -> Handler B) :
  keeps R c -> (forall a, keeps R (k a)) -> keeps R (and_then c k).
Proof.
  intros Hc Hk s. unfold and_then. pose proof (Hc s) as Hs.
  destruct (c s) as [[a|e|] s']; [| done | done].
  cbn in Hs. etrans; [exact Hs | apply Hk].
Qed.

Lemma keeps_guarded {A} (body : Handler A) (classes : exn -> bool)
    (handler : exn -> Handler A) :
  keeps R body -> (forall e, keeps R (handler e)) -> keeps R (guarded body classes handler).
Proof.
  intros Hbody Hhandler s. unfold guarded. pose proof (Hbody s) as Hs.
  destruct (body s) as [[a|e|] s']; [done | | done].
  destruct (classes e); [| done].
  cbn in Hs. etrans; [exact Hs | apply Hhandler].
Qed.

Lemma keeps_message_reply_text (T : Telegram) (update : Update) (shown : Text)
    (keyboard : list Button) :
  keeps R (message_reply_text T update shown keyboard).
Proof.
  unfold message_reply_text. destruct (has_message update);
    [apply keeps_call | apply keeps_raising].
Qed.

End Keeps.

Lemma settings_only_preorder (user : Z) : PreOrder (settings_only user).
Proof.
  split.
  - intros w. unfold settings_only. do 7 (split; [done |]).
    destruct (user_prefs (bot w) !! user) as [prefs|]; [by exists prefs | done].
  - intros w1 w2 w3 (Hs & Ho & Hr & Hl & Hc & Hf & Hother & Huser)
      (Hs' & Ho' & Hr' & Hl' & Hc' & Hf' & Hother' & Huser').
    unfold settings_only. do 6 (split; [congruence |]).
    split; [intros other Hne; by rewrite Hother', Hother |].
    destruct (user_prefs (bot w1) !! user) as [prefs|].
    + destruct Huser as (prefs' & Hp' & Hid & Hlast). rewrite Hp' in Huser'.
      destruct Huser' as (prefs'' & Hp'' & Hid' & Hlast').
      exists prefs''. split; [done |]. split; congruence.
    + by rewrite Huser in Huser'.
Qed.

#[local] Existing Instance settings_only_preorder.

Lemma update_prefs_settings_only (user : Z) (change : UserPreferences -> UserPreferences) :
  (forall prefs, user_id (change prefs) = user_id prefs
                 /\ last_notified (change prefs) = last_notified prefs) ->
  stable (settings_only user) (update_prefs user change).
Proof.
  intros Hchange w. unfold update_prefs, settings_only. run.
  do 6 (split; [done |]). cbn [user_prefs seen_markets].
  split; [intros other Hne; by apply lookup_alter_ne |].
  rewrite lookup_alter_eq.
  destruct (user_prefs (bot w) !! user) as [prefs|]; [| done].
  exists (change prefs). split; [done |]. apply Hchange.
Qed.

Lemma save_data_settings_only (user : Z) (L : Lib) : stable (settings_only user) (save_data L).
Proof.
  intros w. unfold save_data, settings_only. run. do 7 (split; [done |]).
  destruct (user_prefs (bot w) !! user) as [prefs|]; [by exists prefs | done].
Qed.

Lemma unchanged_settings_only {A} (user : Z) (c : M A) :
  (forall w, snd (c w) = w) -> stable (settings_only user) c.
Proof. intros Hc w. rewrite Hc. reflexivity. Qed.

Lemma show_category_menu_keeps (R : World -> World -> Prop) `{!PreOrder R}
    (T : Telegram) (chat_id : Z) :
  keeps R (show_category_menu T chat_id).
Proof.
  unfold show_category_menu.
  apply keeps_and_then; [done | apply keeps_in_world; intros w; reflexivity | intros self].
  destruct (user_prefs self !! chat_id); [by apply keeps_call | by apply keeps_returning].
Qed.

Lemma cmd_settings_keeps (R : World -> World -> Prop) `{!PreOrder R}
    (T : Telegram) (update : Update) :
  keeps R (cmd_settings T update).
Proof.
  unfold cmd_settings.
  apply keeps_and_then; [done | apply keeps_in_world; intros w; reflexivity | intros self].
  destruct (user_prefs self !! effective_user update); by apply keeps_message_reply_text.
Qed.

(** X22: none of the handlers for the settings sends an alert, answers
    through the channel of /start and /test, writes to the log, reads the
    clock or asks the API; none changes the ledger; none adds or removes
    a subscriber, touches the record of anybody but the user the update
    comes from, or changes the times of that user's last notifications.
    This holds however the handler ends. *)
Theorem handlers_change_settings_only (T : Telegram) (L : Lib) (update : Update)
    (args : list string) (s : Chat) :
  let user := effective_user update in
  settings_only user (world s) (world (snd (cmd_settings T update s)))
  /\ settings_only user (world s) (world (snd (cmd_categories T update s)))
  /\ settings_only user (world s) (world (snd (cmd_keywords T L update args s)))
  /\ settings_only user (world s) (world (snd (cmd_filters T L update args s)))
  /\ settings_only user (world s) (world (snd (handle_callback T L update s)))
  /\ settings_only user (world s) (world (snd (dispatch_callback T L update s))).
Proof.
  intros user.
  assert (stable (settings_only user) get_bot) as Hget
    by (by apply unchanged_settings_only).
  assert (keeps (settings_only user) (handle_callback T L update)) as Hcallback.
  { unfold handle_callback. destruct (callback_query update) as [data|];
      [| apply keeps_raising, _].
    apply keeps_and_then; [apply _ | apply keeps_call, _ | intros _].
    apply keeps_and_then; [apply _ | | intros _].
    2: { apply keeps_guarded; [apply _ | apply keeps_call, _ |].
         intros e. apply keeps_returning, _. }
    destruct (startswith data "cat_").
    { apply keeps_and_then; [apply _ | by apply keeps_in_world | intros self].
      destruct (user_prefs self !! effective_user update) as [prefs|];
        [| apply keeps_returning, _].
      apply keeps_and_then; [apply _ | | intros _].
      { by apply keeps_in_world, update_prefs_settings_only. }
      apply keeps_and_then; [apply _ | | intros _].
      { apply keeps_in_world, save_data_settings_only. }
      apply show_category_menu_keeps, _. }
    destruct (String.eqb data "cat_menu"); [apply show_category_menu_keeps, _ |].
    destruct (String.eqb data "toggle_alerts").
    { apply keeps_and_then; [apply _ | by apply keeps_in_world | intros self].
      destruct (user_prefs self !! effective_user update) as [prefs|];
        [| apply keeps_returning, _].
      apply keeps_and_then; [apply _ | | intros _].
      { by apply keeps_in_world, update_prefs_settings_only. }
      apply keeps_and_then; [apply _ | | intros _].
      { apply keeps_in_world, save_data_settings_only. }
      apply cmd_settings_keeps, _. }
    destruct (String.eqb data "set_keywords"); [apply keeps_call, _ |].
    destruct (String.eqb data "set_filters"); [apply keeps_call, _ |].
    destruct (String.eqb data "back_settings"); [apply cmd_settings_keeps, _ |].
    apply keeps_returning, _. }
  assert (keeps (settings_only user) (cmd_keywords T L update args)) as Hkeywords.
  { unfold cmd_keywords. destruct (list_truthy args);
      [| apply keeps_message_reply_text, _].
    apply keeps_and_then; [apply _ | by apply keeps_in_world | intros self].
    destruct (user_prefs self !! effective_user update) as [prefs|];
      [| apply keeps_returning, _].
    apply keeps_and_then; [apply _ | | intros _].
    { by apply keeps_in_world, update_prefs_settings_only. }
    apply keeps_and_then; [apply _ | | intros _].
    { apply keeps_in_world, save_data_settings_only. }
    apply keeps_message_reply_text, _. }
  assert (keeps (settings_only user) (cmd_filters T L update args)) as Hfilters.
  { unfold cmd_filters.
    apply keeps_and_then; [apply _ | by apply keeps_in_world | intros self].
    destruct (user_prefs self !! effective_user update) as [prefs|];
      [| apply keeps_returning, _].
    destruct args as [|first [|second more]]; try apply keeps_message_reply_text, _.
    apply keeps_guarded; [apply _ | | intros e; apply keeps_message_reply_text, _].
    apply keeps_and_then; [apply _ | | intros liquidity_min].
    { apply keeps_in_world, unchanged_settings_only. intros w.
      by rewrite (pure_py_float L (JStr first) w). }
    apply keeps_and_then; [apply _ | | intros volume_min].
    { apply keeps_in_world, unchanged_settings_only. intros w.
      by rewrite (pure_py_float L (JStr second) w). }
    apply keeps_and_then; [apply _ | | intros _].
    { by apply keeps_in_world, update_prefs_settings_only. }
    apply keeps_and_then; [apply _ | | intros _].
    { apply keeps_in_world, save_data_settings_only. }
    apply keeps_message_reply_text, _. }
  split; [apply (cmd_settings_keeps (settings_only user) T update s) |].
  split; [apply (show_category_menu_keeps (settings_only user) T (effective_chat update) s) |].
  split; [apply Hkeywords |]. split; [apply Hfilters |]. split; [apply Hcallback |].
  unfold dispatch_callback. destruct (callback_query update) as [data|]; [| reflexivity].
  destruct (existsb _ _); [apply Hcallback | reflexivity].
Qed.
